(** * Trading bot decision engine: a shallow embedding and its properties

    The development follows the JavaScript sources
      - [src/services/technicalIndicators.js]  (the SMA, EMA, RSI and
                                                MACD series),
      - [src/bot/analysisEngine.js]            (analyzers, consensus),
      - [src/bot/fibonacciCalculator.js]       (support / resistance,
                                                stops and targets),
      - [src/bot/tradingBot.js]                (config, sizing, lifecycle,
                                                active symbols).

    Conventions of the embedding.
      - A JavaScript number is an exact rational ([Q]); equality of numbers
        is [Qeq] (written [==]).  The rounding of IEEE doubles is not
        part of these definitions.
      - Where the source can divide by zero, read a missing element or
        start from [Infinity], the numbers are those of [Number], with
        the infinities and [NaN].
      - Where rounding decides the outcome (the margin and the rounded
        confidence of the consensus) the code is embedded over the
        binary64 floats of [Ieee], in [InDoubles].
      - [undefined] (an index outside an array, a missing field) is [None];
        a comparison with an undefined operand is [false], as in the
        source.
      - A call that may throw returns an [outcome]; code that talks to the
        brokerage or to the database runs in the monad [Effects.M], which
        records the effects that took place.
      - Console output, timestamps and the values snapshot of an analyzer
        result are not modelled. *)

From Stdlib Require Import QArith Qround Qabs Qminmax Lqa.
From Stdlib Require Import ZArith Lia List String Bool.
From Stdlib Require Floats Uint63.
Import ListNotations.

Open Scope string_scope.
Open Scope list_scope.
Open Scope Q_scope.

(* ------------------------------------------------------------------ *)
(** ** JavaScript numbers and arrays *)

Module Js.

(** [x < y], [x > y], [x <= y], [x >= y] on numbers. *)
Definition ltb (x y : Q) : bool := negb (Qle_bool y x).
Definition gtb (x y : Q) : bool := ltb y x.
Definition leb (x y : Q) : bool := Qle_bool x y.
Definition geb (x y : Q) : bool := Qle_bool y x.

(** The same comparisons when an operand may be [undefined]. *)
Definition lift2 (op : Q -> Q -> bool) (x y : option Q) : bool :=
  match x, y with
  | Some a, Some b => op a b
  | _, _ => false
  end.

(** [Math.round]: the nearest integer, halves towards plus infinity. *)
Definition Math_round (x : Q) : Q := inject_Z (Qfloor (x + (1 # 2))).

Definition Math_min : Q -> Q -> Q := Qmin.
Definition Math_max : Q -> Q -> Q := Qmax.
Definition Math_abs : Q -> Q := Qabs.

(** [parseFloat(x.toFixed(d))]: [x] rounded to [d] decimals, halves away
    from zero (Number.prototype.toFixed takes the larger candidate of
    the absolute value and puts the sign back). *)
Definition pow10 (d : nat) : Q := inject_Z (10 ^ Z.of_nat d).

Definition toFixed (d : nat) (x : Q) : Q :=
  if ltb x 0
  then - (Math_round (- x * pow10 d) / pow10 d)
  else Math_round (x * pow10 d) / pow10 d.

(** [xs[xs.length - k]]: the [k]-th element from the end, [undefined]
    when the index falls outside the array. *)
Definition fromEnd {A : Type} (xs : list A) (k : nat) : option A :=
  if ((1 <=? k) && (k <=? List.length xs))%nat
  then nth_error xs (List.length xs - k)
  else None.

(** [x || d] for a possibly missing number: [undefined] and [0] are
    falsy. *)
Definition orElse (x : option Q) (d : Q) : Q :=
  match x with
  | Some v => if Qeq_bool v 0 then d else v
  | None => d
  end.

(** [Math.max(...xs)] and [Math.min(...xs)] of a non-empty array given
    as head and tail. *)
Definition maxOf (x : Q) (xs : list Q) : Q := fold_left Qmax xs x.
Definition minOf (x : Q) (xs : list Q) : Q := fold_left Qmin xs x.

(** [xs.slice(-n)]: the last [n] elements. *)
Definition sliceLast {A : Type} (n : nat) (xs : list A) : list A :=
  skipn (List.length xs - n) xs.

End Js.

(** A call either returns or throws an [Error] with a message. *)
Inductive outcome (A : Type) : Type :=
| Returned (a : A)
| Thrown (message : string).
Arguments Returned {A} a.
Arguments Thrown {A} message.

Definition andThen {A B : Type} (m : outcome A) (k : A -> outcome B)
  : outcome B :=
  match m with
  | Returned a => k a
  | Thrown e => Thrown e
  end.

Declare Scope outcome_scope.
Delimit Scope outcome_scope with outcome.
Notation "'try!' x <- m ; k" := (andThen m (fun x => k))
  (at level 10, x name, m at level 100, k at level 200) : outcome_scope.

(* ------------------------------------------------------------------ *)
(** ** src/services/technicalIndicators.js *)

Module TechnicalIndicators.
Import Js.

(** The price changes of [rsi], split into gains and losses
    (lines 92-96). *)
Fixpoint changes (prev : Q) (rest : list Q) : list (Q * Q) :=
  match rest with
  | [] => []
  | x :: rest' =>
      let change := x - prev in
      (if gtb change 0 then change else 0,
       if ltb change 0 then Math_abs change else 0)
        :: changes x rest'
  end.

Definition rsiOf (avgGain avgLoss : Q) : Q :=
  let rs := avgGain / (if Qeq_bool avgLoss 0 then 0.001 else avgLoss) in
  100 - 100 / (1 + rs).

(** The smoothing loop of lines 116-123. *)
Fixpoint smooth (period : Q) (avgGain avgLoss : Q) (rest : list (Q * Q))
  : list Q :=
  match rest with
  | [] => []
  | (gain, loss) :: rest' =>
      let avgGain' := (avgGain * (period - 1) + gain) / period in
      let avgLoss' := (avgLoss * (period - 1) + loss) / period in
      rsiOf avgGain' avgLoss' :: smooth period avgGain' avgLoss' rest'
  end.

(** [technicalIndicators.rsi(data, period)]. *)
Definition rsi (data : list Q) (period : nat) : list Q :=
  if (List.length data <? period + 1)%nat then []
  else
    match data with
    | [] => []
    | first :: rest =>
        let gl := changes first rest in
        let p := inject_Z (Z.of_nat period) in
        let initial := firstn period gl in
        let avgGain := fold_left (fun s c => s + fst c) initial 0 / p in
        let avgLoss := fold_left (fun s c => s + snd c) initial 0 / p in
        rsiOf avgGain avgLoss
          :: smooth p avgGain avgLoss (skipn period gl)
    end.

End TechnicalIndicators.

(* ------------------------------------------------------------------ *)
(** ** src/bot/analysisEngine.js *)

Module AnalysisEngine.
Import Js.

Inductive Direction : Set := BUY | SELL | NEUTRAL.

Definition Direction_eqb (a b : Direction) : bool :=
  match a, b with
  | BUY, BUY | SELL, SELL | NEUTRAL, NEUTRAL => true
  | _, _ => false
  end.

Record Signal : Type := mkSignal {
  s_name : string;
  s_direction : Direction;
  s_strength : Q
}.

Record AnalyzerResult : Type := mkResult {
  r_direction : Direction;
  r_confidence : Q;
  r_signals : list Signal
}.

(** *** The closing block of the signal analyzers

    Lines 228-248 (Moving Averages), 336-356 (RSI), 443-463 (MACD),
    564-584 (Bollinger Bands), 679-699 (Support/Resistance), 864-884
    (Volume), 1029-1049 (Candlestick Patterns), 1174-1194 (Fibonacci)
    and 1321-1341 (Trend Strength) are the same text up to the literal
    in [Math.min]; [cap] is that literal. *)
Definition strengthSum (signals : list Signal) : Q :=
  fold_left (fun sum s => sum + s_strength s) signals 0.

Definition verdict (cap : Q) (signals : list Signal) : Direction * Q :=
  match signals with
  | [] => (NEUTRAL, 50)
  | _ :: _ =>
      let buySignals :=
        filter (fun s => Direction_eqb (s_direction s) BUY) signals in
      let sellSignals :=
        filter (fun s => Direction_eqb (s_direction s) SELL) signals in
      let buyStrength := strengthSum buySignals in
      let sellStrength := strengthSum sellSignals in
      if gtb buyStrength sellStrength then
        (BUY, Math_min cap (50 + Math_round ((buyStrength - sellStrength) / 2)))
      else if gtb sellStrength buyStrength then
        (SELL, Math_min cap (50 + Math_round ((sellStrength - buyStrength) / 2)))
      else (NEUTRAL, 50)
  end.

(** The ten analyzers of [performTechnicalAnalysis], with the name and
    the weight each is pushed with (lines 31-109). *)
Inductive Analyzer : Set :=
| MovingAverages | RSI | MACD | BollingerBands | SupportResistance
| Volume | CandlestickPatterns | Fibonacci | TrendStrength
| MarketSentiment.

Definition analyzerName (a : Analyzer) : string :=
  match a with
  | MovingAverages => "Moving Averages"
  | RSI => "RSI"
  | MACD => "MACD"
  | BollingerBands => "Bollinger Bands"
  | SupportResistance => "Support/Resistance"
  | Volume => "Volume"
  | CandlestickPatterns => "Candlestick Patterns"
  | Fibonacci => "Fibonacci"
  | TrendStrength => "Trend Strength"
  | MarketSentiment => "Market Sentiment"
  end.

Definition analyzerWeight (a : Analyzer) : Q :=
  match a with
  | MovingAverages => 15
  | RSI => 10
  | MACD => 12
  | BollingerBands => 10
  | SupportResistance => 12
  | Volume => 8
  | CandlestickPatterns => 10
  | Fibonacci => 8
  | TrendStrength => 7
  | MarketSentiment => 8
  end.

(** What an analyzer with a closing block returns once it has emitted
    [signals]. *)
Definition conclude (cap : Q) (signals : list Signal) : AnalyzerResult :=
  let (direction, confidence) := verdict cap signals in
  mkResult direction confidence signals.

(** *** analyzeRSI (lines 268-366) *)
Definition analyzeRSI (closes : list Q) : AnalyzerResult :=
  let rsiPeriod := 14%nat in
  let rsiValues := TechnicalIndicators.rsi closes rsiPeriod in
  let currentRSI := fromEnd rsiValues 1 in
  let oversold :=
    match currentRSI with
    | Some r =>
        if ltb r 30
        then [mkSignal "RSI Oversold" BUY (70 + (30 - r) * 2)]
        else []
    | None => []
    end in
  let overbought :=
    match currentRSI with
    | Some r =>
        if gtb r 70
        then [mkSignal "RSI Overbought" SELL (70 + (r - 70) * 2)]
        else []
    | None => []
    end in
  let crossAbove :=
    if lift2 gtb currentRSI (Some 30)
       && lift2 leb (fromEnd rsiValues 2) (Some 30)
    then [mkSignal "RSI Crosses Above 30" BUY 65] else [] in
  let crossBelow :=
    if lift2 ltb currentRSI (Some 70)
       && lift2 geb (fromEnd rsiValues 2) (Some 70)
    then [mkSignal "RSI Crosses Below 70" SELL 65] else [] in
  let priceUp := lift2 gtb (fromEnd closes 1) (fromEnd closes 5) in
  let rsiUp := lift2 gtb (fromEnd rsiValues 1) (fromEnd rsiValues 5) in
  let divergence :=
    if priceUp && negb rsiUp
    then [mkSignal "Bearish RSI Divergence" SELL 75]
    else if negb priceUp && rsiUp
    then [mkSignal "Bullish RSI Divergence" BUY 75]
    else [] in
  conclude 90
    (oversold ++ overbought ++ crossAbove ++ crossBelow ++ divergence).

(** *** analyzeMarketSentiment (lines 1360-1442)

    [news] is what [getMarketNews(symbol, 5)] gave: [Thrown] when the
    call failed, otherwise the sentiment of each item (an empty list
    also stands for a missing answer). *)
Definition analyzeMarketSentiment (news : outcome (list Q))
  : AnalyzerResult :=
  match news with
  | Thrown _ => mkResult NEUTRAL 50 []
  | Returned [] => mkResult NEUTRAL 50 []
  | Returned newsItems =>
      let sentimentScore := fold_left Qplus newsItems 0 in
      let avgSentiment :=
        sentimentScore / inject_Z (Z.of_nat (List.length newsItems)) in
      if gtb avgSentiment 0.2 then
        let confidence := 50 + Math_min 30 (Math_round (avgSentiment * 100)) in
        mkResult BUY confidence
          [mkSignal "Positive Market Sentiment" BUY confidence]
      else if ltb avgSentiment (- 0.2) then
        let confidence :=
          50 + Math_min 30 (Math_round (Math_abs avgSentiment * 100)) in
        mkResult SELL confidence
          [mkSignal "Negative Market Sentiment" SELL confidence]
      else mkResult NEUTRAL 50 []
  end.

(** *** calculateFinalResult (lines 1449-1551) *)
Record AnalysisEntry : Type := mkEntry {
  a_name : string;
  a_result : AnalyzerResult;
  a_weight : Q
}.

(** [importance] only ever holds the literals 7, 8 and 9. *)
Record DangerSignal : Type := mkDanger {
  d_name : string;
  d_importance : Z
}.

Record Tally : Type := mkTally {
  totalBuyWeight : Q;
  totalSellWeight : Q;
  totalWeight : Q;
  t_dangerSignals : list DangerSignal
}.

(** [signals.some((s) => s.name === name && s.strength >= least)] *)
Definition someSignal (name : string) (least : Q) (signals : list Signal)
  : bool :=
  existsb (fun s => String.eqb (s_name s) name && geb (s_strength s) least)
          signals.

(** One turn of the loop of lines 1455-1521. *)
Definition tallyStep (t : Tally) (analysis : AnalysisEntry) : Tally :=
  let result := a_result analysis in
  let weight := a_weight analysis in
  let isBuy := Direction_eqb (r_direction result) BUY in
  let isSell := Direction_eqb (r_direction result) SELL in
  let named := String.eqb (a_name analysis) in
  mkTally
    (if isBuy
     then totalBuyWeight t + weight * (r_confidence result / 100)
     else totalBuyWeight t)
    (if isBuy then totalSellWeight t
     else if isSell
     then totalSellWeight t + weight * (r_confidence result / 100)
     else totalSellWeight t)
    (totalWeight t + weight)
    (t_dangerSignals t
     ++ (if named "Bollinger Bands"
            && someSignal "Price Above Upper Band" 70 (r_signals result)
         then [mkDanger "Extreme Overbought on Bollinger Bands" 8] else [])
     ++ (if named "Bollinger Bands"
            && someSignal "Price Below Lower Band" 70 (r_signals result)
         then [mkDanger "Extreme Oversold on Bollinger Bands" 8] else [])
     ++ (if named "RSI"
            && someSignal "RSI Overbought" 75 (r_signals result)
         then [mkDanger "Extreme Overbought on RSI" 7] else [])
     ++ (if named "RSI"
            && someSignal "RSI Oversold" 75 (r_signals result)
         then [mkDanger "Extreme Oversold on RSI" 7] else [])
     ++ (if named "Volume"
            && someSignal "Volume Climax" 70 (r_signals result)
         then [mkDanger "Volume Climax Detected" 9] else [])).

Definition tally (analyses : list AnalysisEntry) : Tally :=
  fold_left tallyStep analyses (mkTally 0 0 0 []).

Record FinalResult : Type := mkFinal {
  f_direction : Direction;
  f_confidence : Q;
  f_dangerSignals : list DangerSignal
}.

(** With a total weight of zero the source divides by zero; in [Q] the
    quotient is [0].  The weights of [performTechnicalAnalysis] add up
    to 100.  The scores are exact here; [InDoubles.calculateFinalResult]
    below computes them as the source does, in doubles, and is the one
    to consult where a score is within rounding of the margin or of a
    half. *)
Definition calculateFinalResult (analyses : list AnalysisEntry)
  : FinalResult :=
  let t := tally analyses in
  let buyScore := totalBuyWeight t / totalWeight t in
  let sellScore := totalSellWeight t / totalWeight t in
  let (direction, confidence) :=
    if gtb buyScore (sellScore + 0.1)
    then (BUY, Math_round (buyScore * 100))
    else if gtb sellScore (buyScore + 0.1)
    then (SELL, Math_round (sellScore * 100))
    else (NEUTRAL, 50) in
  mkFinal direction (Math_min 100 (Math_max 50 confidence))
          (t_dangerSignals t).

(** *** calculateFibonacciRetracementLevels (lines 1206-1247) *)
Definition calculateFibonacciRetracementLevels
           (highestPoint lowestPoint : Q) (isUptrend : bool)
  : list (string * Q) :=
  let range := highestPoint - lowestPoint in
  [ ("0", if isUptrend then highestPoint else lowestPoint);
    ("0.236", if isUptrend then highestPoint - range * 0.236
              else lowestPoint + range * 0.236);
    ("0.382", if isUptrend then highestPoint - range * 0.382
              else lowestPoint + range * 0.382);
    ("0.5", if isUptrend then highestPoint - range * 0.5
            else lowestPoint + range * 0.5);
    ("0.618", if isUptrend then highestPoint - range * 0.618
              else lowestPoint + range * 0.618);
    ("0.786", if isUptrend then highestPoint - range * 0.786
              else lowestPoint + range * 0.786);
    ("1", if isUptrend then lowestPoint else highestPoint) ]%string.

(** [fibLevels.find((level) => level.name === name)], the price. *)
Definition levelPrice (name : string) (levels : list (string * Q))
  : option Q :=
  option_map snd (find (fun l => String.eqb (fst l) name) levels).

(** *** performTechnicalAnalysis (lines 11-134) *)
Record Bar : Type := mkBar {
  b_open : Q;
  b_high : Q;
  b_low : Q;
  b_close : Q;
  b_volume : Q
}.

(** The analyzers that are not embedded here, and the news service.
    Each may throw.  [analyzeCandlestickPatterns] returns its patterns
    where the others return signals; [calculateFinalResult] reads the
    signals of "Bollinger Bands", "RSI" and "Volume" only. *)
Record AnalyzerSuite : Type := mkSuite {
  analyzeMovingAverages : list Q -> outcome AnalyzerResult;
  analyzeMACD : list Q -> outcome AnalyzerResult;
  analyzeBollingerBands : list Q -> outcome AnalyzerResult;
  analyzeSupportResistance :
    list Q -> list Q -> list Q -> outcome AnalyzerResult;
  analyzeVolume : list Q -> list Q -> outcome AnalyzerResult;
  analyzeCandlestickPatterns : list Bar -> outcome AnalyzerResult;
  analyzeFibonacciLevels :
    list Q -> list Q -> list Q -> outcome AnalyzerResult;
  analyzeADX : list Q -> list Q -> list Q -> outcome AnalyzerResult;
  getMarketNews : string -> nat -> outcome (list Q)
}.

(** [direction] is [None] for [null], [undefined] or the empty string,
    [confidence] is [None] for [undefined]. *)
Record AnalysisReport : Type := mkReport {
  symbol : string;
  price : option Q;
  analyses : list AnalysisEntry;
  direction : option Direction;
  confidence : option Q;
  dangerSignals : list DangerSignal;
  error : option string
}.

Section PerformTechnicalAnalysis.
Variable suite : AnalyzerSuite.
Local Open Scope outcome_scope.

Definition entry (a : Analyzer) (result : AnalyzerResult)
  : AnalysisEntry :=
  mkEntry (analyzerName a) result (analyzerWeight a).

(** The body of the [try] block, up to the ten pushes. *)
Definition runAnalyzers (sym : string) (barData : list Bar)
  : outcome (list AnalysisEntry) :=
  let closes := map b_close barData in
  let highs := map b_high barData in
  let lows := map b_low barData in
  let volumes := map b_volume barData in
  try! maResult <- analyzeMovingAverages suite closes;
  let rsiResult := analyzeRSI closes in
  try! macdResult <- analyzeMACD suite closes;
  try! bbResult <- analyzeBollingerBands suite closes;
  try! srResult <- analyzeSupportResistance suite highs lows closes;
  try! volumeResult <- analyzeVolume suite closes volumes;
  try! candleResult <- analyzeCandlestickPatterns suite barData;
  try! fibResult <- analyzeFibonacciLevels suite highs lows closes;
  try! adxResult <- analyzeADX suite highs lows closes;
  let sentimentResult :=
    analyzeMarketSentiment (getMarketNews suite sym 5%nat) in
  Returned
    [ entry MovingAverages maResult;
      entry RSI rsiResult;
      entry MACD macdResult;
      entry BollingerBands bbResult;
      entry SupportResistance srResult;
      entry Volume volumeResult;
      entry CandlestickPatterns candleResult;
      entry Fibonacci fibResult;
      entry TrendStrength adxResult;
      entry MarketSentiment sentimentResult ].

(** The [catch] block reads the close of the last bar and so throws
    in turn when there is no bar. *)
Definition performTechnicalAnalysis (sym : string) (barData : list Bar)
  : outcome AnalysisReport :=
  match runAnalyzers sym barData with
  | Returned entries =>
      let final := calculateFinalResult entries in
      Returned
        (mkReport sym (fromEnd (map b_close barData) 1) entries
                  (Some (f_direction final)) (Some (f_confidence final))
                  (f_dangerSignals final) None)
  | Thrown message =>
      match fromEnd barData 1 with
      | Some lastBar =>
          Returned
            (mkReport sym (Some (b_close lastBar)) []
                      (Some NEUTRAL) (Some 50) [] (Some message))
      | None =>
          Thrown "Cannot read properties of undefined (reading 'close')"
      end
  end.
End PerformTechnicalAnalysis.

End AnalysisEngine.

(* ------------------------------------------------------------------ *)
(** ** src/bot/fibonacciCalculator.js *)

Module FibonacciCalculator.
Import Js.

(** The four variables the two loops of lines 59-82 update. *)
Record Nearest : Type := mkNearest {
  n_support : Q;
  closestSupportDistance : Q;
  n_resistance : Q;
  closestResistanceDistance : Q
}.

(** The body shared by both loops. *)
Definition consider (currentPrice : Q) (n : Nearest) (entry : string * Q)
  : Nearest :=
  let price := snd entry in
  let distance := Math_abs (currentPrice - price) in
  if ltb price currentPrice && ltb distance (closestSupportDistance n)
  then mkNearest price distance
                 (n_resistance n) (closestResistanceDistance n)
  else if gtb price currentPrice
          && ltb distance (closestResistanceDistance n)
  then mkNearest (n_support n) (closestSupportDistance n)
                 price distance
  else n.

(** [Object.entries] lists the keys that are array indices first and
    the other keys in insertion order after them.  The index keys of
    the objects below are "0" and "1", inserted in increasing order. *)
Definition isIndexKey (key : string) : bool :=
  String.eqb key "0" || String.eqb key "1".

Definition Object_entries (object : list (string * Q))
  : list (string * Q) :=
  filter (fun e => isIndexKey (fst e)) object
  ++ filter (fun e => negb (isIndexKey (fst e))) object.

Definition retracements (highestPrice lowestPrice : Q) (isUptrend : bool)
  : list (string * Q) :=
  let range := highestPrice - lowestPrice in
  [ ("0", if isUptrend then highestPrice else lowestPrice);
    ("0.236", if isUptrend then highestPrice - range * 0.236
              else lowestPrice + range * 0.236);
    ("0.382", if isUptrend then highestPrice - range * 0.382
              else lowestPrice + range * 0.382);
    ("0.5", if isUptrend then highestPrice - range * 0.5
            else lowestPrice + range * 0.5);
    ("0.618", if isUptrend then highestPrice - range * 0.618
              else lowestPrice + range * 0.618);
    ("0.786", if isUptrend then highestPrice - range * 0.786
              else lowestPrice + range * 0.786);
    ("1", if isUptrend then lowestPrice else highestPrice) ].

Definition extensionsOf (highestPrice lowestPrice : Q) (isUptrend : bool)
  : list (string * Q) :=
  let range := highestPrice - lowestPrice in
  [ ("1.272", if isUptrend then highestPrice + range * 0.272
              else lowestPrice - range * 0.272);
    ("1.618", if isUptrend then highestPrice + range * 0.618
              else lowestPrice - range * 0.618);
    ("2.618", if isUptrend then highestPrice + range * 1.618
              else lowestPrice - range * 1.618) ].

Record FibonacciLevels : Type := mkFib {
  support : Q;
  resistance : Q;
  levels : list (string * Q);
  extensions : list (string * Q);
  trend : string
}.

(** [calculateFibonacciLevels(prices, isUptrend)] (lines 9-91).  For an
    empty array [Math.max()] is minus infinity and [Math.min()] plus
    infinity: the support returned is plus infinity and the resistance
    minus infinity, which [None] stands for. *)
Definition calculateFibonacciLevels (prices : list Q) (isUptrend : bool)
  : option FibonacciLevels :=
  match prices with
  | [] => None
  | first :: rest =>
      let highestPrice := maxOf first rest in
      let lowestPrice := minOf first rest in
      let levels := retracements highestPrice lowestPrice isUptrend in
      let extensions := extensionsOf highestPrice lowestPrice isUptrend in
      let currentPrice := last rest first in
      let start :=
        mkNearest lowestPrice (Math_abs (currentPrice - lowestPrice))
                  highestPrice (Math_abs (highestPrice - currentPrice)) in
      let afterLevels :=
        fold_left (consider currentPrice) (Object_entries levels) start in
      let afterExtensions :=
        fold_left (consider currentPrice) (Object_entries extensions)
                  afterLevels in
      Some (mkFib (n_support afterExtensions)
                  (n_resistance afterExtensions)
                  levels extensions
                  (if isUptrend then "up" else "down"))
  end.

End FibonacciCalculator.

(* ------------------------------------------------------------------ *)
(** ** src/bot/tradingBot.js *)

Module TradingBot.
Import Js AnalysisEngine.

(** *** Configuration (lines 9-22 and 108-112) *)
Record TradingConfig : Type := mkConfig {
  maxRiskPercent : Q;
  minRiskPercent : Q;
  maxLot : Q;
  minLot : Q;
  targetDailyGrowth : Q;
  stopLossMultiplier : Q;
  takeProfitMultiplier : Q
}.

Definition DEFAULT_CONFIG : TradingConfig :=
  mkConfig 10 0.5 10 0.01 30 0.5 1.5.

(** The argument of [updateConfig]: an object holding some of the
    fields. *)
Record ConfigUpdate : Type := mkUpdate {
  u_maxRiskPercent : option Q;
  u_minRiskPercent : option Q;
  u_maxLot : option Q;
  u_minLot : option Q;
  u_targetDailyGrowth : option Q;
  u_stopLossMultiplier : option Q;
  u_takeProfitMultiplier : option Q
}.

(** One field of [{ ...config, ...newConfig }]. *)
Definition spread (old : Q) (new : option Q) : Q :=
  match new with
  | Some v => v
  | None => old
  end.

Definition updateConfig (config : TradingConfig) (newConfig : ConfigUpdate)
  : TradingConfig :=
  mkConfig
    (spread (maxRiskPercent config) (u_maxRiskPercent newConfig))
    (spread (minRiskPercent config) (u_minRiskPercent newConfig))
    (spread (maxLot config) (u_maxLot newConfig))
    (spread (minLot config) (u_minLot newConfig))
    (spread (targetDailyGrowth config) (u_targetDailyGrowth newConfig))
    (spread (stopLossMultiplier config) (u_stopLossMultiplier newConfig))
    (spread (takeProfitMultiplier config)
            (u_takeProfitMultiplier newConfig)).

(** *** Sizing (openNewPosition, lines 475-505) *)
Section Sizing.
Variable config : TradingConfig.

Definition riskPercent (confidence : Q) : Q :=
  (maxRiskPercent config - minRiskPercent config) * (confidence / 100)
  + minRiskPercent config.

Definition riskAmount (balance confidence : Q) : Q :=
  balance * (riskPercent confidence / 100).

Definition lotMultiplier (confidence : Q) : Q :=
  (maxLot config - minLot config) * (confidence / 100) + minLot config.

(** [quantity] after line 504, for a price other than zero.  At a
    price of zero the source divides by zero and the quotient is
    infinite or [NaN], which [Q] does not hold. *)
Definition clampedQuantity (balance confidence currentPrice : Q) : Q :=
  let baseQuantity := riskAmount balance confidence / currentPrice in
  let quantity := baseQuantity * lotMultiplier confidence in
  Math_max (minLot config) (Math_min (maxLot config) quantity).

(** [quantity] after line 505, as sent with the order. *)
Definition orderQuantity (balance confidence currentPrice : Q) : Q :=
  toFixed 6 (clampedQuantity balance confidence currentPrice).
End Sizing.

(** *** Data of the lifecycle *)

(** An analysis as [manageExistingPositions] and [openNewPosition]
    receive it: [processSymbol] has checked that the direction and the
    confidence are there. *)
Record Analysis : Type := mkAnalysis {
  an_symbol : string;
  an_direction : Direction;
  an_confidence : Q;
  an_price : option Q;
  an_dangerSignals : list DangerSignal
}.

(** A position as the brokerage reports it ([side] is "long" or
    "short"); the numeric fields stand for their [parseFloat]. *)
Record Position : Type := mkPosition {
  p_symbol : string;
  p_qty : Q;
  p_side : string;
  p_avg_entry_price : Q;
  p_current_price : Q;
  p_unrealized_pl : Q
}.

Record SymbolData : Type := mkData {
  isTrading : bool;
  lastAnalysis : option Analysis;
  openPositions : list Position;
  analysisHistory : list Analysis
}.

Inductive TradeStatus : Set := OPEN | CLOSED_REVERSAL | CLOSED_DANGER.

(** The two shapes of record handed to [TradingDatabase.saveTrade].  A
    stop or target that is not a finite number is [None]. *)
Inductive TradeRecord : Type :=
| ClosedTrade (sym : string) (entryPrice exitPrice quantity : Q)
              (side : string) (pnl : Q) (status : TradeStatus)
| OpenedTrade (sym : string) (entryPrice quantity : Q) (side : string)
              (stopLoss takeProfit : option Q) (confidence : Q)
              (status : TradeStatus) (orderId : string).

Definition statusOf (t : TradeRecord) : TradeStatus :=
  match t with
  | ClosedTrade _ _ _ _ _ _ status => status
  | OpenedTrade _ _ _ _ _ _ _ status _ => status
  end.

(** The bracket order of lines 531-544. *)
Record Order : Type := mkOrder {
  o_symbol : string;
  o_qty : Q;
  o_side : string;
  o_type : string;
  o_time_in_force : string;
  o_order_class : string;
  o_stop_price : option Q;
  o_limit_price : option Q
}.

(** The brokerage client and the database, as they answer during one
    evaluation. *)
Record Collaborators : Type := mkCollaborators {
  closePosition : string -> outcome unit;
  getAccount : outcome Q;
  getLatestQuote : string -> outcome (Q * Q);
  createOrder : Order -> outcome string;
  saveTrade : TradeRecord -> outcome unit
}.

(** *** Effects *)
Inductive Event : Type :=
| PositionClosed (sym : string)
| TradeSaved (t : TradeRecord)
| OrderCreated (o : Order) (orderId : string)
| Emitted (channel : string) (sym : string)
| Waited (milliseconds : nat)
| ErrorLogged (context : string) (message : string).

Module Effects.
(** The effects so far, and how the computation ended. *)
Definition M (A : Type) : Type := (list Event * outcome A)%type.

Definition ret {A : Type} (a : A) : M A := ([], Returned a).

Definition bind {A B : Type} (m : M A) (k : A -> M B) : M B :=
  match m with
  | (done, Returned a) =>
      let (more, r) := k a in (done ++ more, r)
  | (done, Thrown e) => (done, Thrown e)
  end.

(** An effect that took place. *)
Definition tell (e : Event) : M unit := ([e], Returned tt).

(** A call to a collaborator: [record] is logged when it returns. *)
Definition call {A : Type} (answer : outcome A) (record : A -> list Event)
  : M A :=
  match answer with
  | Returned a => (record a, Returned a)
  | Thrown e => ([], Thrown e)
  end.

(** [try { body } catch (error) { handler(error) }] *)
Definition catch {A : Type} (body : M A) (handler : string -> M A)
  : M A :=
  match body with
  | (done, Returned a) => (done, Returned a)
  | (done, Thrown e) =>
      let (more, r) := handler e in (done ++ more, r)
  end.

Definition trace {A : Type} (m : M A) : list Event := fst m.
End Effects.
Import Effects.

Declare Scope effects_scope.
Delimit Scope effects_scope with effects.
Notation "x <- m ;; k" := (bind m (fun x => k))
  (at level 61, m at next level, right associativity) : effects_scope.
Notation "m ;; k" := (bind m (fun _ => k))
  (at level 61, right associativity) : effects_scope.

(** *** The position lifecycle *)
Section Lifecycle.
Variable config : TradingConfig.
Variable env : Collaborators.
Local Open Scope effects_scope.

(** [openNewPosition(symbol, data, analysis, balance)]
    (lines 469-576). *)
Definition openNewPosition (sym : string) (data : SymbolData)
           (analysis : Analysis) (balance : Q) : M unit :=
  catch
    (let currentPrice :=
       match getLatestQuote env sym with
       | Returned (bidprice, askprice) => (bidprice + askprice) / 2
       | Thrown _ => orElse (an_price analysis) 100
       end in
     let quantity :=
       orderQuantity config balance (an_confidence analysis)
                     currentPrice in
     let recentBars := sliceLast 20 (analysisHistory data) in
     let prices :=
       map (fun bar => orElse (an_price bar) currentPrice) recentBars in
     let isBuy := Direction_eqb (an_direction analysis) BUY in
     let fibLevels :=
       FibonacciCalculator.calculateFibonacciLevels prices isBuy in
     let stopLossPrice :=
       option_map
         (fun fib =>
            toFixed 2
              (if isBuy
               then orElse (Some (FibonacciCalculator.support fib))
                           (currentPrice * (1 - 0.02))
               else orElse (Some (FibonacciCalculator.resistance fib))
                           (currentPrice * (1 + 0.02))))
         fibLevels in
     let takeProfitPrice :=
       option_map
         (fun fib =>
            toFixed 2
              (if isBuy
               then orElse (Some (FibonacciCalculator.resistance fib))
                           (currentPrice * (1 + 0.05))
               else orElse (Some (FibonacciCalculator.support fib))
                           (currentPrice * (1 - 0.05))))
         fibLevels in
     let order :=
       mkOrder sym quantity (if isBuy then "buy" else "sell")
               "market" "gtc" "bracket" stopLossPrice takeProfitPrice in
     orderId <- call (createOrder env order)
                     (fun id => [OrderCreated order id]) ;;
     let record :=
       OpenedTrade sym currentPrice quantity
                   (if isBuy then "long" else "short")
                   stopLossPrice takeProfitPrice
                   (an_confidence analysis) OPEN orderId in
     call (saveTrade env record) (fun _ => [TradeSaved record]) ;;
     tell (Emitted "newTrade" sym))
    (fun message => tell (ErrorLogged "openNewPosition" message)).

(** The record written when [position] is closed (lines 415-425 and
    444-454). *)
Definition closingRecord (sym : string) (position : Position)
           (status : TradeStatus) : TradeRecord :=
  ClosedTrade sym (p_avg_entry_price position)
              (p_current_price position) (p_qty position)
              (p_side position) (p_unrealized_pl position) status.

(** [manageExistingPositions(symbol, data, analysis)]
    (lines 401-460). *)
Definition manageExistingPositions (sym : string) (data : SymbolData)
           (analysis : Analysis) : M unit :=
  catch
    (match openPositions data with
     | [] =>
         ([], Thrown "Cannot read properties of undefined (reading 'side')")
     | position :: _ =>
         let currentDirection :=
           if String.eqb (p_side position) "long" then BUY else SELL in
         if negb (Direction_eqb (an_direction analysis) currentDirection)
            && geb (an_confidence analysis) 75
         then
           let record := closingRecord sym position CLOSED_REVERSAL in
           call (closePosition env sym) (fun _ => [PositionClosed sym]) ;;
           call (saveTrade env record) (fun _ => [TradeSaved record]) ;;
           tell (Waited 1000) ;;
           balance <- call (getAccount env) (fun _ => []) ;;
           openNewPosition sym data analysis balance
         else
           match an_dangerSignals analysis with
           | [] => ret tt
           | _ :: _ =>
               let significantDanger :=
                 existsb (fun signal => (7 <=? d_importance signal)%Z)
                         (an_dangerSignals analysis) in
               if significantDanger
               then
                 let record := closingRecord sym position CLOSED_DANGER in
                 call (closePosition env sym)
                      (fun _ => [PositionClosed sym]) ;;
                 call (saveTrade env record)
                      (fun _ => [TradeSaved record]) ;;
                 ret tt
               else ret tt
           end
     end)
    (fun message => tell (ErrorLogged "manageExistingPositions" message)).

(** The check of lines 344-354.  [random] is the value drawn by
    [Math.random()]. *)
Definition checkAnalysis (sym : string) (barData : list Bar) (random : Q)
           (report : AnalysisReport) : Analysis :=
  match direction report, confidence report with
  | Some d, Some c =>
      mkAnalysis (symbol report) d c (price report)
                 (dangerSignals report)
  | _, _ =>
      mkAnalysis sym (if gtb random 0.5 then BUY else SELL) 70
                 (Some (orElse (option_map b_close (fromEnd barData 1))
                               100))
                 []
  end.

(** Lines 344-389 of [processSymbol]: what is done with the report. *)
Definition processReport (sym : string) (data : SymbolData) (balance : Q)
           (positions : list Position) (barData : list Bar) (random : Q)
           (report : AnalysisReport) : SymbolData * list Event :=
  let analysis := checkAnalysis sym barData random report in
  let pushed := analysisHistory data ++ [analysis] in
  let history :=
    if (100 <? List.length pushed)%nat then tl pushed else pushed in
  let symbolPositions :=
    filter (fun p => String.eqb (p_symbol p) sym) positions in
  let data' :=
    mkData (isTrading data) (Some analysis) symbolPositions history in
  (data',
   trace
     (tell (Emitted "analysisUpdate" sym) ;;
      match symbolPositions with
      | _ :: _ => manageExistingPositions sym data' analysis
      | [] =>
          if geb (an_confidence analysis) 60
          then openNewPosition sym data' analysis balance
          else ret tt
      end)).

(** [processSymbol(symbol, data, balance, positions)] (lines 310-393).
    [fetched] are the bars the brokerage delivered (none when the
    request failed), [mock] is what [generateMockBarData] would
    produce. *)
Definition processSymbol (suite : AnalyzerSuite) (sym : string)
           (data : SymbolData) (balance : Q) (positions : list Position)
           (fetched mock : list Bar) (random : Q)
  : SymbolData * list Event :=
  let barData :=
    if (List.length fetched <? 50)%nat then mock else fetched in
  match performTechnicalAnalysis suite sym barData with
  | Returned report =>
      processReport sym data balance positions barData random report
  | Thrown message => (data, [ErrorLogged "processSymbol" message])
  end.
End Lifecycle.

End TradingBot.

(* ------------------------------------------------------------------ *)
(** ** Numbers that may be infinite or not a number

    Where the source divides by a number that can be zero, reads an
    array element that can be missing, or starts from [Infinity], the
    definitions compute with [number].  The sign of a zero is not kept:
    [0] stands for [+0]. *)

Module Number.
Import Js.

Inductive number : Type :=
| Finite (q : Q)
| Infinity
| MinusInfinity
| NaN.

(** An array element or a field read as a number: [undefined] becomes
    [NaN] in arithmetic and in comparisons. *)
Definition ofOption (x : option Q) : number :=
  match x with
  | Some q => Finite q
  | None => NaN
  end.

(** [xs[xs.length - k]] read as a number. *)
Definition fromEnd (xs : list Q) (k : nat) : number :=
  ofOption (Js.fromEnd xs k).

(** The same for an array whose elements may be infinite or [NaN]. *)
Definition at_ (xs : list number) (k : nat) : number :=
  match Js.fromEnd xs k with
  | Some x => x
  | None => NaN
  end.

Definition neg (x : number) : number :=
  match x with
  | Finite q => Finite (- q)
  | Infinity => MinusInfinity
  | MinusInfinity => Infinity
  | NaN => NaN
  end.

Definition add (x y : number) : number :=
  match x, y with
  | NaN, _ | _, NaN => NaN
  | Finite a, Finite b => Finite (a + b)
  | Infinity, MinusInfinity | MinusInfinity, Infinity => NaN
  | Infinity, _ | _, Infinity => Infinity
  | MinusInfinity, _ | _, MinusInfinity => MinusInfinity
  end.

Definition sub (x y : number) : number := add x (neg y).

(** The infinity of the sign of [q], [NaN] for zero. *)
Definition signed (q : Q) : number :=
  if gtb q 0 then Infinity else if ltb q 0 then MinusInfinity else NaN.

Definition mul (x y : number) : number :=
  match x, y with
  | NaN, _ | _, NaN => NaN
  | Finite a, Finite b => Finite (a * b)
  | Infinity, Finite b | Finite b, Infinity => signed b
  | MinusInfinity, Finite b | Finite b, MinusInfinity => signed (- b)
  | Infinity, Infinity | MinusInfinity, MinusInfinity => Infinity
  | Infinity, MinusInfinity | MinusInfinity, Infinity => MinusInfinity
  end.

Definition div (x y : number) : number :=
  match x, y with
  | NaN, _ | _, NaN => NaN
  | Finite a, Finite b => if Qeq_bool b 0 then signed a else Finite (a / b)
  | Finite _, Infinity | Finite _, MinusInfinity => Finite 0
  | Infinity, Finite b => if ltb b 0 then MinusInfinity else Infinity
  | MinusInfinity, Finite b => if ltb b 0 then Infinity else MinusInfinity
  | _, _ => NaN
  end.

Definition abs (x : number) : number :=
  match x with
  | Finite q => Finite (Math_abs q)
  | Infinity | MinusInfinity => Infinity
  | NaN => NaN
  end.

(** [x < y]: false as soon as an operand is [NaN]. *)
Definition lt (x y : number) : bool :=
  match x, y with
  | NaN, _ | _, NaN => false
  | Finite a, Finite b => ltb a b
  | _, MinusInfinity => false
  | MinusInfinity, _ => true
  | Infinity, _ => false
  | Finite _, Infinity => true
  end.

Definition gt (x y : number) : bool := lt y x.

(** [x <= y] *)
Definition le (x y : number) : bool :=
  match x, y with
  | NaN, _ | _, NaN => false
  | Finite a, Finite b => leb a b
  | MinusInfinity, _ => true
  | _, Infinity => true
  | _, MinusInfinity => false
  | Infinity, _ => false
  end.

Definition ge (x y : number) : bool := le y x.

(** [Math.max(...xs)] and [Math.min(...xs)] of an array that may be
    empty. *)
Definition maxOfAll (xs : list Q) : number :=
  match xs with
  | [] => MinusInfinity
  | x :: rest => Finite (maxOf x rest)
  end.

Definition minOfAll (xs : list Q) : number :=
  match xs with
  | [] => Infinity
  | x :: rest => Finite (minOf x rest)
  end.

End Number.

(* ------------------------------------------------------------------ *)
(** ** src/services/technicalIndicators.js, the moving averages

    The periods are positive in every call of the analyzers (9, 12, 20,
    26, 50 and 200); with a period of zero the source divides by zero. *)

Module Indicators.
Import Js.

(** The loop of lines 32-35 of [sma]: [leaving] starts at [data[0]],
    [entering] at [data[period]]. *)
Fixpoint slide (period sum : Q) (leaving entering : list Q) : list Q :=
  match leaving, entering with
  | old :: leaving', new :: entering' =>
      let sum' := sum - old + new in
      sum' / period :: slide period sum' leaving' entering'
  | _, _ => []
  end.

(** [technicalIndicators.sma(data, period)] (lines 15-38). *)
Definition sma (data : list Q) (period : nat) : list Q :=
  if (List.length data <? period)%nat then []
  else
    let p := inject_Z (Z.of_nat period) in
    let sum := fold_left Qplus (firstn period data) 0 in
    sum / p :: slide p sum data (skipn period data).

(** The loop of lines 67-70 of [ema]. *)
Fixpoint smoothEma (multiplier ema : Q) (rest : list Q) : list Q :=
  match rest with
  | [] => []
  | x :: rest' =>
      let ema' := (x - ema) * multiplier + ema in
      ema' :: smoothEma multiplier ema' rest'
  end.

(** [technicalIndicators.ema(data, period)] (lines 46-73). *)
Definition ema (data : list Q) (period : nat) : list Q :=
  if (List.length data <? period)%nat then []
  else
    let p := inject_Z (Z.of_nat period) in
    let multiplier := 2 / (p + 1) in
    let sum := fold_left Qplus (firstn period data) 0 in
    let first := sum / p in
    first :: smoothEma multiplier first (skipn period data).

Record Macd : Type := mkMacd {
  macdLine : list Q;
  signalLine : list Q;
  histogram : list Q
}.

(** The differences [xs[i] - ys[i]] of the loops of lines 154-156 and
    165-167.  The loops run over the second array; in both the first is
    at least as long. *)
Fixpoint differences (xs ys : list Q) : list Q :=
  match xs, ys with
  | x :: xs', y :: ys' => (x - y) :: differences xs' ys'
  | _, _ => []
  end.

(** [technicalIndicators.macd(data, fastPeriod, slowPeriod,
    signalPeriod)] (lines 136-174), for [fastPeriod <= slowPeriod]. *)
Definition macd (data : list Q) (fastPeriod slowPeriod signalPeriod : nat)
  : Macd :=
  let fastEMA := ema data fastPeriod in
  let slowEMA := ema data slowPeriod in
  if ((List.length fastEMA <? 1) || (List.length slowEMA <? 1))%nat
  then mkMacd [] [] []
  else
    let slicedFastEMA := skipn (slowPeriod - fastPeriod) fastEMA in
    let macdLine := differences slicedFastEMA slowEMA in
    let signalLine := ema macdLine signalPeriod in
    let slicedMACDLine :=
      skipn (List.length macdLine - List.length signalLine) macdLine in
    mkMacd macdLine signalLine (differences slicedMACDLine signalLine).

End Indicators.

(* ------------------------------------------------------------------ *)
(** ** src/bot/analysisEngine.js, further analyzers *)

Module Analyzers.
Import Js AnalysisEngine.

(** *** analyzeMovingAverages (lines 141-261) *)
Definition analyzeMovingAverages (closes : list Q) : AnalyzerResult :=
  let ema9 := Indicators.ema closes 9 in
  let sma20 := Indicators.sma closes 20 in
  let sma50 := Indicators.sma closes 50 in
  let sma200 := Indicators.sma closes 200 in
  let currentEMA9 := fromEnd ema9 1 in
  let currentSMA20 := fromEnd sma20 1 in
  let currentSMA50 := fromEnd sma50 1 in
  let currentSMA200 := fromEnd sma200 1 in
  let currentPrice := fromEnd closes 1 in
  let golden :=
    if lift2 gtb (fromEnd sma50 1) (fromEnd sma200 1)
       && lift2 leb (fromEnd sma50 2) (fromEnd sma200 2)
    then [mkSignal "Golden Cross" BUY 80] else [] in
  let death :=
    if lift2 ltb (fromEnd sma50 1) (fromEnd sma200 1)
       && lift2 geb (fromEnd sma50 2) (fromEnd sma200 2)
    then [mkSignal "Death Cross" SELL 80] else [] in
  let alignment :=
    if lift2 gtb currentPrice currentSMA200
       && lift2 gtb currentPrice currentSMA50
       && lift2 gtb currentPrice currentSMA20
       && lift2 gtb currentPrice currentEMA9
    then [mkSignal "Price Above All MAs" BUY 70]
    else if lift2 ltb currentPrice currentSMA200
            && lift2 ltb currentPrice currentSMA50
            && lift2 ltb currentPrice currentSMA20
            && lift2 ltb currentPrice currentEMA9
    then [mkSignal "Price Below All MAs" SELL 70]
    else [] in
  let fastCross :=
    if lift2 gtb (fromEnd ema9 1) (fromEnd sma20 1)
       && lift2 leb (fromEnd ema9 2) (fromEnd sma20 2)
    then [mkSignal "EMA9 Crosses Above SMA20" BUY 60]
    else if lift2 ltb (fromEnd ema9 1) (fromEnd sma20 1)
            && lift2 geb (fromEnd ema9 2) (fromEnd sma20 2)
    then [mkSignal "EMA9 Crosses Below SMA20" SELL 60]
    else [] in
  conclude 90 (golden ++ death ++ alignment ++ fastCross).

(** *** analyzeMACD (lines 373-475) *)
Definition analyzeMACD (closes : list Q) : AnalyzerResult :=
  let macdValues := Indicators.macd closes 12 26 9 in
  let macdLine := Indicators.macdLine macdValues in
  let signalLine := Indicators.signalLine macdValues in
  let histogram := Indicators.histogram macdValues in
  let currentMACD := fromEnd macdLine 1 in
  let currentSignal := fromEnd signalLine 1 in
  let currentHistogram := fromEnd histogram 1 in
  let prevHistogram := fromEnd histogram 2 in
  let bullishCross :=
    if lift2 gtb currentMACD currentSignal
       && lift2 leb (fromEnd macdLine 2) (fromEnd signalLine 2)
    then [mkSignal "MACD Bullish Crossover" BUY 70] else [] in
  let bearishCross :=
    if lift2 ltb currentMACD currentSignal
       && lift2 geb (fromEnd macdLine 2) (fromEnd signalLine 2)
    then [mkSignal "MACD Bearish Crossover" SELL 70] else [] in
  let momentum :=
    if lift2 gtb currentHistogram prevHistogram
       && lift2 gtb currentHistogram (Some 0)
    then [mkSignal "MACD Bullish Momentum" BUY 60]
    else if lift2 ltb currentHistogram prevHistogram
            && lift2 ltb currentHistogram (Some 0)
    then [mkSignal "MACD Bearish Momentum" SELL 60]
    else [] in
  let zeroCross :=
    if lift2 gtb currentMACD (Some 0)
       && lift2 leb (fromEnd macdLine 2) (Some 0)
    then [mkSignal "MACD Crosses Above Zero" BUY 65]
    else if lift2 ltb currentMACD (Some 0)
            && lift2 geb (fromEnd macdLine 2) (Some 0)
    then [mkSignal "MACD Crosses Below Zero" SELL 65]
    else [] in
  conclude 90 (bullishCross ++ bearishCross ++ momentum ++ zeroCross).

(** *** analyzeCandlestickPatterns (lines 903-1056)

    The patterns stand where the other analyzers have their signals.
    With no bar [lastBar] is [undefined] and reading [lastBar.open]
    throws.  [bodySize / totalSize] is only used together with
    [totalSize > 0]. *)
Definition analyzeCandlestickPatterns (barData : list Bar)
  : outcome AnalyzerResult :=
  let recentBars := sliceLast 5 barData in
  match fromEnd recentBars 1 with
  | None => Thrown "Cannot read properties of undefined (reading 'open')"
  | Some lastBar =>
      let bodySize := Math_abs (b_open lastBar - b_close lastBar) in
      let totalSize := b_high lastBar - b_low lastBar in
      let doji :=
        if ltb (bodySize / totalSize) 0.1 && gtb totalSize 0
        then [mkSignal "Doji" NEUTRAL 50] else [] in
      let hammer :=
        if gtb bodySize 0
           && gtb (Math_min (b_open lastBar) (b_close lastBar)
                   - b_low lastBar) (bodySize * 2)
           && ltb (b_high lastBar
                   - Math_max (b_open lastBar) (b_close lastBar))
                  (bodySize * 0.5)
        then [mkSignal "Hammer" BUY 65] else [] in
      let shootingStar :=
        if gtb bodySize 0
           && gtb (b_high lastBar
                   - Math_max (b_open lastBar) (b_close lastBar))
                  (bodySize * 2)
           && ltb (Math_min (b_open lastBar) (b_close lastBar)
                   - b_low lastBar) (bodySize * 0.5)
        then [mkSignal "Shooting Star" SELL 65] else [] in
      let engulfing :=
        match fromEnd recentBars 2 with
        | Some previousBar =>
            (if ltb (b_close previousBar) (b_open previousBar)
                && gtb (b_close lastBar) (b_open lastBar)
                && ltb (b_open lastBar) (b_close previousBar)
                && gtb (b_close lastBar) (b_open previousBar)
             then [mkSignal "Bullish Engulfing" BUY 70] else [])
            ++ (if gtb (b_close previousBar) (b_open previousBar)
                   && ltb (b_close lastBar) (b_open lastBar)
                   && gtb (b_open lastBar) (b_close previousBar)
                   && ltb (b_close lastBar) (b_open previousBar)
                then [mkSignal "Bearish Engulfing" SELL 70] else [])
        | None => []
        end in
      let stars :=
        match fromEnd recentBars 3, fromEnd recentBars 2 with
        | Some firstBar, Some middleBar =>
            (if ltb (b_close firstBar) (b_open firstBar)
                && ltb (Math_abs (b_open middleBar - b_close middleBar))
                       (Math_abs (b_open firstBar - b_close firstBar) * 0.3)
                && gtb (b_close lastBar) (b_open lastBar)
                && gtb (b_close lastBar)
                       ((b_open firstBar + b_close firstBar) / 2)
             then [mkSignal "Morning Star" BUY 75] else [])
            ++ (if gtb (b_close firstBar) (b_open firstBar)
                   && ltb (Math_abs (b_open middleBar - b_close middleBar))
                          (Math_abs (b_open firstBar - b_close firstBar)
                           * 0.3)
                   && ltb (b_close lastBar) (b_open lastBar)
                   && ltb (b_close lastBar)
                          ((b_open firstBar + b_close firstBar) / 2)
                then [mkSignal "Evening Star" SELL 75] else [])
        | _, _ => []
        end in
      Returned
        (conclude 85 (doji ++ hammer ++ shootingStar ++ engulfing ++ stars))
  end.

(** The suite in which the analyzers embedded above stand for
    themselves; the five others and the news service are [rest]'s. *)
Definition embedded (rest : AnalyzerSuite) : AnalyzerSuite :=
  mkSuite (fun closes => Returned (analyzeMovingAverages closes))
          (fun closes => Returned (analyzeMACD closes))
          (analyzeBollingerBands rest)
          (analyzeSupportResistance rest)
          (analyzeVolume rest)
          analyzeCandlestickPatterns
          (analyzeFibonacciLevels rest)
          (analyzeADX rest)
          (getMarketNews rest).


(** *** analyzeBollingerBands (lines 482-599)

    [bbValues] is what [technicalIndicators.bollingerBands(closes, 20,
    2)] returned; the bands take a square root and are not computed
    here. *)
Record BollingerSeries : Type := mkBands {
  bb_upper : list Number.number;
  bb_middle : list Number.number;
  bb_lower : list Number.number
}.

Definition analyzeBollingerBands (bbValues : BollingerSeries)
           (closes : list Q) : AnalyzerResult :=
  let middle := bb_middle bbValues in
  let upper := bb_upper bbValues in
  let lower := bb_lower bbValues in
  let currentPrice := Number.fromEnd closes 1 in
  let currentMiddle := Number.at_ middle 1 in
  let currentUpper := Number.at_ upper 1 in
  let currentLower := Number.at_ lower 1 in
  let bandWidth :=
    Number.div (Number.sub currentUpper currentLower) currentMiddle in
  let below :=
    if Number.le currentPrice currentLower
    then [mkSignal "Price Below Lower Band" BUY 70] else [] in
  let above :=
    if Number.ge currentPrice currentUpper
    then [mkSignal "Price Above Upper Band" SELL 70] else [] in
  let crossesAbove :=
    if Number.gt currentPrice currentLower
       && Number.le (Number.fromEnd closes 2) (Number.at_ lower 2)
    then [mkSignal "Price Crosses Above Lower Band" BUY 65] else [] in
  let crossesBelow :=
    if Number.lt currentPrice currentUpper
       && Number.ge (Number.fromEnd closes 2) (Number.at_ upper 2)
    then [mkSignal "Price Crosses Below Upper Band" SELL 65] else [] in
  let previousBandWidth :=
    Number.div (Number.sub (Number.at_ upper 5) (Number.at_ lower 5))
               (Number.at_ middle 5) in
  let squeeze :=
    if Number.lt bandWidth
                 (Number.mul previousBandWidth (Number.Finite 0.8))
    then [mkSignal "Bollinger Band Squeeze" NEUTRAL 60] else [] in
  conclude 90 (below ++ above ++ crossesAbove ++ crossesBelow ++ squeeze).

(** *** analyzeSupportResistance (lines 607-710) and its helpers *)
Record Level : Type := mkLevel {
  l_price : Q;
  l_strength : Z
}.

(** Lines 737-751 and 781-795: the first level within the tolerance of
    [current] gains one in strength; without one a new level of strength
    1 is pushed. *)
Fixpoint touch (sensitivity current : Q) (levels : list Level)
  : list Level :=
  match levels with
  | [] => [mkLevel current 1]
  | level :: rest =>
      if Number.lt
           (Number.div (Number.Finite (Math_abs (l_price level - current)))
                       (Number.Finite current))
           (Number.Finite sensitivity)
      then mkLevel (l_price level) (l_strength level + 1) :: rest
      else level :: touch sensitivity current rest
  end.

(** The [lookback] values before index [i] and the [lookback] values
    after it. *)
Definition neighbours (xs : list Q) (i lookback : nat) : list Q :=
  firstn lookback (skipn (i - lookback) xs)
  ++ firstn lookback (skipn (i + 1) xs).

(** [findSupportLevels(lows, closes, lookback)] (lines 713-754). *)
Definition findSupportLevels (lows closes : list Q) (lookback : nat)
  : list Level :=
  let sensitivity := 0.005 in
  fold_left
    (fun levels i =>
       match nth_error lows i with
       | Some current =>
           let isSupport :=
             forallb (fun low => negb (ltb low (current * (1 - sensitivity))))
                     (neighbours lows i lookback) in
           if isSupport then touch sensitivity current levels else levels
       | None => levels
       end)
    (seq lookback (List.length lows - lookback - lookback)) [].

(** [findResistanceLevels(highs, closes, lookback)] (lines 757-798). *)
Definition findResistanceLevels (highs closes : list Q) (lookback : nat)
  : list Level :=
  let sensitivity := 0.005 in
  fold_left
    (fun levels i =>
       match nth_error highs i with
       | Some current =>
           let isResistance :=
             forallb
               (fun high => negb (gtb high (current * (1 + sensitivity))))
               (neighbours highs i lookback) in
           if isResistance then touch sensitivity current levels else levels
       | None => levels
       end)
    (seq lookback (List.length highs - lookback - lookback)) [].

(** [levels.sort(compare)], which is stable: [before a b] says that
    [compare(a, b)] is negative. *)
Fixpoint insertBy (before : Level -> Level -> bool) (x : Level)
         (sorted : list Level) : list Level :=
  match sorted with
  | [] => [x]
  | y :: rest =>
      if before x y then x :: y :: rest
      else y :: insertBy before x rest
  end.

Definition sortBy (before : Level -> Level -> bool) (levels : list Level)
  : list Level :=
  fold_left (fun sorted x => insertBy before x sorted) levels [].

Definition analyzeSupportResistance (highs lows closes : list Q)
  : AnalyzerResult :=
  let currentPrice := Number.fromEnd closes 1 in
  let supportLevels :=
    sortBy (fun a b => ltb (l_price b - l_price a) 0)
           (findSupportLevels lows closes 5) in
  let resistanceLevels :=
    sortBy (fun a b => ltb (l_price a - l_price b) 0)
           (findResistanceLevels highs closes 5) in
  let closestSupport : Number.number * Z :=
    match find (fun level =>
                  Number.lt (Number.Finite (l_price level)) currentPrice)
               supportLevels with
    | Some level => (Number.Finite (l_price level), l_strength level)
    | None => (Number.Finite 0, 0%Z)
    end in
  let closestResistance : Number.number * Z :=
    match find (fun level =>
                  Number.gt (Number.Finite (l_price level)) currentPrice)
               resistanceLevels with
    | Some level => (Number.Finite (l_price level), l_strength level)
    | None => (Number.Infinity, 0%Z)
    end in
  let distanceToSupport :=
    Number.div (Number.abs (Number.sub currentPrice (fst closestSupport)))
               currentPrice in
  let distanceToResistance :=
    Number.div (Number.abs (Number.sub (fst closestResistance) currentPrice))
               currentPrice in
  let nearSupport :=
    if Number.lt distanceToSupport (Number.Finite 0.01)
       && (3 <=? snd closestSupport)%Z
    then [mkSignal "Near Strong Support" BUY
                   (60 + inject_Z (snd closestSupport) * 3)]
    else [] in
  let nearResistance :=
    if Number.lt distanceToResistance (Number.Finite 0.01)
       && (3 <=? snd closestResistance)%Z
    then [mkSignal "Near Strong Resistance" SELL
                   (60 + inject_Z (snd closestResistance) * 3)]
    else [] in
  let breakout :=
    if Number.gt currentPrice (fst closestResistance)
       && Number.le (Number.fromEnd closes 2) (fst closestResistance)
    then [mkSignal "Breakout Above Resistance" BUY
                   (75 + inject_Z (snd closestResistance) * 3)]
    else [] in
  let breakdown :=
    if Number.lt currentPrice (fst closestSupport)
       && Number.ge (Number.fromEnd closes 2) (fst closestSupport)
    then [mkSignal "Breakdown Below Support" SELL
                   (75 + inject_Z (snd closestSupport) * 3)]
    else [] in
  conclude 90 (nearSupport ++ nearResistance ++ breakout ++ breakdown).

(** *** analyzeVolume (lines 806-895) *)
Inductive PriceDirection : Type := up | down | flat.

Definition analyzeVolume (closes volumes : list Q) : AnalyzerResult :=
  let volumeSMA := Indicators.sma volumes 20 in
  let currentVolume := Number.fromEnd volumes 1 in
  let averageVolume := Number.fromEnd volumeSMA 1 in
  let volumeRatio := Number.div currentVolume averageVolume in
  let priceChange :=
    Number.sub (Number.fromEnd closes 1) (Number.fromEnd closes 2) in
  let priceDirection :=
    if Number.gt priceChange (Number.Finite 0) then up
    else if Number.lt priceChange (Number.Finite 0) then down
    else flat in
  (* [volumeRatio > 1.5], with the strength
     [60 + Math.min(20, Math.round((volumeRatio - 1.5) * 10))] *)
  let highVolume (name : string) (direction : Direction) : list Signal :=
    match volumeRatio with
    | Number.Finite ratio =>
        if gtb ratio 1.5
        then [mkSignal name direction
                (60 + Math_min 20 (Math_round ((ratio - 1.5) * 10)))]
        else []
    | Number.Infinity => [mkSignal name direction (60 + 20)]
    | Number.MinusInfinity | Number.NaN => []
    end in
  let increase :=
    match priceDirection with
    | up => highVolume "High Volume Price Increase" BUY
    | _ => []
    end in
  let decrease :=
    match priceDirection with
    | down => highVolume "High Volume Price Decrease" SELL
    | _ => []
    end in
  let lowVolume :=
    if Number.lt volumeRatio (Number.Finite 0.7)
       && match priceDirection with flat => false | _ => true end
    then [mkSignal "Low Volume Price Movement"
                   (match priceDirection with up => SELL | _ => BUY end) 55]
    else [] in
  let isVolumePeak :=
    Number.gt currentVolume
              (Number.mul (Number.fromEnd volumes 2) (Number.Finite 2))
    && Number.gt currentVolume
                 (Number.mul (Number.fromEnd volumes 3) (Number.Finite 2)) in
  let climax :=
    if isVolumePeak
    then [mkSignal "Volume Climax"
                   (match priceDirection with up => SELL | _ => BUY end) 70]
    else [] in
  conclude 85 (increase ++ decrease ++ lowVolume ++ climax).

(** *** analyzeFibonacciLevels (lines 1065-1199)

    [calculateFibonacciRetracementLevels] (lines 1206-1247) once more,
    for a highest and a lowest point that are infinite when the arrays
    are empty. *)
Definition retracementLevels (highestPoint lowestPoint : Number.number)
           (isUptrend : bool) : list (string * Number.number) :=
  let range := Number.sub highestPoint lowestPoint in
  let level (ratio : Q) :=
    if isUptrend
    then Number.sub highestPoint (Number.mul range (Number.Finite ratio))
    else Number.add lowestPoint (Number.mul range (Number.Finite ratio)) in
  [ ("0", if isUptrend then highestPoint else lowestPoint);
    ("0.236", level 0.236);
    ("0.382", level 0.382);
    ("0.5", level 0.5);
    ("0.618", level 0.618);
    ("0.786", level 0.786);
    ("1", if isUptrend then lowestPoint else highestPoint) ].

(** The loop of lines 1088-1095: the level nearest to the price among
    those within 1% of it. *)
Definition nearer (currentPrice : Number.number)
           (nearest : option (string * Number.number) * Number.number)
           (level : string * Number.number)
  : option (string * Number.number) * Number.number :=
  let distance :=
    Number.div (Number.abs (Number.sub currentPrice (snd level)))
               currentPrice in
  if Number.lt distance (snd nearest)
     && Number.lt distance (Number.Finite 0.01)
  then (Some level, distance)
  else nearest.

Definition analyzeFibonacciLevels (highs lows closes : list Q)
  : AnalyzerResult :=
  let currentPrice := Number.fromEnd closes 1 in
  let recentHighs := sliceLast 30 highs in
  let recentLows := sliceLast 30 lows in
  let highestPoint := Number.maxOfAll recentHighs in
  let lowestPoint := Number.minOfAll recentLows in
  let isUptrend :=
    Number.gt (Number.fromEnd closes 1) (Number.fromEnd closes 15) in
  let fibLevels := retracementLevels highestPoint lowestPoint isUptrend in
  let nearestLevel :=
    fst (fold_left (nearer currentPrice) fibLevels (None, Number.Infinity)) in
  let previousClose := Number.fromEnd closes 2 in
  let atLevel :=
    match nearestLevel with
    | Some level =>
        (if String.eqb (fst level) "0.618" || String.eqb (fst level) "0.5"
         then
           if isUptrend
           then [mkSignal ("Price at " ++ fst level
                           ++ " Retracement in Uptrend") BUY 65]
           else [mkSignal ("Price at " ++ fst level
                           ++ " Retracement in Downtrend") SELL 65]
         else [])
        ++ (if isUptrend
               && Number.lt previousClose (snd level)
               && Number.gt currentPrice (snd level)
            then [mkSignal ("Bounce Up from " ++ fst level ++ " Level")
                           BUY 70]
            else if negb isUptrend
                    && Number.gt previousClose (snd level)
                    && Number.lt currentPrice (snd level)
            then [mkSignal ("Bounce Down from " ++ fst level ++ " Level")
                           SELL 70]
            else [])
    | None => []
    end in
  let breaking :=
    match find (fun level => String.eqb (fst level) "0.236") fibLevels with
    | Some weakRetracement =>
        if isUptrend
           && Number.gt currentPrice (snd weakRetracement)
           && Number.le (Number.fromEnd closes 2) (snd weakRetracement)
        then [mkSignal "Breaking through 0.236 in Uptrend" BUY 60]
        else if negb isUptrend
                && Number.lt currentPrice (snd weakRetracement)
                && Number.ge (Number.fromEnd closes 2) (snd weakRetracement)
        then [mkSignal "Breaking through 0.236 in Downtrend" SELL 60]
        else []
    | None => []
    end in
  conclude 85 (atLevel ++ breaking).

(** *** analyzeADX (lines 1256-1353)

    [adxValues] is what [technicalIndicators.adx(highs, lows, closes,
    14)] returned; its quotients are [NaN] or infinite where a true
    range is zero. *)
Record AdxSeries : Type := mkAdx {
  adx : list Number.number;
  plusDI : list Number.number;
  minusDI : list Number.number
}.

Definition analyzeADX (adxValues : AdxSeries) : AnalyzerResult :=
  let currentADX := Number.at_ (adx adxValues) 1 in
  let currentPlusDI := Number.at_ (plusDI adxValues) 1 in
  let currentMinusDI := Number.at_ (minusDI adxValues) 1 in
  (* [currentADX > 25], with the strength
     [60 + Math.min(30, Math.round((currentADX - 25) / 2))] *)
  let strong (strength : Q) : list Signal :=
    if Number.gt currentPlusDI currentMinusDI
    then [mkSignal "Strong Uptrend" BUY strength]
    else [mkSignal "Strong Downtrend" SELL strength] in
  let strongTrend :=
    match currentADX with
    | Number.Finite value =>
        if gtb value 25
        then strong (60 + Math_min 30 (Math_round ((value - 25) / 2)))
        else []
    | Number.Infinity => strong (60 + 30)
    | Number.MinusInfinity | Number.NaN => []
    end in
  let weakTrend :=
    if Number.lt currentADX (Number.Finite 20)
    then [mkSignal "Weak Trend" NEUTRAL 50] else [] in
  let bullishCross :=
    if Number.gt currentPlusDI currentMinusDI
       && Number.le (Number.at_ (plusDI adxValues) 2)
                    (Number.at_ (minusDI adxValues) 2)
    then [mkSignal "+DI Crosses Above -DI" BUY 65] else [] in
  let bearishCross :=
    if Number.gt currentMinusDI currentPlusDI
       && Number.le (Number.at_ (minusDI adxValues) 2)
                    (Number.at_ (plusDI adxValues) 2)
    then [mkSignal "-DI Crosses Above +DI" SELL 65] else [] in
  conclude 90 (strongTrend ++ weakTrend ++ bullishCross ++ bearishCross).

End Analyzers.

(* ------------------------------------------------------------------ *)
(** ** src/bot/fibonacciCalculator.js, stops and targets *)

Module FibonacciStops.
Import Js AnalysisEngine FibonacciCalculator.

(** The loop of lines 111-115: the greatest level strictly below the
    entry price, if it exceeds the stop so far. *)
Definition raiseStop (entryPrice stopLoss : Q) (entry : string * Q) : Q :=
  let price := snd entry in
  if ltb price entryPrice && gtb price stopLoss then price else stopLoss.

(** The loop of lines 125-129. *)
Definition lowerStop (entryPrice stopLoss : Q) (entry : string * Q) : Q :=
  let price := snd entry in
  if gtb price entryPrice && ltb price stopLoss then price else stopLoss.

(** [riskRewardRatio] is [None] when the risk is zero (the source then
    yields an infinity or [NaN]). *)
Record StopLossTakeProfit : Type := mkStops {
  stopLoss : Q;
  takeProfit : Q;
  risk : Q;
  reward : Q;
  riskRewardRatio : option Q
}.

(** [calculateStopLossTakeProfit(prices, direction, entryPrice)]
    (lines 100-143); [None] for an empty price list, whose levels are
    not finite.  Every direction other than BUY takes the SELL
    branch. *)
Definition calculateStopLossTakeProfit (prices : list Q)
           (direction : Direction) (entryPrice : Q)
  : option StopLossTakeProfit :=
  let isUptrend := Direction_eqb direction BUY in
  match calculateFibonacciLevels prices isUptrend with
  | None => None
  | Some fib =>
      match levelPrice "1" (levels fib), levelPrice "0" (levels fib),
            levelPrice "1.272" (extensions fib) with
      | Some level1, Some level0, Some extension =>
          let stopLoss :=
            if isUptrend
            then fold_left (raiseStop entryPrice)
                           (Object_entries (levels fib)) level1
            else fold_left (lowerStop entryPrice)
                           (Object_entries (levels fib)) level0 in
          let takeProfit := extension in
          let risk := Math_abs (entryPrice - stopLoss) in
          let reward := Math_abs (takeProfit - entryPrice) in
          Some (mkStops stopLoss takeProfit risk reward
                        (if Qeq_bool risk 0 then None
                         else Some (reward / risk)))
      | _, _, _ => None
      end
  end.

End FibonacciStops.

(* ------------------------------------------------------------------ *)
(** ** src/bot/tradingBot.js, the active symbols *)

Module Symbols.
Import Js AnalysisEngine TradingBot.

(** The [Map] of active symbols, in insertion order. *)
Definition ActiveSymbols : Type := list (string * SymbolData).

Fixpoint has (symbols : ActiveSymbols) (sym : string) : bool :=
  match symbols with
  | [] => false
  | (key, _) :: rest => String.eqb key sym || has rest sym
  end.

Fixpoint get (symbols : ActiveSymbols) (sym : string)
  : option SymbolData :=
  match symbols with
  | [] => None
  | (key, data) :: rest =>
      if String.eqb key sym then Some data else get rest sym
  end.

(** [Map.prototype.set]: an existing key keeps its place. *)
Fixpoint set (symbols : ActiveSymbols) (sym : string) (data : SymbolData)
  : ActiveSymbols :=
  match symbols with
  | [] => [(sym, data)]
  | (key, old) :: rest =>
      if String.eqb key sym then (key, data) :: rest
      else (key, old) :: set rest sym data
  end.

Fixpoint delete (symbols : ActiveSymbols) (sym : string) : ActiveSymbols :=
  match symbols with
  | [] => []
  | (key, data) :: rest =>
      if String.eqb key sym then rest else (key, data) :: delete rest sym
  end.

Definition keys (symbols : ActiveSymbols) : list string := map fst symbols.

(** What the functions below do besides changing the map.  The calls
    to [TradingDatabase] return whether they worked; nothing reads the
    answer. *)
Inductive SymbolEvent : Type :=
| Brokerage (e : Event)
| ActiveSymbolAdded (sym : string)
| ActiveSymbolRemoved (sym : string)
| BotStatus (running : bool) (activeSymbols : list string).

(** [haystack.includes(needle)] *)
Fixpoint includes (haystack needle : string) : bool :=
  String.prefix needle haystack
  || match haystack with
     | EmptyString => false
     | String _ rest => includes rest needle
     end.

(** The data a symbol starts with (lines 71-76). *)
Definition freshData : SymbolData := mkData false None [] [].

(** [addSymbol(symbol)] (lines 69-84). *)
Definition addSymbol (isRunning : bool) (symbols : ActiveSymbols)
           (sym : string) : ActiveSymbols * list SymbolEvent :=
  if negb (has symbols sym)
  then
    let symbols' := set symbols sym freshData in
    (symbols', [ActiveSymbolAdded sym; BotStatus isRunning (keys symbols')])
  else (symbols, []).

(** [closeAllPositionsForSymbol(symbol)] (lines 582-592). *)
Definition closeAllPositionsForSymbol (env : Collaborators) (sym : string)
  : list Event :=
  match closePosition env sym with
  | Returned _ => [PositionClosed sym]
  | Thrown message =>
      if negb (includes message "position does not exist")
      then [ErrorLogged "closeAllPositionsForSymbol" message]
      else []
  end.

(** [removeSymbol(symbol)] (lines 90-102). *)
Definition removeSymbol (env : Collaborators) (isRunning : bool)
           (symbols : ActiveSymbols) (sym : string)
  : ActiveSymbols * list SymbolEvent :=
  if has symbols sym
  then
    let closing := map Brokerage (closeAllPositionsForSymbol env sym) in
    let symbols' := delete symbols sym in
    (symbols',
     closing ++ [ActiveSymbolRemoved sym; BotStatus isRunning (keys symbols')])
  else (symbols, []).

End Symbols.

(* ------------------------------------------------------------------ *)
(** ** IEEE 754 doubles

    The numbers of JavaScript are binary64 floats.  Where rounding
    decides what the program does (the consensus of
    [calculateFinalResult]) the code is embedded a second time over the
    kernel's primitive floats, whose operations are those of IEEE 754
    with rounding to nearest, ties to even. *)

Module Ieee.
Import Floats.
Local Open Scope float_scope.

(** The double of an integer below 2^53 in absolute value. *)
Definition ofZ (z : Z) : float :=
  match z with
  | Z0 => 0
  | Zpos _ => of_uint63 (Uint63.of_Z z)
  | Zneg p => - of_uint63 (Uint63.of_Z (Zpos p))
  end.

(** The double nearest to [q], as a decimal literal of the source
    denotes it, for a numerator and a denominator below 2^53: both
    convert exactly and the division rounds once. *)
Definition ofQ (q : Q) : float := ofZ (Qnum q) / ofZ (Zpos (Qden q)).

(** [x > y], false when an operand is [NaN]. *)
Definition gtb (x y : float) : bool := PrimFloat.ltb y x.

(** [Math.round(x)]: the integer nearest to [x], a half going up;
    [NaN], the infinities and the integers are returned as they are, and
    a result of zero keeps the sign of [x].  The mantissa [m] and the
    exponent [e] give [x] exactly as [m * 2^e]; with [e < 0] the
    absolute value is below 2^52. *)
Definition Math_round (x : float) : float :=
  match Prim2SF x with
  | S754_finite s m e =>
      if (0 <=? e)%Z then x
      else
        let d := (2 ^ (- e))%Z in
        let n := if s then Zneg m else Zpos m in
        let r := ((2 * n + d) / (2 * d))%Z in
        if (r =? 0)%Z then (if s then - 0 else 0) else ofZ r
  | S754_zero _ | S754_infinity _ | S754_nan => x
  end.

(** [Math.max(x, y)] and [Math.min(x, y)]: [NaN] when an operand is
    [NaN]; of the two zeros the positive one is the larger. *)
Definition Math_max (x y : float) : float :=
  if is_nan x || is_nan y then nan
  else if PrimFloat.ltb x y then y
  else if PrimFloat.ltb y x then x
  else if get_sign x then y else x.

Definition Math_min (x y : float) : float :=
  if is_nan x || is_nan y then nan
  else if PrimFloat.ltb x y then x
  else if PrimFloat.ltb y x then y
  else if get_sign x then x else y.

End Ieee.

(** ** src/bot/analysisEngine.js, the consensus in doubles *)

Module InDoubles.
Import Floats AnalysisEngine.
Local Open Scope float_scope.
#[local] Set Warnings "-inexact-float".

(** An entry of [analyses] with the confidence and the weight as the
    doubles they are.  The strengths of the signals are only compared
    with 70 and 75, which no rounding touches. *)
Record Entry : Type := mkEntry {
  e_name : string;
  e_direction : Direction;
  e_confidence : float;
  e_signals : list Signal;
  e_weight : float
}.

Definition ofEntry (analysis : AnalysisEntry) : Entry :=
  mkEntry (a_name analysis)
          (r_direction (a_result analysis))
          (Ieee.ofQ (r_confidence (a_result analysis)))
          (r_signals (a_result analysis))
          (Ieee.ofQ (a_weight analysis)).

Record Tally : Type := mkTally {
  totalBuyWeight : float;
  totalSellWeight : float;
  totalWeight : float;
  t_dangerSignals : list DangerSignal
}.

(** One turn of the loop of lines 1455-1521. *)
Definition tallyStep (t : Tally) (analysis : Entry) : Tally :=
  let weight := e_weight analysis in
  let isBuy := Direction_eqb (e_direction analysis) BUY in
  let isSell := Direction_eqb (e_direction analysis) SELL in
  let named := String.eqb (e_name analysis) in
  mkTally
    (if isBuy
     then totalBuyWeight t + weight * (e_confidence analysis / 100)
     else totalBuyWeight t)
    (if isBuy then totalSellWeight t
     else if isSell
     then totalSellWeight t + weight * (e_confidence analysis / 100)
     else totalSellWeight t)
    (totalWeight t + weight)
    (t_dangerSignals t
     ++ (if named "Bollinger Bands"
            && someSignal "Price Above Upper Band" 70 (e_signals analysis)
         then [mkDanger "Extreme Overbought on Bollinger Bands" 8] else [])
     ++ (if named "Bollinger Bands"
            && someSignal "Price Below Lower Band" 70 (e_signals analysis)
         then [mkDanger "Extreme Oversold on Bollinger Bands" 8] else [])
     ++ (if named "RSI"
            && someSignal "RSI Overbought" 75 (e_signals analysis)
         then [mkDanger "Extreme Overbought on RSI" 7] else [])
     ++ (if named "RSI"
            && someSignal "RSI Oversold" 75 (e_signals analysis)
         then [mkDanger "Extreme Oversold on RSI" 7] else [])
     ++ (if named "Volume"
            && someSignal "Volume Climax" 70 (e_signals analysis)
         then [mkDanger "Volume Climax Detected" 9] else [])).

Definition tally (analyses : list Entry) : Tally :=
  fold_left tallyStep analyses (mkTally 0 0 0 []).

Record FinalResult : Type := mkFinal {
  f_direction : Direction;
  f_confidence : float;
  f_dangerSignals : list DangerSignal
}.

(** [calculateFinalResult(analyses)] (lines 1449-1551). *)
Definition calculateFinalResult (analyses : list Entry) : FinalResult :=
  let t := tally analyses in
  let buyScore := totalBuyWeight t / totalWeight t in
  let sellScore := totalSellWeight t / totalWeight t in
  let (direction, confidence) :=
    if Ieee.gtb buyScore (sellScore + 0.1)
    then (BUY, Ieee.Math_round (buyScore * 100))
    else if Ieee.gtb sellScore (buyScore + 0.1)
    then (SELL, Ieee.Math_round (sellScore * 100))
    else (NEUTRAL, 50) in
  mkFinal direction (Ieee.Math_min 100 (Ieee.Math_max 50 confidence))
          (t_dangerSignals t).

End InDoubles.

(* ------------------------------------------------------------------ *)
(** ** The vocabulary of the specification

    These definitions follow the words of the specification; the theorems
    below compare them with the code. *)

Module Spec.
Import Js AnalysisEngine TradingBot.

(** Sum of weight times confidence/100 over the analyzers that vote
    [dir]. *)
Fixpoint weightedVotes (dir : Direction) (analyses : list AnalysisEntry)
  : Q :=
  match analyses with
  | [] => 0
  | e :: rest =>
      (if Direction_eqb (r_direction (a_result e)) dir
       then a_weight e * (r_confidence (a_result e) / 100)
       else 0)
      + weightedVotes dir rest
  end.

Fixpoint sumOfWeights (analyses : list AnalysisEntry) : Q :=
  match analyses with
  | [] => 0
  | e :: rest => a_weight e + sumOfWeights rest
  end.

Definition buyScore (analyses : list AnalysisEntry) : Q :=
  weightedVotes BUY analyses / sumOfWeights analyses.

Definition sellScore (analyses : list AnalysisEntry) : Q :=
  weightedVotes SELL analyses / sumOfWeights analyses.

Definition clamp (lo hi x : Q) : Q := Qmax lo (Qmin hi x).

(** The summed strength of the signals of one direction. *)
Fixpoint summedStrength (dir : Direction) (signals : list Signal) : Q :=
  match signals with
  | [] => 0
  | s :: rest =>
      (if Direction_eqb (s_direction s) dir then s_strength s else 0)
      + summedStrength dir rest
  end.

(** Rule 4 of the analyzer contract, for a result and a cap. *)
Definition followsRule (cap : Q) (result : AnalyzerResult) : Prop :=
  let buyStrength := summedStrength BUY (r_signals result) in
  let sellStrength := summedStrength SELL (r_signals result) in
  (sellStrength < buyStrength ->
   r_direction result = BUY
   /\ r_confidence result
      == Qmin cap (50 + Math_round ((buyStrength - sellStrength) / 2)))
  /\ (buyStrength < sellStrength ->
      r_direction result = SELL
      /\ r_confidence result
         == Qmin cap (50 + Math_round ((sellStrength - buyStrength) / 2)))
  /\ (buyStrength == sellStrength ->
      r_direction result = NEUTRAL /\ r_confidence result == 50).

(** The result holds a signal with one of [names] and a strength of at
    least [least]. *)
Definition carries (result : AnalyzerResult) (names : list string)
           (least : Q) : Prop :=
  exists s, In s (r_signals result) /\ In (s_name s) names
            /\ least <= s_strength s.

(** The danger-signal list holds an entry of importance [k]. *)
Definition dangerOfImportance (k : Z) (dangers : list DangerSignal) : Prop :=
  exists d, In d dangers /\ d_importance d = k.

(** The invariant of a trading configuration. *)
Definition configInvariant (c : TradingConfig) : Prop :=
  (0 < minRiskPercent c /\ minRiskPercent c <= maxRiskPercent c)
  /\ (0 < minLot c /\ minLot c <= maxLot c).

(** An update that sets none of the four bounded fields. *)
Definition leavesBounds (u : ConfigUpdate) : Prop :=
  u_maxRiskPercent u = None /\ u_minRiskPercent u = None
  /\ u_maxLot u = None /\ u_minLot u = None.

(** The four bounded fields of a configuration after an update. *)
Definition mergedInvariant (c : TradingConfig) (u : ConfigUpdate) : Prop :=
  (0 < spread (minRiskPercent c) (u_minRiskPercent u)
   /\ spread (minRiskPercent c) (u_minRiskPercent u)
      <= spread (maxRiskPercent c) (u_maxRiskPercent u))
  /\ (0 < spread (minLot c) (u_minLot u)
      /\ spread (minLot c) (u_minLot u)
         <= spread (maxLot c) (u_maxLot u)).

(** A number with at most six decimals. *)
Definition sixDecimals (x : Q) : Prop :=
  exists k : Z, x == inject_Z k / pow10 6.

(** The consensus opposes the side of the position. *)
Definition opposes (d : Direction) (side : string) : Prop :=
  (side = "long" /\ d = SELL) \/ (side = "short" /\ d = BUY).

(** Every call the lifecycle makes to the brokerage or the database
    returns; [equity] is what the account reports. *)
Definition allReturn (env : Collaborators) (equity : Q) : Prop :=
  (forall sym, closePosition env sym = Returned tt)
  /\ (forall t, saveTrade env t = Returned tt)
  /\ getAccount env = Returned equity
  /\ (forall o, exists id, createOrder env o = Returned id).

(** The direction a held position stands for. *)
Definition heldDirection (position : Position) : Direction :=
  if String.eqb (p_side position) "long" then BUY else SELL.

(** The condition of a reversal as [manageExistingPositions] tests it:
    the consensus is not the direction held and its confidence is at
    least 75. *)
Definition reversalCondition (analysis : Analysis) (position : Position)
  : Prop :=
  an_direction analysis <> heldDirection position
  /\ 75 <= an_confidence analysis.

(** Some danger signal of the analysis has importance 7 or more. *)
Definition significantDanger (analysis : Analysis) : Prop :=
  exists d, In d (an_dangerSignals analysis) /\ (7 <= d_importance d)%Z.

(** Among the effects a trade record of the given status was written. *)
Definition closedWith (status : TradeStatus) (effects : list Event) : Prop :=
  exists t, In (TradeSaved t) effects /\ statusOf t = status.

(** [m] is the minimum (the maximum) of a list. *)
Definition isMinimum (m : Q) (prices : list Q) : Prop :=
  In m prices /\ forall p, In p prices -> m <= p.

Definition isMaximum (m : Q) (prices : list Q) : Prop :=
  In m prices /\ forall p, In p prices -> p <= m.




(** [a >= b] and [a <= b] as relations. *)
Definition atLeast (a b : Q) : Prop := b <= a.
Definition atMost (a b : Q) : Prop := a <= b.

(** A chain [p0.236 R p0.382 R p0.5 R p0.618 R p0.786] among the named
    levels, all of them between [lo] and [hi], with level 0 at [at0]
    and level 1 at [at1]. *)
Definition levelsChain (R : Q -> Q -> Prop) (lo hi at0 at1 : Q)
           (levels : list (string * Q)) : Prop :=
  exists p0 p236 p382 p5 p618 p786 p1 : Q,
    levelPrice "0" levels = Some p0
    /\ levelPrice "0.236" levels = Some p236
    /\ levelPrice "0.382" levels = Some p382
    /\ levelPrice "0.5" levels = Some p5
    /\ levelPrice "0.618" levels = Some p618
    /\ levelPrice "0.786" levels = Some p786
    /\ levelPrice "1" levels = Some p1
    /\ (R p236 p382 /\ R p382 p5 /\ R p5 p618 /\ R p618 p786)
    /\ p0 == at0 /\ p1 == at1
    /\ Forall (fun l => lo <= snd l /\ snd l <= hi) levels.


(** The same scores as the code computes them, in doubles: the votes
    are added up from zero in the order of the list. *)
Section InDoubleArithmetic.
Import Floats.
Local Open Scope float_scope.
#[local] Set Warnings "-inexact-float".

Definition votes (dir : Direction) (analyses : list InDoubles.Entry)
  : float :=
  fold_left
    (fun sum e =>
       sum + InDoubles.e_weight e * (InDoubles.e_confidence e / 100))
    (filter (fun e => Direction_eqb (InDoubles.e_direction e) dir) analyses)
    0.

Definition weights (analyses : list InDoubles.Entry) : float :=
  fold_left (fun sum e => sum + InDoubles.e_weight e) analyses 0.

Definition score (dir : Direction) (analyses : list InDoubles.Entry)
  : float :=
  votes dir analyses / weights analyses.

(** [round(score * 100)] clamped to [[50, 100]]. *)
Definition clampedPercent (score : float) : float :=
  Ieee.Math_min 100 (Ieee.Math_max 50 (Ieee.Math_round (score * 100))).

(** The margin of 0.10 as the code tests it: [lead > other + 0.1]. *)
Definition leads (lead other : float) : bool :=
  Ieee.gtb lead (other + 0.1).

End InDoubleArithmetic.

End Spec.
(* ------------------------------------------------------------------ *)
(** ** Loop invariants *)

Module Invariants.
Import FibonacciCalculator.

(** What the two loops of [calculateFibonacciLevels] maintain, [seen]
    being the entries visited so far and [start] the variables before the
    first loop. *)
Record Tracks (currentPrice : Q) (start : Nearest)
       (seen : list (string * Q)) (n : Nearest) : Prop := mkTracks {
  support_below : n_support n <= currentPrice;
  support_distance : closestSupportDistance n == currentPrice - n_support n;
  support_grows : n_support start <= n_support n;
  support_origin :
    n_support n = n_support start
    \/ (exists name, In (name, n_support n) seen)
       /\ n_support n < currentPrice;
  support_nearest :
    forall name p, In (name, p) seen -> p < currentPrice -> p <= n_support n;
  resistance_above : currentPrice <= n_resistance n;
  resistance_distance :
    closestResistanceDistance n == n_resistance n - currentPrice;
  resistance_shrinks : n_resistance n <= n_resistance start;
  resistance_origin :
    n_resistance n = n_resistance start
    \/ (exists name, In (name, n_resistance n) seen)
       /\ currentPrice < n_resistance n;
  resistance_nearest :
    forall name p,
      In (name, p) seen -> currentPrice < p -> n_resistance n <= p
}.

End Invariants.

(* ------------------------------------------------------------------ *)
(** ** Concrete evaluations

    The inputs the witnesses and the counterexamples run the code on. *)

Module Scenario.
Import AnalysisEngine TradingBot.

(** A brokerage and a database that answer every call. *)
Definition answering : Collaborators :=
  mkCollaborators (fun _ => Returned tt) (Returned 12000)
                  (fun _ => Returned (99, 101))
                  (fun _ => Returned "order-1")
                  (fun _ => Returned tt).

(** The same, but the brokerage refuses to close the position. *)
Definition closeRefused : Collaborators :=
  mkCollaborators (fun _ => Thrown "position does not exist")
                  (Returned 12000)
                  (fun _ => Returned (99, 101))
                  (fun _ => Returned "order-1")
                  (fun _ => Returned tt).

(** The same, but the brokerage rejects every order. *)
Definition orderRejected : Collaborators :=
  mkCollaborators (fun _ => Returned tt) (Returned 12000)
                  (fun _ => Returned (99, 101))
                  (fun _ => Thrown "insufficient buying power")
                  (fun _ => Returned tt).

Definition longPosition : Position :=
  mkPosition "AAPL" 2 "long" 100 101 2.

(** Consensus SELL at confidence 80, no danger. *)
Definition sell80 : Analysis := mkAnalysis "AAPL" SELL 80 (Some 100) [].

(** Consensus BUY at confidence 60 with a Bollinger danger signal. *)
Definition buy60danger : Analysis :=
  mkAnalysis "AAPL" BUY 60 (Some 100)
             [mkDanger "Extreme Overbought on Bollinger Bands" 8].

(** The data of a symbol holding [longPosition] after [analysis] was
    pushed on its history. *)
Definition holding (analysis : Analysis) : SymbolData :=
  mkData false (Some analysis) [longPosition] [analysis].

(** A configuration whose smallest lot has seven decimals. *)
Definition tinyLots : TradingConfig :=
  mkConfig 10 0.5 10 0.0000004 30 0.5 1.5.

(** An update that raises the smallest lot above the largest. *)
Definition raiseMinLot : ConfigUpdate :=
  mkUpdate None None None (Some 100) None None None.

(** An update of the growth target only. *)
Definition retarget : ConfigUpdate :=
  mkUpdate None None None None (Some 25) None None.

Definition quiet : AnalyzerResult := mkResult NEUTRAL 50 [].

(** Analyzers that all return a neutral result, and no news. *)
Definition quietSuite : AnalyzerSuite :=
  mkSuite (fun _ => Returned quiet) (fun _ => Returned quiet)
          (fun _ => Returned quiet) (fun _ _ _ => Returned quiet)
          (fun _ _ => Returned quiet) (fun _ => Returned quiet)
          (fun _ _ _ => Returned quiet) (fun _ _ _ => Returned quiet)
          (fun _ _ => Returned []).

(** The same, but the MACD analyzer throws. *)
Definition macdThrows : AnalyzerSuite :=
  mkSuite (fun _ => Returned quiet)
          (fun _ => Thrown "Cannot read properties of undefined")
          (fun _ => Returned quiet) (fun _ _ _ => Returned quiet)
          (fun _ _ => Returned quiet) (fun _ => Returned quiet)
          (fun _ _ _ => Returned quiet) (fun _ _ _ => Returned quiet)
          (fun _ _ => Returned []).

Definition oneBar : list Bar := [mkBar 100 101 99 100 1000].

(** Ten results in which MACD votes BUY at 90, Trend Strength BUY at 80
    and Market Sentiment SELL at 80: the buy score is 0.164, the sell
    score 0.064. *)
Definition nearTie : list AnalysisEntry :=
  [ entry MovingAverages quiet; entry RSI quiet;
    entry MACD (mkResult BUY 90 []); entry BollingerBands quiet;
    entry SupportResistance quiet; entry Volume quiet;
    entry CandlestickPatterns quiet; entry Fibonacci quiet;
    entry TrendStrength (mkResult BUY 80 []);
    entry MarketSentiment (mkResult SELL 80 []) ].

(** Ten results in which every analyzer but Bollinger Bands votes BUY
    at 85: the buy score is 0.765. *)
Definition nearHalf : list AnalysisEntry :=
  [ entry MovingAverages (mkResult BUY 85 []);
    entry RSI (mkResult BUY 85 []);
    entry MACD (mkResult BUY 85 []); entry BollingerBands quiet;
    entry SupportResistance (mkResult BUY 85 []);
    entry Volume (mkResult BUY 85 []);
    entry CandlestickPatterns (mkResult BUY 85 []);
    entry Fibonacci (mkResult BUY 85 []);
    entry TrendStrength (mkResult BUY 85 []);
    entry MarketSentiment (mkResult BUY 85 []) ].

(** A report without a direction. *)
Definition noDirection : AnalysisReport :=
  mkReport "AAPL" (Some 100) [] None (Some 80) [] None.

(** Fifteen closes, one rise of 11 followed by thirteen falls of 3: the
    RSI(14) is 22. *)
Definition fallingCloses : list Q :=
  [100; 111; 108; 105; 102; 99; 96; 93; 90; 87; 84; 81; 78; 75; 72].

(** A symbol whose last three analyses saw the prices 100, 110 and
    104. *)
Definition swing : SymbolData :=
  mkData false None []
         [mkAnalysis "AAPL" BUY 60 (Some 100) [];
          mkAnalysis "AAPL" BUY 60 (Some 110) [];
          mkAnalysis "AAPL" SELL 80 (Some 104) []].

End Scenario.

(* ------------------------------------------------------------------ *)
(** ** Further vocabulary

    Notions used to state what the rest of the code does. *)

Module Vocabulary.
Import Js AnalysisEngine TradingBot.

(** The names of the signals of a result. *)
Definition signalNames (result : AnalyzerResult) : list string :=
  map s_name (r_signals result).

(** No effect of the list touches the brokerage or the database. *)
Definition noTrade (effects : list Event) : Prop :=
  forall e, In e effects ->
            match e with
            | PositionClosed _ | TradeSaved _ | OrderCreated _ _ => False
            | _ => True
            end.

(** No recorded price of the history is negative. *)
Definition noNegativePrice (history : list Analysis) : Prop :=
  forall a v, In a history -> an_price a = Some v -> 0 <= v.

End Vocabulary.

(* ------------------------------------------------------------------ *)
(** ** Facts about the JavaScript primitives *)

Section JsFacts.
Import Js.

Lemma ltb_true (x y : Q) : ltb x y = true <-> x < y.
Proof.
  unfold ltb. rewrite negb_true_iff, <- not_true_iff_false, Qle_bool_iff.
  split; [apply Qnot_le_lt | apply Qlt_not_le].
Qed.

Lemma ltb_false (x y : Q) : ltb x y = false <-> y <= x.
Proof.
  unfold ltb. rewrite negb_false_iff. apply Qle_bool_iff.
Qed.

Lemma gtb_true (x y : Q) : gtb x y = true <-> y < x.
Proof. apply ltb_true. Qed.

Lemma gtb_false (x y : Q) : gtb x y = false <-> x <= y.
Proof. apply ltb_false. Qed.

Lemma geb_true (x y : Q) : geb x y = true <-> y <= x.
Proof. apply Qle_bool_iff. Qed.

Lemma geb_false (x y : Q) : geb x y = false <-> x < y.
Proof.
  unfold geb. rewrite <- not_true_iff_false, Qle_bool_iff.
  split; [apply Qnot_le_lt | apply Qlt_not_le].
Qed.

Lemma leb_true (x y : Q) : leb x y = true <-> x <= y.
Proof. apply Qle_bool_iff. Qed.

#[global] Instance Math_round_proper : Proper (Qeq ==> Qeq) Math_round.
Proof.
  intros x y Hxy. unfold Math_round.
  assert (H : x + (1 # 2) == y + (1 # 2)) by (rewrite Hxy; reflexivity).
  rewrite (Qfloor_comp _ _ H). reflexivity.
Qed.

Lemma Math_round_mono (x y : Q) : x <= y -> Math_round x <= Math_round y.
Proof.
  intros Hxy. unfold Math_round. rewrite <- Zle_Qle.
  apply Qfloor_resp_le. lra.
Qed.

Lemma Math_round_integer (z : Z) : Math_round (inject_Z z) == inject_Z z.
Proof.
  unfold Math_round.
  assert (H : Qfloor (inject_Z z + (1 # 2)) = z).
  { pose proof (Qfloor_le (inject_Z z + (1 # 2))) as Hle.
    pose proof (Qlt_floor (inject_Z z + (1 # 2))) as Hlt.
    assert (H1 : inject_Z (Qfloor (inject_Z z + (1 # 2))) < inject_Z (z + 1)).
    { rewrite inject_Z_plus. apply Qle_lt_trans with (1 := Hle).
      change (inject_Z 1) with 1. lra. }
    assert (H2 : inject_Z z < inject_Z (Qfloor (inject_Z z + (1 # 2)) + 1)).
    { apply Qlt_trans with (2 := Hlt). lra. }
    rewrite <- Zlt_Qlt in H1, H2. lia. }
  rewrite H. reflexivity.
Qed.

Lemma pow10_pos (d : nat) : 0 < pow10 d.
Proof.
  unfold pow10. change 0 with (inject_Z 0). rewrite <- Zlt_Qlt.
  apply Z.pow_pos_nonneg; lia.
Qed.

Lemma toFixed_nonneg (d : nat) (x : Q) :
  0 <= x -> toFixed d x = Math_round (x * pow10 d) / pow10 d.
Proof.
  intros Hx. unfold toFixed.
  replace (ltb x 0) with false; [reflexivity|].
  symmetry. apply ltb_false. exact Hx.
Qed.

Lemma toFixed_mono (d : nat) (x y : Q) :
  0 <= x -> x <= y -> toFixed d x <= toFixed d y.
Proof.
  intros Hx Hxy. rewrite !toFixed_nonneg by lra.
  pose proof (pow10_pos d) as Hp.
  apply Qmult_le_compat_r.
  - apply Math_round_mono. apply Qmult_le_compat_r; lra.
  - apply Qlt_le_weak, Qinv_lt_0_compat, Hp.
Qed.

Lemma toFixed_fixes (d : nat) (k : Z) :
  (0 <= k)%Z -> toFixed d (inject_Z k / pow10 d) == inject_Z k / pow10 d.
Proof.
  intros Hk. pose proof (pow10_pos d) as Hp.
  assert (H0 : 0 <= inject_Z k / pow10 d).
  { apply Qle_shift_div_l; [exact Hp|].
    rewrite Qmult_0_l. change 0 with (inject_Z 0). rewrite <- Zle_Qle. exact Hk. }
  rewrite toFixed_nonneg by exact H0.
  assert (E : inject_Z k / pow10 d * pow10 d == inject_Z k).
  { field. lra. }
  rewrite E, Math_round_integer. reflexivity.
Qed.

End JsFacts.

(* ------------------------------------------------------------------ *)
(** ** Fibonacci retracement levels (C9) *)

Section RetracementLevels.
Import Js AnalysisEngine.

Variables highest lowest : Q.
Hypothesis ordered : lowest <= highest.

Lemma engine_levels_uptrend :
  Spec.levelsChain Spec.atLeast lowest highest highest lowest
    (calculateFibonacciRetracementLevels highest lowest true).
Proof.
  unfold Spec.levelsChain, calculateFibonacciRetracementLevels.
  exists highest, (highest - (highest - lowest) * 0.236),
    (highest - (highest - lowest) * 0.382),
    (highest - (highest - lowest) * 0.5),
    (highest - (highest - lowest) * 0.618),
    (highest - (highest - lowest) * 0.786), lowest.
  repeat (split; [reflexivity|]).
  split; [unfold Spec.atLeast; repeat split; lra|].
  split; [reflexivity|]. split; [reflexivity|].
  repeat constructor; cbn [snd]; lra.
Qed.

Lemma engine_levels_downtrend :
  Spec.levelsChain Spec.atMost lowest highest lowest highest
    (calculateFibonacciRetracementLevels highest lowest false).
Proof.
  unfold Spec.levelsChain, calculateFibonacciRetracementLevels.
  exists lowest, (lowest + (highest - lowest) * 0.236),
    (lowest + (highest - lowest) * 0.382),
    (lowest + (highest - lowest) * 0.5),
    (lowest + (highest - lowest) * 0.618),
    (lowest + (highest - lowest) * 0.786), highest.
  repeat (split; [reflexivity|]).
  split; [unfold Spec.atMost; repeat split; lra|].
  split; [reflexivity|]. split; [reflexivity|].
  repeat constructor; cbn [snd]; lra.
Qed.

(** The object literal of fibonacciCalculator.js holds the same entries. *)
Lemma calculator_levels_same (isUptrend : bool) :
  FibonacciCalculator.retracements highest lowest isUptrend
  = calculateFibonacciRetracementLevels highest lowest isUptrend.
Proof. reflexivity. Qed.

End RetracementLevels.

(** C9.  For [highestPoint >= lowestPoint] the retracement levels of an
    uptrend descend from level 0.236 to level 0.786, those of a downtrend
    ascend; every level lies between the lowest and the highest point;
    level 0 is the highest point and level 1 the lowest in an uptrend, the
    other way round in a downtrend.  This holds for
    [calculateFibonacciRetracementLevels] of analysisEngine.js and for the
    [levels] of [calculateFibonacciLevels] of fibonacciCalculator.js. *)
Theorem C9_retracement_levels_ordered (highest lowest : Q) :
  lowest <= highest ->
  Spec.levelsChain Spec.atLeast lowest highest highest lowest
    (AnalysisEngine.calculateFibonacciRetracementLevels highest lowest true)
  /\ Spec.levelsChain Spec.atMost lowest highest lowest highest
       (AnalysisEngine.calculateFibonacciRetracementLevels highest lowest false)
  /\ Spec.levelsChain Spec.atLeast lowest highest highest lowest
       (FibonacciCalculator.retracements highest lowest true)
  /\ Spec.levelsChain Spec.atMost lowest highest lowest highest
       (FibonacciCalculator.retracements highest lowest false).
Proof.
  intros Hle.
  pose proof (engine_levels_uptrend highest lowest Hle) as Hup.
  pose proof (engine_levels_downtrend highest lowest Hle) as Hdown.
  split; [exact Hup | split; [exact Hdown | split]].
  - rewrite calculator_levels_same. exact Hup.
  - rewrite calculator_levels_same. exact Hdown.
Qed.

Lemma C9_witness :
  Spec.levelsChain Spec.atLeast 100 200 200 100
    (AnalysisEngine.calculateFibonacciRetracementLevels 200 100 true)
  /\ Spec.levelsChain Spec.atMost 100 200 100 200
       (AnalysisEngine.calculateFibonacciRetracementLevels 200 100 false)
  /\ Spec.levelsChain Spec.atLeast 100 200 200 100
       (FibonacciCalculator.retracements 200 100 true)
  /\ Spec.levelsChain Spec.atMost 100 200 100 200
       (FibonacciCalculator.retracements 200 100 false).
Proof.
  apply (C9_retracement_levels_ordered 200 100). unfold Qle; simpl; lia.
Defined.

(* ------------------------------------------------------------------ *)
(** ** Support and resistance bracket the last price (C10) *)

Section Extremes.
Import Js.

Lemma Qmin_pick (x y : Q) : Qmin x y = x \/ Qmin x y = y.
Proof.
  unfold Qmin, GenericMinMax.gmin. destruct (x ?= y); auto.
Qed.

Lemma Qmax_pick (x y : Q) : Qmax x y = x \/ Qmax x y = y.
Proof.
  unfold Qmax, GenericMinMax.gmax. destruct (x ?= y); auto.
Qed.

Lemma minOf_lower (xs : list Q) (x : Q) :
  minOf x xs <= x /\ (forall y, In y xs -> minOf x xs <= y).
Proof.
  unfold minOf. revert x.
  induction xs as [|a xs IH]; intros x; cbn [fold_left].
  - split; [lra | intros y []].
  - destruct (IH (Qmin x a)) as [H1 H2].
    pose proof (Q.le_min_l x a). pose proof (Q.le_min_r x a).
    split; [lra|]. intros y [<-|Hy]; [lra | auto].
Qed.

Lemma maxOf_upper (xs : list Q) (x : Q) :
  x <= maxOf x xs /\ (forall y, In y xs -> y <= maxOf x xs).
Proof.
  unfold maxOf. revert x.
  induction xs as [|a xs IH]; intros x; cbn [fold_left].
  - split; [lra | intros y []].
  - destruct (IH (Qmax x a)) as [H1 H2].
    pose proof (Q.le_max_l x a). pose proof (Q.le_max_r x a).
    split; [lra|]. intros y [<-|Hy]; [lra | auto].
Qed.

Lemma minOf_member (xs : list Q) (x : Q) : In (minOf x xs) (x :: xs).
Proof.
  unfold minOf. revert x.
  induction xs as [|a xs IH]; intros x; cbn [fold_left].
  - left; reflexivity.
  - destruct (Qmin_pick x a) as [E|E]; rewrite E.
    + destruct (IH x) as [H|H]; [left | right; right]; exact H.
    + destruct (IH a) as [H|H]; [right; left | right; right]; exact H.
Qed.

Lemma maxOf_member (xs : list Q) (x : Q) : In (maxOf x xs) (x :: xs).
Proof.
  unfold maxOf. revert x.
  induction xs as [|a xs IH]; intros x; cbn [fold_left].
  - left; reflexivity.
  - destruct (Qmax_pick x a) as [E|E]; rewrite E.
    + destruct (IH x) as [H|H]; [left | right; right]; exact H.
    + destruct (IH a) as [H|H]; [right; left | right; right]; exact H.
Qed.

Lemma last_nonempty (xs : list Q) (d : Q) : xs <> [] -> In (last xs d) xs.
Proof.
  induction xs as [|a xs IH]; intros Hne; [congruence|].
  destruct xs as [|b xs'].
  - left; reflexivity.
  - right. apply IH. discriminate.
Qed.

Lemma last_member (xs : list Q) (x : Q) : In (last xs x) (x :: xs).
Proof.
  destruct xs as [|a xs'].
  - left; reflexivity.
  - right. apply last_nonempty. discriminate.
Qed.

End Extremes.

Section NearestLevels.
Import Js FibonacciCalculator Invariants.

Variable currentPrice : Q.

Ltac keep_origin H :=
  let nm := fresh "nm" in
  let Hside := fresh "Hside" in
  destruct H as [H|[[nm H] Hside]];
  [ left; exact H
  | right; split;
    [ exists nm; apply in_or_app; left; exact H | exact Hside ] ].

Ltac new_origin name Hside :=
  right; split;
  [ exists name; apply in_or_app; right; left; reflexivity | exact Hside ].

Ltac still_nearest Hold :=
  let Hin := fresh "Hin" in
  let Hp := fresh "Hp" in
  let Heq := fresh "Heq" in
  intros ? ? Hin Hp; apply in_app_or in Hin;
  destruct Hin as [Hin|[Heq|[]]];
  [ specialize (Hold _ _ Hin Hp); lra | injection Heq as _ <-; lra ].

Lemma tracks_consider (start : Nearest) (seen : list (string * Q))
      (n : Nearest) (entry : string * Q) :
  Tracks currentPrice start seen n ->
  Tracks currentPrice start (seen ++ [entry]) (consider currentPrice n entry).
Proof.
  intros [Hsb Hsd Hsg Hso Hsn Hra Hrd Hrs Hro Hrn].
  destruct entry as [name price]. unfold consider. cbn [snd].
  set (distance := Math_abs (currentPrice - price)).
  destruct (ltb price currentPrice) eqn:Hlt; cbn [andb].
  - apply ltb_true in Hlt.
    assert (Hd : distance == currentPrice - price).
    { unfold distance, Math_abs. apply Qabs_pos. lra. }
    destruct (ltb distance (closestSupportDistance n)) eqn:Hnear.
    + apply ltb_true in Hnear. rewrite Hd, Hsd in Hnear.
      constructor; cbn [n_support closestSupportDistance n_resistance
                        closestResistanceDistance];
        try assumption; try lra;
        first [ keep_origin Hro | new_origin name Hlt
              | still_nearest Hsn | still_nearest Hrn ].
    + apply ltb_false in Hnear. rewrite Hd, Hsd in Hnear.
      replace (gtb price currentPrice) with false
        by (symmetry; apply gtb_false; lra).
      cbn [andb].
      constructor; try assumption;
        first [ keep_origin Hso | keep_origin Hro
              | still_nearest Hsn | still_nearest Hrn ].
  - apply ltb_false in Hlt.
    destruct (gtb price currentPrice) eqn:Hgt; cbn [andb].
    + apply gtb_true in Hgt.
      assert (Hd : distance == price - currentPrice).
      { unfold distance, Math_abs. rewrite Qabs_neg by lra. ring. }
      destruct (ltb distance (closestResistanceDistance n)) eqn:Hnear.
      * apply ltb_true in Hnear. rewrite Hd, Hrd in Hnear.
        constructor; cbn [n_support closestSupportDistance n_resistance
                          closestResistanceDistance];
          try assumption; try lra;
          first [ keep_origin Hso | new_origin name Hgt
                | still_nearest Hsn | still_nearest Hrn ].
      * apply ltb_false in Hnear. rewrite Hd, Hrd in Hnear.
        constructor; try assumption;
          first [ keep_origin Hso | keep_origin Hro
                | still_nearest Hsn | still_nearest Hrn ].
    + apply gtb_false in Hgt.
      constructor; try assumption;
        first [ keep_origin Hso | keep_origin Hro
              | still_nearest Hsn | still_nearest Hrn ].
Qed.

Lemma tracks_fold (start : Nearest) (entries seen : list (string * Q))
      (n : Nearest) :
  Tracks currentPrice start seen n ->
  Tracks currentPrice start (seen ++ entries)
         (fold_left (consider currentPrice) entries n).
Proof.
  revert seen n.
  induction entries as [|entry entries IH]; intros seen n Hn; cbn [fold_left].
  - rewrite app_nil_r. exact Hn.
  - replace (seen ++ entry :: entries) with ((seen ++ [entry]) ++ entries)
      by (rewrite <- app_assoc; reflexivity).
    apply IH, tracks_consider, Hn.
Qed.

End NearestLevels.

Section Bracket.
Import Js FibonacciCalculator Invariants.

Lemma Object_entries_same (object : list (string * Q)) (e : string * Q) :
  In e (Object_entries object) <-> In e object.
Proof.
  unfold Object_entries. rewrite in_app_iff, !filter_In.
  destruct (isIndexKey (fst e)); cbn [negb]; intuition congruence.
Qed.


Lemma start_tracks (currentPrice lowestPrice highestPrice : Q) :
  lowestPrice <= currentPrice -> currentPrice <= highestPrice ->
  let start :=
    mkNearest lowestPrice (Math_abs (currentPrice - lowestPrice))
              highestPrice (Math_abs (highestPrice - currentPrice)) in
  Tracks currentPrice start [] start.
Proof.
  intros Hlow Hhigh start. unfold start.
  constructor; cbn [n_support closestSupportDistance n_resistance
                    closestResistanceDistance];
    try lra; try (left; reflexivity); try (intros ? ? []).
  - unfold Math_abs. apply Qabs_pos. lra.
  - unfold Math_abs. apply Qabs_pos. lra.
Qed.

End Bracket.

Section Candidates.
Import Js FibonacciCalculator.





End Candidates.




(* ------------------------------------------------------------------ *)
(** ** The consensus of the weighted analyzer results (C1) *)

Section Consensus.
Import Floats AnalysisEngine.
Local Open Scope float_scope.

(** The three sums of the loop are the sums of the specification, added
    up in the same order. *)
Lemma tally_sums (analyses : list InDoubles.Entry) (t : InDoubles.Tally) :
  InDoubles.totalBuyWeight (fold_left InDoubles.tallyStep analyses t)
  = fold_left
      (fun sum e =>
         sum + InDoubles.e_weight e * (InDoubles.e_confidence e / 100))
      (filter (fun e => Direction_eqb (InDoubles.e_direction e) BUY)
              analyses)
      (InDoubles.totalBuyWeight t)
  /\ InDoubles.totalSellWeight (fold_left InDoubles.tallyStep analyses t)
     = fold_left
         (fun sum e =>
            sum + InDoubles.e_weight e * (InDoubles.e_confidence e / 100))
         (filter (fun e => Direction_eqb (InDoubles.e_direction e) SELL)
                 analyses)
         (InDoubles.totalSellWeight t)
  /\ InDoubles.totalWeight (fold_left InDoubles.tallyStep analyses t)
     = fold_left (fun sum e => sum + InDoubles.e_weight e) analyses
                 (InDoubles.totalWeight t).
Proof.
  revert t. induction analyses as [|e rest IH]; intros t.
  - repeat split.
  - cbn [fold_left filter].
    destruct (IH (InDoubles.tallyStep t e)) as (Hb & Hs & Hw).
    rewrite Hb, Hs, Hw. unfold InDoubles.tallyStep.
    cbn [InDoubles.totalBuyWeight InDoubles.totalSellWeight
         InDoubles.totalWeight].
    destruct (InDoubles.e_direction e); cbn [Direction_eqb fold_left];
      repeat split.
Qed.

Lemma scores_agree (analyses : list InDoubles.Entry) :
  InDoubles.totalBuyWeight (InDoubles.tally analyses)
  / InDoubles.totalWeight (InDoubles.tally analyses)
  = Spec.score BUY analyses
  /\ InDoubles.totalSellWeight (InDoubles.tally analyses)
     / InDoubles.totalWeight (InDoubles.tally analyses)
     = Spec.score SELL analyses.
Proof.
  unfold InDoubles.tally, Spec.score, Spec.votes, Spec.weights.
  destruct (tally_sums analyses (InDoubles.mkTally 0 0 0 []))
    as (Hb & Hs & Hw).
  rewrite Hb, Hs, Hw. split; reflexivity.
Qed.

End Consensus.

(** C1, as the code has it.  [calculateFinalResult] decides on the
    scores as it computes them in double arithmetic, each the sum of
    weight times confidence/100 over the analyzers voting BUY (resp.
    SELL), added up in the order of the list and divided by the sum of
    the weights.  It returns BUY when the buy score exceeds the sell
    score plus 0.1, SELL when that fails and the sell score exceeds the
    buy score plus 0.1, each with the confidence [round(score * 100)]
    clamped to [[50, 100]], and NEUTRAL with confidence 50 otherwise. *)
Theorem C1_consensus_margin (analyses : list InDoubles.Entry) :
  (Spec.leads (Spec.score AnalysisEngine.BUY analyses)
              (Spec.score AnalysisEngine.SELL analyses) = true ->
   InDoubles.f_direction (InDoubles.calculateFinalResult analyses)
   = AnalysisEngine.BUY
   /\ InDoubles.f_confidence (InDoubles.calculateFinalResult analyses)
      = Spec.clampedPercent (Spec.score AnalysisEngine.BUY analyses))
  /\ (Spec.leads (Spec.score AnalysisEngine.BUY analyses)
                 (Spec.score AnalysisEngine.SELL analyses) = false ->
      Spec.leads (Spec.score AnalysisEngine.SELL analyses)
                 (Spec.score AnalysisEngine.BUY analyses) = true ->
      InDoubles.f_direction (InDoubles.calculateFinalResult analyses)
      = AnalysisEngine.SELL
      /\ InDoubles.f_confidence (InDoubles.calculateFinalResult analyses)
         = Spec.clampedPercent (Spec.score AnalysisEngine.SELL analyses))
  /\ (Spec.leads (Spec.score AnalysisEngine.BUY analyses)
                 (Spec.score AnalysisEngine.SELL analyses) = false ->
      Spec.leads (Spec.score AnalysisEngine.SELL analyses)
                 (Spec.score AnalysisEngine.BUY analyses) = false ->
      InDoubles.f_direction (InDoubles.calculateFinalResult analyses)
      = AnalysisEngine.NEUTRAL
      /\ InDoubles.f_confidence (InDoubles.calculateFinalResult analyses)
         = Ieee.ofZ 50).
Proof.
  destruct (scores_agree analyses) as [Hb Hs].
  unfold InDoubles.calculateFinalResult. cbv zeta.
  rewrite Hb, Hs. unfold Spec.leads.
  split; [|split].
  - intros Hbuy. rewrite Hbuy.
    cbn [InDoubles.f_direction InDoubles.f_confidence]. split; reflexivity.
  - intros Hbuy Hsell. rewrite Hbuy, Hsell.
    cbn [InDoubles.f_direction InDoubles.f_confidence]. split; reflexivity.
  - intros Hbuy Hsell. rewrite Hbuy, Hsell.
    cbn [InDoubles.f_direction InDoubles.f_confidence].
    split; [reflexivity | vm_compute; reflexivity].
Qed.

(** C1 as stated fails in the arithmetic of the code.  With MACD BUY at
    90, Trend Strength BUY at 80 and Market Sentiment SELL at 80 the
    scores are 0.164 and 0.064, a margin of exactly 0.10, and the code
    returns BUY (at confidence 50): its buy score comes out as
    0.16400000000000003, above 0.064 + 0.1 = 0.164.  With nine
    analyzers voting BUY at 85 the buy score is 0.765 and
    [round(score * 100)] is 77, and the code returns confidence 76: its
    product is 76.49999999999999. *)
Lemma C1_counterexample :
  (Qabs (Spec.buyScore Scenario.nearTie - Spec.sellScore Scenario.nearTie)
   <= 0.1
   /\ InDoubles.f_direction
        (InDoubles.calculateFinalResult
           (map InDoubles.ofEntry Scenario.nearTie))
      = AnalysisEngine.BUY
   /\ InDoubles.f_confidence
        (InDoubles.calculateFinalResult
           (map InDoubles.ofEntry Scenario.nearTie))
      = Ieee.ofZ 50)
  /\ (0.1 < Spec.buyScore Scenario.nearHalf - Spec.sellScore Scenario.nearHalf
      /\ Spec.clamp 50 100
           (Js.Math_round (Spec.buyScore Scenario.nearHalf * 100)) == 77
      /\ InDoubles.f_direction
           (InDoubles.calculateFinalResult
              (map InDoubles.ofEntry Scenario.nearHalf))
         = AnalysisEngine.BUY
      /\ InDoubles.f_confidence
           (InDoubles.calculateFinalResult
              (map InDoubles.ofEntry Scenario.nearHalf))
         = Ieee.ofZ 76).
Proof.
  split.
  - split; [vm_compute; discriminate|].
    split; vm_compute; reflexivity.
  - split; [vm_compute; reflexivity|].
    split; [vm_compute; reflexivity|].
    split; vm_compute; reflexivity.
Qed.

(* ------------------------------------------------------------------ *)
(** ** The closing block of the analyzers (C5) and the RSI analyzer (C8) *)

Section ClosingBlock.
Import Js AnalysisEngine.

Lemma strengthSum_from (signals : list Signal) (acc : Q) :
  fold_left (fun sum s => sum + s_strength s) signals acc
  == acc + strengthSum signals.
Proof.
  unfold strengthSum. revert acc.
  induction signals as [|s rest IH]; intros acc; cbn [fold_left].
  - ring.
  - rewrite (IH (acc + s_strength s)), (IH (0 + s_strength s)). ring.
Qed.

Lemma strengthSum_filter (dir : Direction) (signals : list Signal) :
  strengthSum (filter (fun s => Direction_eqb (s_direction s) dir) signals)
  == Spec.summedStrength dir signals.
Proof.
  induction signals as [|s rest IH]; [reflexivity|].
  cbn [filter Spec.summedStrength].
  destruct (Direction_eqb (s_direction s) dir).
  - unfold strengthSum at 1. cbn [fold_left].
    rewrite strengthSum_from, IH. ring.
  - rewrite IH. ring.
Qed.

Lemma verdict_follows (cap : Q) (signals : list Signal) :
  Spec.followsRule cap (conclude cap signals).
Proof.
  unfold Spec.followsRule, conclude.
  destruct (verdict cap signals) as [direction confidence] eqn:Hv.
  cbn [r_direction r_confidence r_signals].
  pose proof (strengthSum_filter BUY signals) as Hb.
  pose proof (strengthSum_filter SELL signals) as Hs.
  unfold verdict in Hv.
  destruct signals as [|s0 rest].
  { injection Hv as <- <-. cbn [Spec.summedStrength].
    split; [|split]; intros H; try lra; split; reflexivity. }
  set (signals := s0 :: rest) in *.
  set (buy := strengthSum (filter _ signals)) in *.
  set (sell := strengthSum (filter (fun s => Direction_eqb (s_direction s) SELL)
                                   signals)) in *.
  assert (Ebuy : Math_round ((buy - sell) / 2)
                 == Math_round ((Spec.summedStrength BUY signals
                                 - Spec.summedStrength SELL signals) / 2)).
  { apply Math_round_proper. rewrite Hb, Hs. reflexivity. }
  assert (Esell : Math_round ((sell - buy) / 2)
                  == Math_round ((Spec.summedStrength SELL signals
                                  - Spec.summedStrength BUY signals) / 2)).
  { apply Math_round_proper. rewrite Hb, Hs. reflexivity. }
  destruct (gtb buy sell) eqn:Hgt.
  - apply gtb_true in Hgt. injection Hv as <- <-.
    split; [|split]; intros H; try lra.
    split; [reflexivity|]. unfold Math_min. rewrite Ebuy. reflexivity.
  - apply gtb_false in Hgt.
    destruct (gtb sell buy) eqn:Hgt'.
    + apply gtb_true in Hgt'. injection Hv as <- <-.
      split; [|split]; intros H; try lra.
      split; [reflexivity|]. unfold Math_min. rewrite Esell. reflexivity.
    + apply gtb_false in Hgt'. injection Hv as <- <-.
      split; [|split]; intros H; try lra; split; reflexivity.
Qed.

Lemma verdict_bounds (cap : Q) (signals : list Signal) :
  50 <= cap ->
  50 <= snd (verdict cap signals) /\ snd (verdict cap signals) <= cap.
Proof.
  intros Hcap. unfold verdict.
  destruct signals as [|s0 rest]; [cbn [snd]; lra|].
  set (buy := strengthSum _). set (sell := strengthSum _).
  destruct (gtb buy sell) eqn:Hgt; [apply gtb_true in Hgt|];
    [|destruct (gtb sell buy) eqn:Hgt'; [apply gtb_true in Hgt'|]];
    cbn [snd]; try lra; unfold Math_min.
  - assert (H : 0 <= Math_round ((buy - sell) / 2)).
    { rewrite <- (Math_round_integer 0). apply Math_round_mono.
      change (inject_Z 0) with 0. apply Qle_shift_div_l; lra. }
    split; [apply Q.min_glb; lra | apply Q.le_min_l].
  - assert (H : 0 <= Math_round ((sell - buy) / 2)).
    { rewrite <- (Math_round_integer 0). apply Math_round_mono.
      change (inject_Z 0) with 0. apply Qle_shift_div_l; lra. }
    split; [apply Q.min_glb; lra | apply Q.le_min_l].
Qed.

End ClosingBlock.

Section SentimentResults.
Import Js AnalysisEngine.

Lemma round_half_from (least : Z) (x : Q) :
  inject_Z least <= x -> inject_Z least <= Math_round x.
Proof.
  intros Hx. rewrite <- (Math_round_integer least).
  apply Math_round_mono. exact Hx.
Qed.

(** A result with one signal in its own direction, of a strength equal
    to its confidence between 70 and 80, follows the rule for no cap
    above 80. *)
Lemma own_strength_breaks_rule (name : string) (direction : Direction)
      (confidence cap : Q) :
  direction <> NEUTRAL ->
  70 <= confidence -> confidence <= 80 -> 80 < cap ->
  ~ Spec.followsRule cap
      (mkResult direction confidence [mkSignal name direction confidence]).
Proof.
  intros Hdir Hlo Hhi Hcap (Hbuy & Hsell & _).
  assert (Hhalf : forall x, 70 <= x -> 35 <= Math_round (x / 2)).
  { intros x Hx. pose proof (round_half_from 35 (x / 2)) as H.
    change (inject_Z 35) with 35 in H. apply H.
    apply Qle_shift_div_l; lra. }
  destruct direction; [| |congruence];
    cbn [r_signals r_direction r_confidence Spec.summedStrength
         s_direction s_strength Direction_eqb] in Hbuy, Hsell.
  - destruct Hbuy as [_ E]; [lra|].
    pose proof (Hhalf (confidence + 0 - (0 + 0)) ltac:(lra)) as H35.
    destruct (Q.min_spec cap (50 + Math_round ((confidence + 0 - (0 + 0)) / 2)))
      as [[_ Em]|[_ Em]]; rewrite Em in E; lra.
  - destruct Hsell as [_ E]; [lra|].
    pose proof (Hhalf (confidence + 0 - (0 + 0)) ltac:(lra)) as H35.
    destruct (Q.min_spec cap (50 + Math_round ((confidence + 0 - (0 + 0)) / 2)))
      as [[_ Em]|[_ Em]]; rewrite Em in E; lra.
Qed.

(** The two kinds of result of [analyzeMarketSentiment]. *)
Lemma sentiment_shape (news : outcome (list Q)) :
  analyzeMarketSentiment news = mkResult NEUTRAL 50 []
  \/ exists name direction confidence,
       analyzeMarketSentiment news
       = mkResult direction confidence [mkSignal name direction confidence]
       /\ direction <> NEUTRAL
       /\ 70 <= confidence /\ confidence <= 80.
Proof.
  unfold analyzeMarketSentiment.
  destruct news as [[|item items]|message];
    [left; reflexivity | | left; reflexivity].
  cbv zeta. set (avgSentiment := _ / _).
  destruct (gtb avgSentiment 0.2) eqn:Hup.
  - right. apply gtb_true in Hup.
    eexists _, BUY, _. split; [reflexivity|]. split; [discriminate|].
    pose proof (round_half_from 20 (avgSentiment * 100)) as H20.
    change (inject_Z 20) with 20 in H20. specialize (H20 ltac:(lra)).
    unfold Math_min.
    pose proof (Q.le_min_l 30 (Math_round (avgSentiment * 100))).
    assert (20 <= Qmin 30 (Math_round (avgSentiment * 100)))
      by (apply Q.min_glb; lra).
    lra.
  - destruct (ltb avgSentiment (- 0.2)) eqn:Hdown; [|left; reflexivity].
    right. apply ltb_true in Hdown.
    eexists _, SELL, _. split; [reflexivity|]. split; [discriminate|].
    assert (Habs : Math_abs avgSentiment == - avgSentiment).
    { unfold Math_abs. apply Qabs_neg. lra. }
    pose proof (round_half_from 20 (Math_abs avgSentiment * 100)) as H20.
    change (inject_Z 20) with 20 in H20. specialize (H20 ltac:(lra)).
    unfold Math_min.
    pose proof (Q.le_min_l 30 (Math_round (Math_abs avgSentiment * 100))).
    assert (20 <= Qmin 30 (Math_round (Math_abs avgSentiment * 100)))
      by (apply Q.min_glb; lra).
    lra.
Qed.

End SentimentResults.

(** C5, as the code has it.  Nine analyzers end in the closing block:
    whatever their input, the result of [analyzeMovingAverages],
    [analyzeRSI], [analyzeMACD], [analyzeBollingerBands],
    [analyzeSupportResistance] and [analyzeADX] follows the rule with
    the cap 90, and the result of [analyzeVolume],
    [analyzeCandlestickPatterns] (where it returns) and
    [analyzeFibonacciLevels] follows it with the cap 85: BUY with
    confidence [min(cap, 50 + round((buy - sell)/2))] when the summed
    BUY strength of its signals exceeds the summed SELL strength,
    symmetrically SELL, otherwise NEUTRAL with confidence 50.
    [analyzeMarketSentiment] has no closing block: it returns NEUTRAL at
    50 without a signal, or BUY/SELL at a confidence between 70 and 80
    with one signal of that very strength, and such a result follows the
    rule for no cap above 80. *)
Theorem C5_closing_block_rule :
  (forall closes,
      Spec.followsRule 90 (Analyzers.analyzeMovingAverages closes))
  /\ (forall closes, Spec.followsRule 90 (AnalysisEngine.analyzeRSI closes))
  /\ (forall closes, Spec.followsRule 90 (Analyzers.analyzeMACD closes))
  /\ (forall bbValues closes,
         Spec.followsRule 90 (Analyzers.analyzeBollingerBands bbValues closes))
  /\ (forall highs lows closes,
         Spec.followsRule 90
           (Analyzers.analyzeSupportResistance highs lows closes))
  /\ (forall adxValues, Spec.followsRule 90 (Analyzers.analyzeADX adxValues))
  /\ (forall closes volumes,
         Spec.followsRule 85 (Analyzers.analyzeVolume closes volumes))
  /\ (forall barData result,
         Analyzers.analyzeCandlestickPatterns barData = Returned result ->
         Spec.followsRule 85 result)
  /\ (forall highs lows closes,
         Spec.followsRule 85
           (Analyzers.analyzeFibonacciLevels highs lows closes))
  /\ (forall news,
         AnalysisEngine.analyzeMarketSentiment news
         = AnalysisEngine.mkResult AnalysisEngine.NEUTRAL 50 []
         \/ exists name direction confidence,
              AnalysisEngine.analyzeMarketSentiment news
              = AnalysisEngine.mkResult
                  direction confidence
                  [AnalysisEngine.mkSignal name direction confidence]
              /\ direction <> AnalysisEngine.NEUTRAL
              /\ 70 <= confidence /\ confidence <= 80
              /\ forall cap,
                   80 < cap ->
                   ~ Spec.followsRule
                       cap (AnalysisEngine.analyzeMarketSentiment news)).
Proof.
  repeat (split; [intros; apply verdict_follows|]).
  split; [|split; [intros; apply verdict_follows|]].
  - intros barData result Hrun.
    unfold Analyzers.analyzeCandlestickPatterns in Hrun. cbv zeta in Hrun.
    destruct (Js.fromEnd (Js.sliceLast 5 barData) 1); [|discriminate Hrun].
    injection Hrun as <-. apply verdict_follows.
  - intros news.
    destruct (sentiment_shape news)
      as [Hquiet|(name & direction & confidence & Hres & Hdir & Hlo & Hhi)];
      [left; exact Hquiet|].
    right. exists name, direction, confidence.
    repeat split; try assumption.
    intros cap Hcap. rewrite Hres.
    apply own_strength_breaks_rule; assumption.
Qed.

(** C5 as stated fails for Market Sentiment: no cap makes its results
    follow the rule.  An average sentiment of 0.21 gives confidence 71
    from one BUY signal of strength 71 (the rule asks for
    [min(cap, 86)]), an average of 0.25 gives confidence 75 from strength
    75 (the rule asks for [min(cap, 88)]). *)
Lemma C5_counterexample :
  ~ exists cap,
      forall news,
        Spec.followsRule cap (AnalysisEngine.analyzeMarketSentiment news).
Proof.
  intros [cap H].
  pose proof (H (Returned [0.21])) as H1.
  pose proof (H (Returned [0.25])) as H2.
  destruct H1 as [H1 _]. destruct H2 as [H2 _].
  assert (E1 : AnalysisEngine.r_confidence
                 (AnalysisEngine.analyzeMarketSentiment (Returned [0.21]))
               == Qmin cap 86).
  { apply H1. vm_compute. reflexivity. }
  assert (E2 : AnalysisEngine.r_confidence
                 (AnalysisEngine.analyzeMarketSentiment (Returned [0.25]))
               == Qmin cap 88).
  { apply H2. vm_compute. reflexivity. }
  clear H H1 H2.
  assert (V1 : AnalysisEngine.r_confidence
                 (AnalysisEngine.analyzeMarketSentiment (Returned [0.21]))
               == 71) by (vm_compute; reflexivity).
  assert (V2 : AnalysisEngine.r_confidence
                 (AnalysisEngine.analyzeMarketSentiment (Returned [0.25]))
               == 75) by (vm_compute; reflexivity).
  rewrite V1 in E1. rewrite V2 in E2.
  destruct (Q.min_spec cap 86) as [[Ha Ea]|[Ha Ea]]; rewrite Ea in E1;
    destruct (Q.min_spec cap 88) as [[Hb Eb]|[Hb Eb]]; rewrite Eb in E2; lra.
Qed.

Section RsiAnalyzer.
Import Js AnalysisEngine.

Lemma conclude_fields (cap : Q) (signals : list Signal) :
  r_direction (conclude cap signals) = fst (verdict cap signals)
  /\ r_confidence (conclude cap signals) = snd (verdict cap signals)
  /\ r_signals (conclude cap signals) = signals.
Proof.
  unfold conclude. destruct (verdict cap signals). repeat split.
Qed.

End RsiAnalyzer.

(** C8.  When the last value [r] of the RSI(14) series of [closes] is
    strictly below 30, [analyzeRSI] emits a signal named "RSI Oversold",
    direction BUY, of strength exactly [70 + 2 * (30 - r)]; for [r = 22]
    that is 86; and the confidence of the result is at most 90. *)
Theorem C8_rsi_oversold (closes : list Q) (r : Q) :
  Js.fromEnd (TechnicalIndicators.rsi closes 14) 1 = Some r ->
  r < 30 ->
  (exists s,
      In s (AnalysisEngine.r_signals (AnalysisEngine.analyzeRSI closes))
      /\ AnalysisEngine.s_name s = "RSI Oversold"
      /\ AnalysisEngine.s_direction s = AnalysisEngine.BUY
      /\ AnalysisEngine.s_strength s == 70 + 2 * (30 - r)
      /\ (r == 22 -> AnalysisEngine.s_strength s == 86))
  /\ AnalysisEngine.r_confidence (AnalysisEngine.analyzeRSI closes) <= 90.
Proof.
  intros Hlast Hlow. unfold AnalysisEngine.analyzeRSI.
  rewrite Hlast.
  replace (Js.ltb r 30) with true by (symmetry; apply ltb_true; exact Hlow).
  set (signals := _ ++ _).
  destruct (conclude_fields 90 signals) as (_ & Hc & Hs).
  rewrite Hc, Hs. split.
  - exists (AnalysisEngine.mkSignal "RSI Oversold" AnalysisEngine.BUY
                                    (70 + (30 - r) * 2)).
    split; [left; reflexivity|].
    cbn [AnalysisEngine.s_name AnalysisEngine.s_direction
         AnalysisEngine.s_strength].
    repeat split; [ring | intros Hr; rewrite Hr; reflexivity].
  - apply verdict_bounds. lra.
Qed.

(** Fifteen closes, one rise of 11 followed by thirteen falls of 3: the
    RSI is 22. *)
Lemma C8_witness :
  (exists s,
      In s (AnalysisEngine.r_signals
              (AnalysisEngine.analyzeRSI
                 [100; 111; 108; 105; 102; 99; 96; 93; 90; 87; 84; 81; 78;
                  75; 72]))
      /\ AnalysisEngine.s_name s = "RSI Oversold"
      /\ AnalysisEngine.s_direction s = AnalysisEngine.BUY
      /\ AnalysisEngine.s_strength s == 70 + 2 * (30 - (15400 # 700))
      /\ ((15400 # 700) == 22 -> AnalysisEngine.s_strength s == 86))
  /\ AnalysisEngine.r_confidence
       (AnalysisEngine.analyzeRSI
          [100; 111; 108; 105; 102; 99; 96; 93; 90; 87; 84; 81; 78; 75; 72])
     <= 90.
Proof.
  apply (C8_rsi_oversold
           [100; 111; 108; 105; 102; 99; 96; 93; 90; 87; 84; 81; 78; 75; 72]
           (15400 # 700)).
  - vm_compute. reflexivity.
  - vm_compute. reflexivity.
Defined.

(* ------------------------------------------------------------------ *)
(** ** Danger signals (C3) *)

Section DangerSignals.
Import Js AnalysisEngine.

Lemma someSignal_carries (result : AnalyzerResult) (name : string)
      (names : list string) (least : Q) (s : Signal) :
  In s (r_signals result) -> s_name s = name -> least <= s_strength s ->
  someSignal name least (r_signals result) = true.
Proof.
  intros Hin Hname Hleast. unfold someSignal.
  apply existsb_exists. exists s. split; [exact Hin|].
  rewrite Hname, String.eqb_refl. apply geb_true. exact Hleast.
Qed.

Lemma dangers_kept (analyses : list AnalysisEntry) (t : Tally)
      (d : DangerSignal) :
  In d (t_dangerSignals t) ->
  In d (t_dangerSignals (fold_left tallyStep analyses t)).
Proof.
  revert t. induction analyses as [|e rest IH]; intros t Hin; [exact Hin|].
  cbn [fold_left]. apply IH. unfold tallyStep. cbn [t_dangerSignals].
  apply in_or_app. left. exact Hin.
Qed.

(** The entry [e] of the list makes the loop push [d] whenever the step
    taken at [e] pushes it. *)
Lemma dangers_raised (analyses : list AnalysisEntry) (e : AnalysisEntry)
      (d : DangerSignal) :
  In e analyses ->
  (forall t, In d (t_dangerSignals (tallyStep t e))) ->
  In d (f_dangerSignals (calculateFinalResult analyses)).
Proof.
  intros Hin Hstep. unfold calculateFinalResult.
  destruct (if gtb _ _ then _ else _) as [direction confidence].
  cbn [f_dangerSignals]. unfold tally.
  generalize (mkTally 0 0 0 []).
  induction analyses as [|e' rest IH]; intros t; [destruct Hin|].
  cbn [fold_left]. destruct Hin as [->|Hin].
  - apply dangers_kept, Hstep.
  - apply IH, Hin.
Qed.

End DangerSignals.

(* ------------------------------------------------------------------ *)
(** ** The position lifecycle (C2, C3) *)

Section LifecycleFacts.
Import Js AnalysisEngine TradingBot TradingBot.Effects.

Variable config : TradingConfig.
Variable env : Collaborators.



Lemma opposes_differs (analysis : Analysis) (position : Position) :
  Spec.opposes (an_direction analysis) (p_side position) ->
  Direction_eqb (an_direction analysis)
                (if String.eqb (p_side position) "long" then BUY else SELL)
  = false.
Proof.
  intros [[Hside Hdir]|[Hside Hdir]]; rewrite Hside, Hdir; reflexivity.
Qed.

Lemma Direction_eqb_eq (a b : Direction) :
  Direction_eqb a b = true <-> a = b.
Proof.
  destruct a, b; cbn; split; congruence.
Qed.


(** The danger branch when every call returns. *)
Lemma danger_effects (sym : string) (data : SymbolData)
      (analysis : Analysis) (position : Position) (rest : list Position)
      (equity : Q) :
  openPositions data = position :: rest ->
  ~ Spec.reversalCondition analysis position ->
  Spec.significantDanger analysis ->
  Spec.allReturn env equity ->
  trace (manageExistingPositions config env sym data analysis)
  = [PositionClosed sym;
     TradeSaved (closingRecord sym position CLOSED_DANGER)].
Proof.
  intros Hopen Hnot (d & Hin & Himportant) (Hclose & Hsave & _ & _).
  unfold manageExistingPositions. rewrite Hopen.
  assert (Hbranch :
            negb (Direction_eqb (an_direction analysis)
                    (if String.eqb (p_side position) "long"
                     then BUY else SELL))
            && geb (an_confidence analysis) 75 = false).
  { apply not_true_is_false. intros Htrue.
    apply andb_true_iff in Htrue. destruct Htrue as [Hd Hc].
    apply Hnot. split.
    - intros Heq. apply negb_true_iff in Hd.
      apply not_true_iff_false in Hd. apply Hd.
      apply Direction_eqb_eq. exact Heq.
    - apply geb_true. exact Hc. }
  rewrite Hbranch.
  destruct (an_dangerSignals analysis) as [|d0 others] eqn:Hdangers;
    [destruct Hin|].
  replace (existsb (fun signal => (7 <=? d_importance signal)%Z)
                   (d0 :: others)) with true.
  - cbv zeta. unfold bind, call, ret. rewrite Hclose, Hsave. reflexivity.
  - symmetry. apply existsb_exists. exists d. split; [exact Hin|].
    apply Z.leb_le. exact Himportant.
Qed.

End LifecycleFacts.

Section ScenarioFacts.
Import TradingBot.

Lemma answering_returns : Spec.allReturn Scenario.answering 12000.
Proof.
  repeat split. intros o. exists "order-1". reflexivity.
Qed.

End ScenarioFacts.




(** The step at an entry of the given name whose signals pass the test
    [Hsome] pushes the danger signal of the goal. *)
Ltac raise_danger Hname Hsome :=
  unfold AnalysisEngine.tallyStep;
  cbn [AnalysisEngine.t_dangerSignals];
  rewrite Hname, Hsome;
  cbn [String.eqb Ascii.eqb Bool.eqb andb];
  rewrite !in_app_iff; cbn [In]; auto 15.

(** C3, as the code has it.  Whatever the final direction, the danger
    list of [calculateFinalResult] holds an entry of importance 8 when
    the Bollinger Bands result carries "Price Above Upper Band" or "Price
    Below Lower Band" with strength at least 70, of importance 7 when the
    RSI result carries "RSI Overbought" or "RSI Oversold" with strength
    at least 75, of importance 9 when the Volume result carries "Volume
    Climax" with strength at least 70.  For an open position, when the
    reversal condition does not hold, some danger signal has importance
    7 or more, and the brokerage and the database answer,
    [manageExistingPositions] closes the position and writes a
    CLOSED_DANGER record, and does nothing else. *)
Theorem C3_danger_signals_close :
  (forall analyses e,
      In e analyses ->
      (AnalysisEngine.a_name e = "Bollinger Bands" ->
       Spec.carries (AnalysisEngine.a_result e)
                    ["Price Above Upper Band"; "Price Below Lower Band"] 70 ->
       Spec.dangerOfImportance 8
         (AnalysisEngine.f_dangerSignals
            (AnalysisEngine.calculateFinalResult analyses)))
      /\ (AnalysisEngine.a_name e = "RSI" ->
          Spec.carries (AnalysisEngine.a_result e)
                       ["RSI Overbought"; "RSI Oversold"] 75 ->
          Spec.dangerOfImportance 7
            (AnalysisEngine.f_dangerSignals
               (AnalysisEngine.calculateFinalResult analyses)))
      /\ (AnalysisEngine.a_name e = "Volume" ->
          Spec.carries (AnalysisEngine.a_result e) ["Volume Climax"] 70 ->
          Spec.dangerOfImportance 9
            (AnalysisEngine.f_dangerSignals
               (AnalysisEngine.calculateFinalResult analyses))))
  /\ (forall config env sym data analysis position rest equity,
         TradingBot.openPositions data = position :: rest ->
         ~ Spec.reversalCondition analysis position ->
         Spec.significantDanger analysis ->
         Spec.allReturn env equity ->
         TradingBot.Effects.trace
           (TradingBot.manageExistingPositions config env sym data analysis)
         = [TradingBot.PositionClosed sym;
            TradingBot.TradeSaved
              (TradingBot.closingRecord sym position
                                        TradingBot.CLOSED_DANGER)]).
Proof.
  split.
  - intros analyses e Hin.
    split; [|split]; intros Hname (s & Hs & Hnames & Hleast).
    + destruct Hnames as [Hn|[Hn|[]]].
      * exists (AnalysisEngine.mkDanger
                  "Extreme Overbought on Bollinger Bands" 8).
        split; [|reflexivity].
        apply (dangers_raised analyses e _ Hin). intros t.
        raise_danger Hname
          (someSignal_carries _ "Price Above Upper Band" [] 70 s Hs
                              (eq_sym Hn) Hleast).
      * exists (AnalysisEngine.mkDanger
                  "Extreme Oversold on Bollinger Bands" 8).
        split; [|reflexivity].
        apply (dangers_raised analyses e _ Hin). intros t.
        raise_danger Hname
          (someSignal_carries _ "Price Below Lower Band" [] 70 s Hs
                              (eq_sym Hn) Hleast).
    + destruct Hnames as [Hn|[Hn|[]]].
      * exists (AnalysisEngine.mkDanger "Extreme Overbought on RSI" 7).
        split; [|reflexivity].
        apply (dangers_raised analyses e _ Hin). intros t.
        raise_danger Hname
          (someSignal_carries _ "RSI Overbought" [] 75 s Hs
                              (eq_sym Hn) Hleast).
      * exists (AnalysisEngine.mkDanger "Extreme Oversold on RSI" 7).
        split; [|reflexivity].
        apply (dangers_raised analyses e _ Hin). intros t.
        raise_danger Hname
          (someSignal_carries _ "RSI Oversold" [] 75 s Hs
                              (eq_sym Hn) Hleast).
    + destruct Hnames as [Hn|[]].
      exists (AnalysisEngine.mkDanger "Volume Climax Detected" 9).
      split; [|reflexivity].
      apply (dangers_raised analyses e _ Hin). intros t.
      raise_danger Hname
        (someSignal_carries _ "Volume Climax" [] 70 s Hs
                            (eq_sym Hn) Hleast).
  - intros config env sym data analysis position rest equity.
    apply danger_effects.
Qed.

Lemma C3_witness :
  TradingBot.Effects.trace
    (TradingBot.manageExistingPositions
       TradingBot.DEFAULT_CONFIG Scenario.answering "AAPL"
       (Scenario.holding Scenario.buy60danger) Scenario.buy60danger)
  = [TradingBot.PositionClosed "AAPL";
     TradingBot.TradeSaved
       (TradingBot.closingRecord "AAPL" Scenario.longPosition
                                 TradingBot.CLOSED_DANGER)].
Proof.
  apply (proj2 C3_danger_signals_close
               TradingBot.DEFAULT_CONFIG Scenario.answering "AAPL"
               (Scenario.holding Scenario.buy60danger) Scenario.buy60danger
               Scenario.longPosition [] 12000).
  - reflexivity.
  - intros [Hdiffers _]. apply Hdiffers. reflexivity.
  - exists (AnalysisEngine.mkDanger
              "Extreme Overbought on Bollinger Bands" 8).
    split; [left; reflexivity | vm_compute; discriminate].
  - exact answering_returns.
Defined.

(** C3 as stated fails when the brokerage refuses the close: a long
    position, consensus BUY at confidence 60, a danger signal of
    importance 8, and no CLOSED_DANGER record is written. *)
Lemma C3_counterexample :
  TradingBot.openPositions (Scenario.holding Scenario.buy60danger)
  = [Scenario.longPosition]
  /\ ~ Spec.reversalCondition Scenario.buy60danger Scenario.longPosition
  /\ Spec.significantDanger Scenario.buy60danger
  /\ TradingBot.Effects.trace
       (TradingBot.manageExistingPositions
          TradingBot.DEFAULT_CONFIG Scenario.closeRefused "AAPL"
          (Scenario.holding Scenario.buy60danger) Scenario.buy60danger)
     = [TradingBot.ErrorLogged "manageExistingPositions"
                               "position does not exist"]
  /\ ~ Spec.closedWith TradingBot.CLOSED_DANGER
         (TradingBot.Effects.trace
            (TradingBot.manageExistingPositions
               TradingBot.DEFAULT_CONFIG Scenario.closeRefused "AAPL"
               (Scenario.holding Scenario.buy60danger)
               Scenario.buy60danger)).
Proof.
  split; [reflexivity|].
  split; [intros [Hdiffers _]; apply Hdiffers; reflexivity|].
  split.
  { exists (AnalysisEngine.mkDanger
              "Extreme Overbought on Bollinger Bands" 8).
    split; [left; reflexivity | vm_compute; discriminate]. }
  split; [reflexivity|].
  intros (t & [Hin|[]] & _). discriminate Hin.
Qed.

(* ------------------------------------------------------------------ *)
(** ** Sizing (C4) *)

Section SizingFacts.
Import Js TradingBot.

Lemma hundredth_mono (c1 c2 : Q) : c1 <= c2 -> c1 / 100 <= c2 / 100.
Proof.
  intros H. apply Qmult_le_compat_r; [exact H|]. unfold Qle; cbn; lia.
Qed.

Variable config : TradingConfig.
Hypothesis invariant : Spec.configInvariant config.
Variables balance price : Q.
Hypothesis funded : 0 < balance.
Hypothesis priced : 0 < price.

Lemma riskPercent_mono (c1 c2 : Q) :
  0 <= c1 -> c1 <= c2 ->
  0 < riskPercent config c1
  /\ riskPercent config c1 <= riskPercent config c2.
Proof.
  intros H0 H12. destruct invariant as [[Hr0 Hr] _].
  unfold riskPercent.
  pose proof (hundredth_mono _ _ H12) as Hk.
  pose proof (hundredth_mono _ _ H0) as Hk0.
  setoid_replace (0 / 100) with 0 in Hk0 by reflexivity.
  set (k1 := c1 / 100) in *. set (k2 := c2 / 100) in *.
  split; nra.
Qed.

Lemma lotMultiplier_mono (c1 c2 : Q) :
  0 <= c1 -> c1 <= c2 ->
  0 < lotMultiplier config c1
  /\ lotMultiplier config c1 <= lotMultiplier config c2.
Proof.
  intros H0 H12. destruct invariant as [_ [Hl0 Hl]].
  unfold lotMultiplier.
  pose proof (hundredth_mono _ _ H12) as Hk.
  pose proof (hundredth_mono _ _ H0) as Hk0.
  setoid_replace (0 / 100) with 0 in Hk0 by reflexivity.
  set (k1 := c1 / 100) in *. set (k2 := c2 / 100) in *.
  split; nra.
Qed.

Lemma baseQuantity_mono (c1 c2 : Q) :
  0 <= c1 -> c1 <= c2 ->
  0 <= riskAmount config balance c1 / price
  /\ riskAmount config balance c1 / price
     <= riskAmount config balance c2 / price.
Proof.
  intros H0 H12.
  destruct (riskPercent_mono c1 c2 H0 H12) as [Hp Hm].
  pose proof (hundredth_mono _ _ Hm) as Hh.
  assert (Hh0 : 0 <= riskPercent config c1 / 100).
  { apply Qle_shift_div_l; lra. }
  unfold riskAmount.
  set (r1 := riskPercent config c1 / 100) in *.
  set (r2 := riskPercent config c2 / 100) in *.
  assert (Hinv : 0 <= / price) by (apply Qlt_le_weak, Qinv_lt_0_compat, priced).
  split.
  - apply Qle_shift_div_l; [exact priced|]. nra.
  - apply Qmult_le_compat_r; [nra | exact Hinv].
Qed.

Lemma clampedQuantity_mono (c1 c2 : Q) :
  0 <= c1 -> c1 <= c2 ->
  clampedQuantity config balance c1 price
  <= clampedQuantity config balance c2 price.
Proof.
  intros H0 H12. unfold clampedQuantity. cbv zeta.
  destruct (baseQuantity_mono c1 c2 H0 H12) as [Hb0 Hb].
  destruct (lotMultiplier_mono c1 c2 H0 H12) as [Hl0 Hl].
  set (b1 := riskAmount config balance c1 / price) in *.
  set (b2 := riskAmount config balance c2 / price) in *.
  set (l1 := lotMultiplier config c1) in *.
  set (l2 := lotMultiplier config c2) in *.
  unfold Math_max, Math_min.
  apply Q.max_le_compat_l, Q.min_le_compat_l. nra.
Qed.

Lemma clampedQuantity_bounds (c : Q) :
  minLot config <= clampedQuantity config balance c price
  /\ clampedQuantity config balance c price <= maxLot config.
Proof.
  destruct invariant as [_ [Hl0 Hl]].
  unfold clampedQuantity, Math_max, Math_min. cbv zeta. split.
  - apply Q.le_max_l.
  - apply Q.max_lub; [exact Hl | apply Q.le_min_l].
Qed.

End SizingFacts.

Section Rounding.
Import Js.

#[global] Instance toFixed_proper (d : nat) : Proper (Qeq ==> Qeq) (toFixed d).
Proof.
  intros x y Hxy. unfold toFixed, ltb.
  rewrite (Qleb_comp 0 0 (Qeq_refl 0) x y Hxy).
  destruct (Qle_bool 0 y); cbn [negb]; rewrite Hxy; reflexivity.
Qed.

Lemma toFixed_sixDecimals (x : Q) :
  0 <= x -> Spec.sixDecimals x -> toFixed 6 x == x.
Proof.
  intros Hx [k Hk]. rewrite Hk. apply toFixed_fixes.
  destruct (Z.lt_ge_cases k 0) as [Hneg|Hpos]; [exfalso | lia].
  pose proof (pow10_pos 6) as Hp.
  assert (Hlt : inject_Z k / pow10 6 < 0).
  { apply Qlt_shift_div_r; [exact Hp|]. rewrite Qmult_0_l.
    change 0 with (inject_Z 0). rewrite <- Zlt_Qlt. exact Hneg. }
  lra.
Qed.

End Rounding.

(** C4, as the code has it.  For a configuration satisfying the
    invariant, a positive balance and a positive price, and confidences
    [50 <= c1 <= c2 <= 100]: the quantity after the clamp of line 504 does
    not decrease from [c1] to [c2] and lies within [[minLot, maxLot]];
    the quantity sent with the order, which line 505 rounds to six
    decimals, does not decrease either and lies within the rounded
    bounds, hence within [[minLot, maxLot]] when both bounds have at most
    six decimals. *)
Theorem C4_quantity_monotone_bounded
        (config : TradingBot.TradingConfig) (balance price c1 c2 : Q) :
  Spec.configInvariant config ->
  0 < balance -> 0 < price ->
  50 <= c1 -> c1 <= c2 -> c2 <= 100 ->
  TradingBot.clampedQuantity config balance c1 price
  <= TradingBot.clampedQuantity config balance c2 price
  /\ (TradingBot.minLot config
      <= TradingBot.clampedQuantity config balance c1 price
      /\ TradingBot.clampedQuantity config balance c1 price
         <= TradingBot.maxLot config)
  /\ TradingBot.orderQuantity config balance c1 price
     <= TradingBot.orderQuantity config balance c2 price
  /\ (Js.toFixed 6 (TradingBot.minLot config)
      <= TradingBot.orderQuantity config balance c1 price
      /\ TradingBot.orderQuantity config balance c1 price
         <= Js.toFixed 6 (TradingBot.maxLot config))
  /\ (Spec.sixDecimals (TradingBot.minLot config) ->
      Spec.sixDecimals (TradingBot.maxLot config) ->
      TradingBot.minLot config
      <= TradingBot.orderQuantity config balance c1 price
      /\ TradingBot.orderQuantity config balance c1 price
         <= TradingBot.maxLot config).
Proof.
  intros Hinv Hbal Hprice H50 H12 H100.
  assert (H0 : 0 <= c1) by lra.
  pose proof (clampedQuantity_mono config Hinv balance price Hbal Hprice
                                   c1 c2 H0 H12) as Hmono.
  pose proof (clampedQuantity_bounds config Hinv balance price c1)
    as [Hlow Hhigh].
  destruct Hinv as [_ [Hl0 Hl]].
  assert (Hround : Js.toFixed 6 (TradingBot.minLot config)
                   <= TradingBot.orderQuantity config balance c1 price
                   /\ TradingBot.orderQuantity config balance c1 price
                      <= Js.toFixed 6 (TradingBot.maxLot config)).
  { unfold TradingBot.orderQuantity. split; apply toFixed_mono; lra. }
  split; [exact Hmono|]. split; [split; assumption|].
  split; [unfold TradingBot.orderQuantity; apply toFixed_mono; lra|].
  split; [exact Hround|].
  intros Hmin Hmax.
  pose proof (toFixed_sixDecimals _ (Qlt_le_weak _ _ Hl0) Hmin) as Emin.
  assert (Hmax0 : 0 <= TradingBot.maxLot config) by lra.
  pose proof (toFixed_sixDecimals _ Hmax0 Hmax) as Emax.
  destruct Hround as [Hr1 Hr2]. split; lra.
Qed.

Lemma C4_witness :
  TradingBot.clampedQuantity TradingBot.DEFAULT_CONFIG 10000 60 100
  <= TradingBot.clampedQuantity TradingBot.DEFAULT_CONFIG 10000 80 100
  /\ (TradingBot.minLot TradingBot.DEFAULT_CONFIG
      <= TradingBot.clampedQuantity TradingBot.DEFAULT_CONFIG 10000 60 100
      /\ TradingBot.clampedQuantity TradingBot.DEFAULT_CONFIG 10000 60 100
         <= TradingBot.maxLot TradingBot.DEFAULT_CONFIG)
  /\ TradingBot.orderQuantity TradingBot.DEFAULT_CONFIG 10000 60 100
     <= TradingBot.orderQuantity TradingBot.DEFAULT_CONFIG 10000 80 100
  /\ (Js.toFixed 6 (TradingBot.minLot TradingBot.DEFAULT_CONFIG)
      <= TradingBot.orderQuantity TradingBot.DEFAULT_CONFIG 10000 60 100
      /\ TradingBot.orderQuantity TradingBot.DEFAULT_CONFIG 10000 60 100
         <= Js.toFixed 6 (TradingBot.maxLot TradingBot.DEFAULT_CONFIG))
  /\ (Spec.sixDecimals (TradingBot.minLot TradingBot.DEFAULT_CONFIG) ->
      Spec.sixDecimals (TradingBot.maxLot TradingBot.DEFAULT_CONFIG) ->
      TradingBot.minLot TradingBot.DEFAULT_CONFIG
      <= TradingBot.orderQuantity TradingBot.DEFAULT_CONFIG 10000 60 100
      /\ TradingBot.orderQuantity TradingBot.DEFAULT_CONFIG 10000 60 100
         <= TradingBot.maxLot TradingBot.DEFAULT_CONFIG).
Proof.
  apply (C4_quantity_monotone_bounded TradingBot.DEFAULT_CONFIG
                                      10000 100 60 80).
  - repeat split; vm_compute; (reflexivity || discriminate).
  - vm_compute; reflexivity.
  - vm_compute; reflexivity.
  - vm_compute; discriminate.
  - vm_compute; discriminate.
  - vm_compute; discriminate.
Defined.

(** C4 as stated fails for the quantity of the order when a bound has
    more than six decimals: with [minLot = 0.0000004], a balance of 1, a
    price of 1000000 and confidence 50 the clamp gives 0.0000004 and the
    rounding of line 505 gives 0, below [minLot]. *)
Lemma C4_counterexample :
  Spec.configInvariant Scenario.tinyLots
  /\ TradingBot.clampedQuantity Scenario.tinyLots 1 50 1000000
     == 0.0000004
  /\ TradingBot.orderQuantity Scenario.tinyLots 1 50 1000000 == 0
  /\ ~ (TradingBot.minLot Scenario.tinyLots
        <= TradingBot.orderQuantity Scenario.tinyLots 1 50 1000000).
Proof.
  split; [repeat split; vm_compute; (reflexivity || discriminate)|].
  split; [vm_compute; reflexivity|].
  split; [vm_compute; reflexivity|].
  intros H. vm_compute in H. apply H. reflexivity.
Qed.

(* ------------------------------------------------------------------ *)
(** ** Configuration updates (C6) *)

(** C6, as the code has it.  [updateConfig] merges the update over the
    configuration and validates nothing: the result satisfies the
    invariant exactly when the merged bounds do.  In particular an update
    that sets none of the four bounded fields preserves the invariant. *)
Theorem C6_update_preserves_when_merged_bounds_hold
        (config : TradingBot.TradingConfig)
        (newConfig : TradingBot.ConfigUpdate) :
  Spec.configInvariant config ->
  (Spec.configInvariant (TradingBot.updateConfig config newConfig)
   <-> Spec.mergedInvariant config newConfig)
  /\ (Spec.leavesBounds newConfig ->
      Spec.configInvariant (TradingBot.updateConfig config newConfig)).
Proof.
  intros Hinv. split.
  - unfold Spec.configInvariant, Spec.mergedInvariant, TradingBot.updateConfig.
    cbn [TradingBot.maxRiskPercent TradingBot.minRiskPercent
         TradingBot.maxLot TradingBot.minLot].
    tauto.
  - intros (H1 & H2 & H3 & H4).
    unfold Spec.configInvariant, TradingBot.updateConfig.
    cbn [TradingBot.maxRiskPercent TradingBot.minRiskPercent
         TradingBot.maxLot TradingBot.minLot].
    rewrite H1, H2, H3, H4. exact Hinv.
Qed.

Lemma C6_witness :
  (Spec.configInvariant
     (TradingBot.updateConfig TradingBot.DEFAULT_CONFIG Scenario.retarget)
   <-> Spec.mergedInvariant TradingBot.DEFAULT_CONFIG Scenario.retarget)
  /\ (Spec.leavesBounds Scenario.retarget ->
      Spec.configInvariant
        (TradingBot.updateConfig TradingBot.DEFAULT_CONFIG
                                 Scenario.retarget)).
Proof.
  apply (C6_update_preserves_when_merged_bounds_hold
           TradingBot.DEFAULT_CONFIG Scenario.retarget).
  repeat split; vm_compute; (reflexivity || discriminate).
Defined.

(** C6 as stated fails: the default configuration satisfies the
    invariant, and the update [{ minLot: 100 }] yields a configuration
    with [minLot = 100 > maxLot = 10]. *)
Lemma C6_counterexample :
  Spec.configInvariant TradingBot.DEFAULT_CONFIG
  /\ ~ Spec.configInvariant
         (TradingBot.updateConfig TradingBot.DEFAULT_CONFIG
                                  Scenario.raiseMinLot).
Proof.
  split; [repeat split; vm_compute; (reflexivity || discriminate)|].
  intros [_ [_ H]]. vm_compute in H. apply H. reflexivity.
Qed.

(* ------------------------------------------------------------------ *)
(** ** Fallbacks (C7) *)

Section Fallbacks.
Import Js AnalysisEngine TradingBot.

Lemma fromEnd_last_defined {A : Type} (xs : list A) :
  xs <> [] -> exists x, fromEnd xs 1 = Some x.
Proof.
  intros Hne. unfold fromEnd.
  destruct xs as [|a rest]; [congruence|].
  cbn [List.length Nat.leb andb].
  destruct (nth_error (a :: rest) (S (List.length rest) - 1)) as [x|] eqn:Hx.
  - exists x. reflexivity.
  - apply nth_error_None in Hx. cbn [List.length] in Hx. lia.
Qed.

Lemma fromEnd_empty {A : Type} (k : nat) : fromEnd (@nil A) k = None.
Proof.
  unfold fromEnd. destruct k as [|k]; [reflexivity|].
  cbn. reflexivity.
Qed.

Lemma performTechnicalAnalysis_absorbs (suite : AnalyzerSuite)
      (sym : string) (barData : list Bar) (message : string)
      (lastBar : Bar) :
  runAnalyzers suite sym barData = Thrown message ->
  fromEnd barData 1 = Some lastBar ->
  performTechnicalAnalysis suite sym barData
  = Returned (mkReport sym (Some (b_close lastBar)) []
                       (Some NEUTRAL) (Some 50) [] (Some message)).
Proof.
  intros Hrun Hlast. unfold performTechnicalAnalysis.
  rewrite Hrun, Hlast. reflexivity.
Qed.

Lemma performTechnicalAnalysis_returns (suite : AnalyzerSuite)
      (sym : string) (barData : list Bar) :
  barData <> [] ->
  exists report, performTechnicalAnalysis suite sym barData = Returned report.
Proof.
  intros Hne. unfold performTechnicalAnalysis.
  destruct (runAnalyzers suite sym barData) as [entries|message].
  - eexists. reflexivity.
  - destruct (fromEnd_last_defined barData Hne) as [lastBar Hlast].
    rewrite Hlast. eexists. reflexivity.
Qed.

End Fallbacks.

(** C7, as the code has it.  When an analyzer throws and there is a bar,
    [performTechnicalAnalysis] returns a report with direction NEUTRAL,
    confidence 50, no danger signal and the message of the error, and
    [processSymbol] takes that report as it is.  When the report lacks
    its direction or its confidence, [processSymbol] works with a
    fallback of confidence 70 whose direction is BUY when the number
    drawn exceeds 0.5 and SELL otherwise, never NEUTRAL.  With at least
    one bar [performTechnicalAnalysis] never throws. *)
Theorem C7_fallback_results :
  (forall suite sym barData message lastBar,
      AnalysisEngine.runAnalyzers suite sym barData = Thrown message ->
      Js.fromEnd barData 1 = Some lastBar ->
      exists report,
        AnalysisEngine.performTechnicalAnalysis suite sym barData
        = Returned report
        /\ AnalysisEngine.error report = Some message
        /\ forall random,
             TradingBot.checkAnalysis sym barData random report
             = TradingBot.mkAnalysis sym AnalysisEngine.NEUTRAL 50
                 (Some (AnalysisEngine.b_close lastBar)) [])
  /\ (forall sym barData random report,
         AnalysisEngine.direction report = None
         \/ AnalysisEngine.confidence report = None ->
         TradingBot.checkAnalysis sym barData random report
         = TradingBot.mkAnalysis sym
             (if Js.gtb random 0.5
              then AnalysisEngine.BUY else AnalysisEngine.SELL)
             70
             (Some (Js.orElse
                      (option_map AnalysisEngine.b_close
                                  (Js.fromEnd barData 1)) 100))
             []
         /\ TradingBot.an_direction
              (TradingBot.checkAnalysis sym barData random report)
            <> AnalysisEngine.NEUTRAL)
  /\ (forall suite sym barData,
         barData <> [] ->
         exists report,
           AnalysisEngine.performTechnicalAnalysis suite sym barData
           = Returned report).
Proof.
  split; [|split].
  - intros suite sym barData message lastBar Hrun Hlast.
    eexists. split.
    + apply (performTechnicalAnalysis_absorbs _ _ _ _ _ Hrun Hlast).
    + split; [reflexivity|]. intros random. reflexivity.
  - intros sym barData random report Hmalformed.
    assert (E : TradingBot.checkAnalysis sym barData random report
                = TradingBot.mkAnalysis sym
                    (if Js.gtb random 0.5
                     then AnalysisEngine.BUY else AnalysisEngine.SELL)
                    70
                    (Some (Js.orElse
                             (option_map AnalysisEngine.b_close
                                         (Js.fromEnd barData 1)) 100))
                    []).
    { unfold TradingBot.checkAnalysis.
      destruct Hmalformed as [H|H]; rewrite H; [reflexivity|].
      destruct (AnalysisEngine.direction report); reflexivity. }
    split; [exact E|].
    rewrite E. cbn [TradingBot.an_direction].
    destruct (Js.gtb random 0.5); discriminate.
  - intros suite sym barData. apply performTechnicalAnalysis_returns.
Qed.

Lemma C7_witness :
  exists report,
    AnalysisEngine.performTechnicalAnalysis Scenario.macdThrows "AAPL"
                                            Scenario.oneBar
    = Returned report
    /\ AnalysisEngine.error report
       = Some "Cannot read properties of undefined"
    /\ forall random,
         TradingBot.checkAnalysis "AAPL" Scenario.oneBar random report
         = TradingBot.mkAnalysis "AAPL" AnalysisEngine.NEUTRAL 50
             (Some (AnalysisEngine.b_close
                      (AnalysisEngine.mkBar 100 101 99 100 1000))) [].
Proof.
  apply (proj1 C7_fallback_results Scenario.macdThrows "AAPL"
               Scenario.oneBar "Cannot read properties of undefined"
               (AnalysisEngine.mkBar 100 101 99 100 1000)).
  - reflexivity.
  - reflexivity.
Defined.

(** C7 as stated fails on both paths.  When the MACD analyzer throws,
    the analysis [processSymbol] adopts is NEUTRAL with confidence 50,
    not 70.  When the report has no direction and the number drawn is
    0.7, the fallback has confidence 70 and direction BUY, not
    NEUTRAL. *)
Lemma C7_counterexample :
  AnalysisEngine.runAnalyzers Scenario.macdThrows "AAPL" Scenario.oneBar
  = Thrown "Cannot read properties of undefined"
  /\ (exists adopted,
         TradingBot.lastAnalysis
           (fst (TradingBot.processSymbol
                   TradingBot.DEFAULT_CONFIG Scenario.answering
                   Scenario.macdThrows "AAPL"
                   (TradingBot.mkData false None [] []) 10000 []
                   [] Scenario.oneBar 0.7))
         = Some adopted
         /\ TradingBot.an_direction adopted = AnalysisEngine.NEUTRAL
         /\ TradingBot.an_confidence adopted == 50
         /\ ~ TradingBot.an_confidence adopted == 70)
  /\ AnalysisEngine.direction Scenario.noDirection = None
  /\ TradingBot.an_confidence
       (TradingBot.checkAnalysis "AAPL" Scenario.oneBar 0.7
                                 Scenario.noDirection) == 70
  /\ TradingBot.an_direction
       (TradingBot.checkAnalysis "AAPL" Scenario.oneBar 0.7
                                 Scenario.noDirection)
     = AnalysisEngine.BUY
  /\ AnalysisEngine.BUY <> AnalysisEngine.NEUTRAL.
Proof.
  split; [reflexivity|].
  split.
  { eexists. split; [reflexivity|].
    split; [reflexivity|]. split; [reflexivity|].
    intros H. vm_compute in H. discriminate H. }
  split; [reflexivity|].
  split; [reflexivity|].
  split; [reflexivity | discriminate].
Qed.

(* ------------------------------------------------------------------ *)
(** ** The moving averages *)

Section MovingAverages.
Import Js Indicators.

Lemma length_slide (period sum : Q) (leaving entering : list Q) :
  (List.length entering <= List.length leaving)%nat ->
  List.length (slide period sum leaving entering) = List.length entering.
Proof.
  revert sum leaving.
  induction entering as [|new entering IH]; intros sum leaving Hlen.
  - destruct leaving; reflexivity.
  - destruct leaving as [|old leaving]; [cbn in Hlen; lia|].
    cbn [slide List.length]. rewrite IH; [reflexivity | cbn in Hlen; lia].
Qed.

Lemma length_sma (data : list Q) (period : nat) :
  List.length (sma data period)
  = if (List.length data <? period)%nat then 0%nat
    else (List.length data - period + 1)%nat.
Proof.
  unfold sma. destruct (List.length data <? period)%nat eqn:Hshort.
  - reflexivity.
  - apply Nat.ltb_ge in Hshort. cbn [List.length].
    rewrite length_slide; rewrite length_skipn; lia.
Qed.

Lemma length_smoothEma (multiplier ema : Q) (rest : list Q) :
  List.length (smoothEma multiplier ema rest) = List.length rest.
Proof.
  revert ema. induction rest as [|x rest IH]; intros ema; [reflexivity|].
  cbn [smoothEma List.length]. rewrite IH. reflexivity.
Qed.

Lemma length_ema (data : list Q) (period : nat) :
  List.length (ema data period)
  = if (List.length data <? period)%nat then 0%nat
    else (List.length data - period + 1)%nat.
Proof.
  unfold ema. destruct (List.length data <? period)%nat eqn:Hshort.
  - reflexivity.
  - apply Nat.ltb_ge in Hshort. cbn [List.length].
    rewrite length_smoothEma, length_skipn. lia.
Qed.

End MovingAverages.

(** X1.  The lengths of the two moving averages: for data shorter than
    the period [sma] and [ema] return the empty series, otherwise one
    value for the first [period] points and one for every point after
    them. *)
Theorem X1_sma_ema_lengths (data : list Q) (period : nat) :
  List.length (Indicators.sma data period)
  = (if (List.length data <? period)%nat then 0
     else List.length data - period + 1)%nat
  /\ List.length (Indicators.ema data period)
     = (if (List.length data <? period)%nat then 0
        else List.length data - period + 1)%nat.
Proof.
  split; [apply length_sma | apply length_ema].
Qed.

(* ------------------------------------------------------------------ *)
(** ** The RSI series *)

Section RsiSeries.
Import Js TechnicalIndicators.

Lemma length_changes (prev : Q) (rest : list Q) :
  List.length (changes prev rest) = List.length rest.
Proof.
  revert prev. induction rest as [|x rest IH]; intros prev; [reflexivity|].
  cbn [changes List.length]. rewrite IH. reflexivity.
Qed.

Lemma length_smooth (period avgGain avgLoss : Q) (rest : list (Q * Q)) :
  List.length (smooth period avgGain avgLoss rest) = List.length rest.
Proof.
  revert avgGain avgLoss.
  induction rest as [|[gain loss] rest IH]; intros avgGain avgLoss;
    [reflexivity|].
  cbn [smooth List.length]. rewrite IH. reflexivity.
Qed.

Lemma Forall_firstn {A : Type} (P : A -> Prop) (n : nat) (xs : list A) :
  Forall P xs -> Forall P (firstn n xs).
Proof.
  intros H. revert n.
  induction H as [|x xs Hx _ IH]; intros [|n]; cbn [firstn];
    constructor; auto.
Qed.

Lemma Forall_skipn {A : Type} (P : A -> Prop) (n : nat) (xs : list A) :
  Forall P xs -> Forall P (skipn n xs).
Proof.
  intros H. revert n.
  induction H as [|x xs Hx Hxs IH]; intros [|n]; cbn [skipn];
    try constructor; auto.
Qed.

End RsiSeries.

(** X3.  For a positive period [rsi(data, period)] has no value when
    [data] has fewer than [period + 1] points and [data.length - period]
    values otherwise. *)
Theorem X3_rsi_length (data : list Q) (period : nat) :
  (0 < period)%nat ->
  List.length (TechnicalIndicators.rsi data period)
  = (if (List.length data <? period + 1)%nat then 0
     else List.length data - period)%nat.
Proof.
  intros Hpos. unfold TechnicalIndicators.rsi.
  destruct (List.length data <? period + 1)%nat eqn:Hshort; [reflexivity|].
  apply Nat.ltb_ge in Hshort.
  destruct data as [|first rest]; [cbn in Hshort; lia|].
  cbn [List.length] in Hshort. cbv zeta.
  cbn [List.length]. rewrite length_smooth, length_skipn, length_changes.
  lia.
Qed.

Lemma X3_witness :
  List.length (TechnicalIndicators.rsi Scenario.fallingCloses 14)
  = (if (List.length Scenario.fallingCloses <? 14 + 1)%nat then 0
     else List.length Scenario.fallingCloses - 14)%nat.
Proof.
  apply (X3_rsi_length Scenario.fallingCloses 14). lia.
Defined.

Section FlatMarket.
Import Js TechnicalIndicators AnalysisEngine.

Lemma fromEnd_member {A : Type} (xs : list A) (k : nat) (x : A) :
  fromEnd xs k = Some x -> In x xs.
Proof.
  unfold fromEnd. destruct ((1 <=? k) && (k <=? List.length xs))%nat;
    [|discriminate].
  apply nth_error_In.
Qed.

Lemma fromEnd_repeat {A : Type} (c : A) (n k : nat) :
  (1 <= k)%nat -> (k <= n)%nat -> fromEnd (repeat c n) k = Some c.
Proof.
  intros H1 Hk. unfold fromEnd. rewrite repeat_length.
  replace (1 <=? k)%nat with true by (symmetry; apply Nat.leb_le; lia).
  replace (k <=? n)%nat with true by (symmetry; apply Nat.leb_le; lia).
  cbn [andb].
  destruct (nth_error (repeat c n) (n - k)) as [x|] eqn:Hx.
  - apply nth_error_In, repeat_spec in Hx. rewrite Hx. reflexivity.
  - apply nth_error_None in Hx. rewrite repeat_length in Hx. lia.
Qed.

Lemma changes_flat (c : Q) (n : nat) :
  changes c (repeat c n) = repeat (0, 0) n.
Proof.
  induction n as [|n IH]; [reflexivity|].
  cbn [repeat changes]. rewrite IH.
  replace (gtb (c - c) 0) with false by (symmetry; apply gtb_false; lra).
  replace (ltb (c - c) 0) with false by (symmetry; apply ltb_false; lra).
  reflexivity.
Qed.

Lemma rsiOf_zero (avgGain avgLoss : Q) :
  avgGain == 0 -> avgLoss == 0 -> rsiOf avgGain avgLoss == 0.
Proof.
  intros Hg Hl. unfold rsiOf.
  replace (Qeq_bool avgLoss 0) with true
    by (symmetry; apply Qeq_bool_iff; exact Hl).
  rewrite Hg. reflexivity.
Qed.

Lemma smooth_zero (period avgGain avgLoss : Q) (rest : list (Q * Q)) :
  avgGain == 0 -> avgLoss == 0 ->
  Forall (fun c => fst c == 0 /\ snd c == 0) rest ->
  Forall (fun v => v == 0) (smooth period avgGain avgLoss rest).
Proof.
  intros Hg Hl Hall. revert avgGain avgLoss Hg Hl.
  induction Hall as [|[gain loss] rest [Hgain Hloss] _ IH];
    intros avgGain avgLoss Hg Hl; cbn [smooth].
  - constructor.
  - cbn [fst snd] in Hgain, Hloss.
    assert (Hg' : (avgGain * (period - 1) + gain) / period == 0).
    { rewrite Hg, Hgain. unfold Qdiv. ring. }
    assert (Hl' : (avgLoss * (period - 1) + loss) / period == 0).
    { rewrite Hl, Hloss. unfold Qdiv. ring. }
    constructor; [apply rsiOf_zero; assumption | apply IH; assumption].
Qed.

Lemma sum_zero {A : Type} (f : A -> Q) (xs : list A) (acc : Q) :
  Forall (fun x => f x == 0) xs -> acc == 0 ->
  fold_left (fun s x => s + f x) xs acc == 0.
Proof.
  intros Hall. revert acc.
  induction Hall as [|x xs Hx _ IH]; intros acc Hacc; cbn [fold_left].
  - exact Hacc.
  - apply IH. rewrite Hx, Hacc. reflexivity.
Qed.

Lemma rsi_flat (c : Q) (n : nat) :
  Forall (fun v => v == 0) (rsi (repeat c n) 14).
Proof.
  unfold rsi. rewrite repeat_length.
  destruct (n <? 14 + 1)%nat eqn:Hshort; [constructor|].
  destruct n as [|m]; [discriminate|]. cbn [repeat]. cbv zeta.
  rewrite changes_flat.
  assert (Hall : Forall (fun p : Q * Q => fst p == 0 /\ snd p == 0)
                        (repeat (0, 0) m)).
  { apply Forall_forall. intros p Hp. apply repeat_spec in Hp. subst p.
    split; reflexivity. }
  assert (Hg : fold_left (fun s p => s + fst p)
                         (firstn 14 (repeat (0, 0) m)) 0
               / inject_Z (Z.of_nat 14) == 0).
  { rewrite sum_zero; [reflexivity | | reflexivity].
    apply Forall_firstn. apply (Forall_impl _ (fun p H => proj1 H) Hall). }
  assert (Hl : fold_left (fun s p => s + snd p)
                         (firstn 14 (repeat (0, 0) m)) 0
               / inject_Z (Z.of_nat 14) == 0).
  { rewrite sum_zero; [reflexivity | | reflexivity].
    apply Forall_firstn. apply (Forall_impl _ (fun p H => proj2 H) Hall). }
  constructor; [apply rsiOf_zero; assumption|].
  apply smooth_zero; try assumption.
  apply Forall_skipn, Hall.
Qed.

End FlatMarket.

Lemma length_rsi (data : list Q) (period : nat) :
  (0 < period)%nat ->
  List.length (TechnicalIndicators.rsi data period)
  = (if (List.length data <? period + 1)%nat then 0
     else List.length data - period)%nat.
Proof.
  intros Hpos. unfold TechnicalIndicators.rsi.
  destruct (List.length data <? period + 1)%nat eqn:Hshort; [reflexivity|].
  apply Nat.ltb_ge in Hshort.
  destruct data as [|first rest]; [cbn in Hshort; lia|].
  cbn [List.length] in Hshort. cbv zeta.
  cbn [List.length]. rewrite length_smooth, length_skipn, length_changes.
  lia.
Qed.

(** X4.  On a flat market the RSI analyzer reports an oversold market:
    for fifteen or more equal closes every gain and every loss is zero,
    the RSI is 0, and [analyzeRSI] returns BUY at confidence 90 with the
    single signal "RSI Oversold" of strength 130. *)
Theorem X4_rsi_flat_market_votes_buy (c : Q) (n : nat) :
  (15 <= n)%nat ->
  AnalysisEngine.r_direction (AnalysisEngine.analyzeRSI (repeat c n))
  = AnalysisEngine.BUY
  /\ AnalysisEngine.r_confidence (AnalysisEngine.analyzeRSI (repeat c n))
     == 90
  /\ exists s,
       AnalysisEngine.r_signals (AnalysisEngine.analyzeRSI (repeat c n))
       = [s]
       /\ AnalysisEngine.s_name s = "RSI Oversold"
       /\ AnalysisEngine.s_direction s = AnalysisEngine.BUY
       /\ AnalysisEngine.s_strength s == 130.
Proof.
  intros Hn. unfold AnalysisEngine.analyzeRSI. cbv zeta.
  pose proof (rsi_flat c n) as Hflat. rewrite Forall_forall in Hflat.
  pose proof (length_rsi (repeat c n) 14 ltac:(lia)) as Hlen.
  rewrite repeat_length in Hlen.
  replace (n <? 14 + 1)%nat with false in Hlen
    by (symmetry; apply Nat.ltb_ge; lia).
  set (values := TechnicalIndicators.rsi (repeat c n) 14) in *.
  destruct (Js.fromEnd values 1) as [r|] eqn:Hlast.
  2:{ unfold Js.fromEnd in Hlast. rewrite Hlen in Hlast.
      replace (1 <=? n - 14)%nat with true in Hlast
        by (symmetry; apply Nat.leb_le; lia).
      cbn [Nat.leb andb] in Hlast.
      apply nth_error_None in Hlast. lia. }
  assert (Hr : r == 0) by (apply Hflat, (fromEnd_member _ _ _ Hlast)).
  replace (Js.ltb r 30) with true by (symmetry; apply ltb_true; lra).
  replace (Js.gtb r 70) with false by (symmetry; apply gtb_false; lra).
  cbn [Js.lift2].
  replace (Js.gtb r 30) with false by (symmetry; apply gtb_false; lra).
  replace (Js.ltb r 70) with true by (symmetry; apply ltb_true; lra).
  assert (Hprev : Js.lift2 Js.geb (Js.fromEnd values 2) (Some 70) = false).
  { destruct (Js.fromEnd values 2) as [r2|] eqn:H2; [|reflexivity].
    pose proof (Hflat _ (fromEnd_member _ _ _ H2)) as Hr2.
    cbn [Js.lift2]. apply geb_false. lra. }
  rewrite Hprev.
  rewrite (fromEnd_repeat c n 1), (fromEnd_repeat c n 5) by lia.
  cbn [Js.lift2].
  replace (Js.gtb c c) with false by (symmetry; apply gtb_false; lra).
  assert (Hup : (match Js.fromEnd values 5 with
                 | Some b => Js.gtb r b
                 | None => false
                 end) = false).
  { destruct (Js.fromEnd values 5) as [r5|] eqn:H5; [|reflexivity].
    pose proof (Hflat _ (fromEnd_member _ _ _ H5)) as Hr5.
    apply gtb_false. lra. }
  rewrite Hup. cbn [andb negb app].
  unfold AnalysisEngine.conclude, AnalysisEngine.verdict.
  cbn [filter AnalysisEngine.s_direction AnalysisEngine.Direction_eqb].
  unfold AnalysisEngine.strengthSum.
  cbn [fold_left AnalysisEngine.s_strength].
  replace (Js.gtb (0 + (70 + (30 - r) * 2)) 0) with true
    by (symmetry; apply gtb_true; lra).
  cbn [AnalysisEngine.r_direction AnalysisEngine.r_confidence
       AnalysisEngine.r_signals].
  split; [reflexivity|]. split.
  - assert (E : (0 + (70 + (30 - r) * 2) - 0) / 2 == inject_Z 65).
    { rewrite Hr. reflexivity. }
    unfold Js.Math_min. rewrite (Math_round_proper _ _ E), Math_round_integer.
    reflexivity.
  - eexists. split; [reflexivity|].
    cbn [AnalysisEngine.s_name AnalysisEngine.s_direction
         AnalysisEngine.s_strength].
    repeat split. rewrite Hr. reflexivity.
Qed.

Lemma X4_witness :
  AnalysisEngine.r_direction (AnalysisEngine.analyzeRSI (repeat 100 20))
  = AnalysisEngine.BUY
  /\ AnalysisEngine.r_confidence (AnalysisEngine.analyzeRSI (repeat 100 20))
     == 90
  /\ exists s,
       AnalysisEngine.r_signals (AnalysisEngine.analyzeRSI (repeat 100 20))
       = [s]
       /\ AnalysisEngine.s_name s = "RSI Oversold"
       /\ AnalysisEngine.s_direction s = AnalysisEngine.BUY
       /\ AnalysisEngine.s_strength s == 130.
Proof.
  apply (X4_rsi_flat_market_votes_buy 100 20). lia.
Defined.

(* ------------------------------------------------------------------ *)
(** ** The consensus, further *)

Section ConsensusRange.
Import Js AnalysisEngine.

Lemma clamp_range (x : Q) :
  50 <= Math_min 100 (Math_max 50 x) /\ Math_min 100 (Math_max 50 x) <= 100.
Proof.
  unfold Math_min, Math_max. split.
  - apply Q.min_glb; [lra | apply Q.le_max_l].
  - apply Q.le_min_l.
Qed.

Lemma step_importance (t : Tally) (e : AnalysisEntry) (d : DangerSignal) :
  In d (t_dangerSignals (tallyStep t e)) ->
  In d (t_dangerSignals t) \/ (7 <= d_importance d <= 9)%Z.
Proof.
  unfold tallyStep. cbn [t_dangerSignals]. rewrite !in_app_iff.
  intros [H|[H|[H|[H|[H|H]]]]]; [left; exact H | right ..];
    match type of H with
    | In _ (if ?c then _ else _) =>
        destruct c; cbn [In] in H;
        [ destruct H as [<-|[]]; cbn [d_importance]; lia | destruct H ]
    end.
Qed.

Lemma tally_importance (analyses : list AnalysisEntry) (t : Tally)
      (d : DangerSignal) :
  In d (t_dangerSignals (fold_left tallyStep analyses t)) ->
  In d (t_dangerSignals t) \/ (7 <= d_importance d <= 9)%Z.
Proof.
  revert t. induction analyses as [|e rest IH]; intros t Hin.
  - left. exact Hin.
  - cbn [fold_left] in Hin. destruct (IH _ Hin) as [H|H]; [|right; exact H].
    apply (step_importance t e d H).
Qed.

End ConsensusRange.

(** X5.  Whatever the analyzers returned, the confidence of
    [calculateFinalResult] lies in [[50, 100]], and a NEUTRAL consensus
    always carries confidence 50. *)
Theorem X5_consensus_confidence_range
        (analyses : list AnalysisEngine.AnalysisEntry) :
  (50 <= AnalysisEngine.f_confidence
           (AnalysisEngine.calculateFinalResult analyses)
   /\ AnalysisEngine.f_confidence
        (AnalysisEngine.calculateFinalResult analyses) <= 100)
  /\ (AnalysisEngine.f_direction
        (AnalysisEngine.calculateFinalResult analyses)
      = AnalysisEngine.NEUTRAL ->
      AnalysisEngine.f_confidence
        (AnalysisEngine.calculateFinalResult analyses) == 50).
Proof.
  unfold AnalysisEngine.calculateFinalResult.
  destruct (Js.gtb _ _); [|destruct (Js.gtb _ _)];
    cbn [AnalysisEngine.f_confidence AnalysisEngine.f_direction];
    (split; [apply clamp_range|]); intros H; try discriminate H.
  vm_compute. reflexivity.
Qed.

(** X6.  Every danger signal [calculateFinalResult] reports has
    importance 7, 8 or 9: a report with a non-empty danger list always
    passes the test [importance >= 7] of [manageExistingPositions]. *)
Theorem X6_every_danger_is_significant
        (analyses : list AnalysisEngine.AnalysisEntry)
        (d : AnalysisEngine.DangerSignal) :
  In d (AnalysisEngine.f_dangerSignals
          (AnalysisEngine.calculateFinalResult analyses)) ->
  (7 <= AnalysisEngine.d_importance d <= 9)%Z.
Proof.
  unfold AnalysisEngine.calculateFinalResult.
  destruct (if Js.gtb _ _ then _ else _) as [direction confidence].
  cbn [AnalysisEngine.f_dangerSignals]. unfold AnalysisEngine.tally.
  intros Hin. destruct (tally_importance _ _ _ Hin) as [[]|H]. exact H.
Qed.

Lemma X6_witness :
  (7 <= AnalysisEngine.d_importance
          (AnalysisEngine.mkDanger "Volume Climax Detected" 9) <= 9)%Z.
Proof.
  apply (X6_every_danger_is_significant
           [AnalysisEngine.entry AnalysisEngine.Volume
              (AnalysisEngine.mkResult AnalysisEngine.SELL 60
                 [AnalysisEngine.mkSignal "Volume Climax"
                                          AnalysisEngine.SELL 70])]).
  vm_compute. left. reflexivity.
Defined.

(* ------------------------------------------------------------------ *)
(** ** The position lifecycle, further *)

Section LifecycleEdges.
Import Js AnalysisEngine TradingBot TradingBot.Effects.

Lemma no_reversal_branch (analysis : Analysis) (position : Position) :
  ~ Spec.reversalCondition analysis position ->
  negb (Direction_eqb (an_direction analysis)
          (if String.eqb (p_side position) "long" then BUY else SELL))
  && geb (an_confidence analysis) 75 = false.
Proof.
  intros Hnot. apply not_true_is_false. intros Htrue.
  apply andb_true_iff in Htrue. destruct Htrue as [Hd Hc].
  apply Hnot. split.
  - intros Heq. apply negb_true_iff in Hd.
    apply not_true_iff_false in Hd. apply Hd.
    apply Direction_eqb_eq. exact Heq.
  - apply geb_true. exact Hc.
Qed.

Lemma no_significant_danger (analysis : Analysis) :
  ~ Spec.significantDanger analysis ->
  existsb (fun signal => (7 <=? d_importance signal)%Z)
          (an_dangerSignals analysis) = false.
Proof.
  intros Hnot. apply not_true_is_false. intros Htrue.
  apply existsb_exists in Htrue. destruct Htrue as (d & Hin & Hd).
  apply Hnot. exists d. split; [exact Hin | apply Z.leb_le, Hd].
Qed.

Lemma openNewPosition_rejected (config : TradingConfig)
      (env : Collaborators) (sym : string) (data : SymbolData)
      (analysis : Analysis) (balance : Q) (message : string) :
  (forall order, createOrder env order = Thrown message) ->
  openNewPosition config env sym data analysis balance
  = ([ErrorLogged "openNewPosition" message], Returned tt).
Proof.
  intros Hreject. unfold openNewPosition. cbv zeta.
  unfold bind at 1, call at 1.
  rewrite Hreject. reflexivity.
Qed.

End LifecycleEdges.

(** X7.  Holding: when a position is open, the reversal condition does
    not hold and no danger signal has importance 7 or more,
    [manageExistingPositions] does nothing at all, whatever the
    brokerage and the database would answer. *)
Theorem X7_hold_has_no_effect
        (config : TradingBot.TradingConfig) (env : TradingBot.Collaborators)
        (sym : string) (data : TradingBot.SymbolData)
        (analysis : TradingBot.Analysis) (position : TradingBot.Position)
        (rest : list TradingBot.Position) :
  TradingBot.openPositions data = position :: rest ->
  ~ Spec.reversalCondition analysis position ->
  ~ Spec.significantDanger analysis ->
  TradingBot.manageExistingPositions config env sym data analysis
  = ([], Returned tt).
Proof.
  intros Hopen Hrev Hdanger.
  unfold TradingBot.manageExistingPositions.
  rewrite Hopen, (no_reversal_branch analysis position Hrev).
  pose proof (no_significant_danger analysis Hdanger) as Hnone.
  destruct (TradingBot.an_dangerSignals analysis); [reflexivity|].
  rewrite Hnone. reflexivity.
Qed.

Lemma X7_witness :
  TradingBot.manageExistingPositions
    TradingBot.DEFAULT_CONFIG Scenario.closeRefused "AAPL"
    (Scenario.holding (TradingBot.mkAnalysis "AAPL" AnalysisEngine.SELL 70
                                             (Some 100) []))
    (TradingBot.mkAnalysis "AAPL" AnalysisEngine.SELL 70 (Some 100) [])
  = ([], Returned tt).
Proof.
  apply (X7_hold_has_no_effect
           TradingBot.DEFAULT_CONFIG Scenario.closeRefused "AAPL"
           (Scenario.holding
              (TradingBot.mkAnalysis "AAPL" AnalysisEngine.SELL 70
                                     (Some 100) []))
           (TradingBot.mkAnalysis "AAPL" AnalysisEngine.SELL 70 (Some 100) [])
           Scenario.longPosition []).
  - reflexivity.
  - intros [_ Hconf]. vm_compute in Hconf. apply Hconf. reflexivity.
  - intros (d & [] & _).
Defined.

(** X8.  A rejected order: when [createOrder] throws, [openNewPosition]
    logs the error and returns; no trade record is saved and no trade is
    announced. *)
Theorem X8_rejected_order_is_logged_only
        (config : TradingBot.TradingConfig) (env : TradingBot.Collaborators)
        (sym : string) (data : TradingBot.SymbolData)
        (analysis : TradingBot.Analysis) (balance : Q) (message : string) :
  (forall order, TradingBot.createOrder env order = Thrown message) ->
  TradingBot.openNewPosition config env sym data analysis balance
  = ([TradingBot.ErrorLogged "openNewPosition" message], Returned tt).
Proof.
  apply openNewPosition_rejected.
Qed.

Lemma X8_witness :
  TradingBot.openNewPosition
    TradingBot.DEFAULT_CONFIG Scenario.orderRejected "AAPL"
    (Scenario.holding Scenario.sell80) Scenario.sell80 12000
  = ([TradingBot.ErrorLogged "openNewPosition" "insufficient buying power"],
     Returned tt).
Proof.
  apply (X8_rejected_order_is_logged_only
           TradingBot.DEFAULT_CONFIG Scenario.orderRejected "AAPL"
           (Scenario.holding Scenario.sell80) Scenario.sell80 12000
           "insufficient buying power").
  intros order. reflexivity.
Defined.

(** X9.  A reversal whose reopening fails leaves the symbol without a
    position: when the close and its record go through but the order is
    then rejected, the effects are the close, the CLOSED_REVERSAL record,
    the wait and one logged error; nothing is opened and the function
    returns normally. *)
Theorem X9_reversal_with_rejected_order
        (config : TradingBot.TradingConfig) (env : TradingBot.Collaborators)
        (sym : string) (data : TradingBot.SymbolData)
        (analysis : TradingBot.Analysis) (position : TradingBot.Position)
        (rest : list TradingBot.Position) (equity : Q) (message : string) :
  TradingBot.openPositions data = position :: rest ->
  Spec.opposes (TradingBot.an_direction analysis)
               (TradingBot.p_side position) ->
  75 <= TradingBot.an_confidence analysis ->
  TradingBot.closePosition env sym = Returned tt ->
  (forall t, TradingBot.saveTrade env t = Returned tt) ->
  TradingBot.getAccount env = Returned equity ->
  (forall order, TradingBot.createOrder env order = Thrown message) ->
  TradingBot.manageExistingPositions config env sym data analysis
  = ([TradingBot.PositionClosed sym;
      TradingBot.TradeSaved
        (TradingBot.closingRecord sym position TradingBot.CLOSED_REVERSAL);
      TradingBot.Waited 1000;
      TradingBot.ErrorLogged "openNewPosition" message],
     Returned tt).
Proof.
  intros Hopen Hopp Hconf Hclose Hsave Haccount Hreject.
  unfold TradingBot.manageExistingPositions.
  rewrite Hopen, (opposes_differs analysis position Hopp).
  replace (Js.geb (TradingBot.an_confidence analysis) 75) with true
    by (symmetry; apply geb_true; exact Hconf).
  cbn [negb andb]. cbv zeta.
  unfold TradingBot.Effects.bind at 1 2 3 4, TradingBot.Effects.call,
    TradingBot.Effects.tell.
  rewrite Hclose, Hsave, Haccount.
  rewrite (openNewPosition_rejected config env sym data analysis
                                    equity message Hreject).
  reflexivity.
Qed.

Lemma X9_witness :
  TradingBot.manageExistingPositions
    TradingBot.DEFAULT_CONFIG Scenario.orderRejected "AAPL"
    (Scenario.holding Scenario.sell80) Scenario.sell80
  = ([TradingBot.PositionClosed "AAPL";
      TradingBot.TradeSaved
        (TradingBot.closingRecord "AAPL" Scenario.longPosition
                                  TradingBot.CLOSED_REVERSAL);
      TradingBot.Waited 1000;
      TradingBot.ErrorLogged "openNewPosition" "insufficient buying power"],
     Returned tt).
Proof.
  apply (X9_reversal_with_rejected_order
           TradingBot.DEFAULT_CONFIG Scenario.orderRejected "AAPL"
           (Scenario.holding Scenario.sell80) Scenario.sell80
           Scenario.longPosition [] 12000 "insufficient buying power").
  - reflexivity.
  - left. split; reflexivity.
  - vm_compute. discriminate.
  - reflexivity.
  - intros t. reflexivity.
  - reflexivity.
  - intros order. reflexivity.
Defined.

(* ------------------------------------------------------------------ *)
(** ** What [processSymbol] does with a report *)

Section ReportHandling.
Import Js AnalysisEngine TradingBot TradingBot.Effects.

Lemma tl_app_singleton {A : Type} (xs : list A) (x : A) :
  xs <> [] -> tl (xs ++ [x]) = tl xs ++ [x].
Proof.
  destruct xs; [congruence | reflexivity].
Qed.

End ReportHandling.

(** X10.  The history of a symbol is a queue of at most 100 analyses:
    [processSymbol] appends the analysis it works with, and when that
    makes 101 entries it drops the oldest.  The analysis is also kept as
    [lastAnalysis], and [openPositions] becomes the reported positions of
    this symbol. *)
Theorem X10_history_is_bounded_queue
        (config : TradingBot.TradingConfig) (env : TradingBot.Collaborators)
        (sym : string) (data : TradingBot.SymbolData) (balance : Q)
        (positions : list TradingBot.Position)
        (barData : list AnalysisEngine.Bar) (random : Q)
        (report : AnalysisEngine.AnalysisReport) :
  (List.length (TradingBot.analysisHistory data) <= 100)%nat ->
  (List.length
     (TradingBot.analysisHistory
        (fst (TradingBot.processReport config env sym data balance
                                       positions barData random report)))
   <= 100)%nat
  /\ TradingBot.analysisHistory
       (fst (TradingBot.processReport config env sym data balance
                                      positions barData random report))
     = (if (List.length (TradingBot.analysisHistory data) <? 100)%nat
        then TradingBot.analysisHistory data
        else tl (TradingBot.analysisHistory data))
       ++ [TradingBot.checkAnalysis sym barData random report]
  /\ TradingBot.lastAnalysis
       (fst (TradingBot.processReport config env sym data balance
                                      positions barData random report))
     = Some (TradingBot.checkAnalysis sym barData random report)
  /\ TradingBot.openPositions
       (fst (TradingBot.processReport config env sym data balance
                                      positions barData random report))
     = filter (fun p => String.eqb (TradingBot.p_symbol p) sym) positions.
Proof.
  intros Hlen. unfold TradingBot.processReport. cbv zeta.
  cbn [fst TradingBot.analysisHistory TradingBot.lastAnalysis
       TradingBot.openPositions].
  set (history := TradingBot.analysisHistory data) in *.
  set (analysis := TradingBot.checkAnalysis sym barData random report).
  rewrite length_app. cbn [List.length].
  destruct (List.length history <? 100)%nat eqn:Hroom.
  - apply Nat.ltb_lt in Hroom.
    replace (100 <? List.length history + 1)%nat with false
      by (symmetry; apply Nat.ltb_ge; lia).
    rewrite length_app. cbn [List.length]. repeat split. lia.
  - apply Nat.ltb_ge in Hroom.
    replace (100 <? List.length history + 1)%nat with true
      by (symmetry; apply Nat.ltb_lt; lia).
    assert (Hne : history <> []).
    { intros E. rewrite E in Hroom. cbn in Hroom. lia. }
    rewrite (tl_app_singleton history analysis Hne).
    rewrite length_app. cbn [List.length].
    repeat split.
    destruct history; [congruence|]. cbn [tl List.length] in *. lia.
Qed.

Lemma X10_witness :
  (List.length
     (TradingBot.analysisHistory
        (fst (TradingBot.processReport
                TradingBot.DEFAULT_CONFIG Scenario.answering "AAPL"
                (Scenario.holding Scenario.sell80) 12000 []
                Scenario.oneBar 0.7 Scenario.noDirection)))
   <= 100)%nat
  /\ TradingBot.analysisHistory
       (fst (TradingBot.processReport
               TradingBot.DEFAULT_CONFIG Scenario.answering "AAPL"
               (Scenario.holding Scenario.sell80) 12000 []
               Scenario.oneBar 0.7 Scenario.noDirection))
     = (if (List.length
              (TradingBot.analysisHistory (Scenario.holding Scenario.sell80))
            <? 100)%nat
        then TradingBot.analysisHistory (Scenario.holding Scenario.sell80)
        else tl (TradingBot.analysisHistory
                   (Scenario.holding Scenario.sell80)))
       ++ [TradingBot.checkAnalysis "AAPL" Scenario.oneBar 0.7
                                    Scenario.noDirection]
  /\ TradingBot.lastAnalysis
       (fst (TradingBot.processReport
               TradingBot.DEFAULT_CONFIG Scenario.answering "AAPL"
               (Scenario.holding Scenario.sell80) 12000 []
               Scenario.oneBar 0.7 Scenario.noDirection))
     = Some (TradingBot.checkAnalysis "AAPL" Scenario.oneBar 0.7
                                      Scenario.noDirection)
  /\ TradingBot.openPositions
       (fst (TradingBot.processReport
               TradingBot.DEFAULT_CONFIG Scenario.answering "AAPL"
               (Scenario.holding Scenario.sell80) 12000 []
               Scenario.oneBar 0.7 Scenario.noDirection))
     = filter (fun p => String.eqb (TradingBot.p_symbol p) "AAPL") [].
Proof.
  apply (X10_history_is_bounded_queue
           TradingBot.DEFAULT_CONFIG Scenario.answering "AAPL"
           (Scenario.holding Scenario.sell80) 12000 []
           Scenario.oneBar 0.7 Scenario.noDirection).
  cbn. lia.
Defined.

(** X11.  The opening threshold of [processSymbol].  The bars and the
    reported positions are inputs of the model: [fetched] is what the
    request for bars delivered, [positions] what the caller read.  When
    the engine returns a report, no position of the symbol is reported
    and the confidence of the adopted analysis is below 60, the only
    effect of [processSymbol] is the publication of the analysis, and
    its result is the same whatever [closePosition], [getAccount],
    [getLatestQuote], [createOrder] and [saveTrade] would answer. *)
Theorem X11_below_threshold_only_publishes
        (config : TradingBot.TradingConfig) (env : TradingBot.Collaborators)
        (suite : AnalysisEngine.AnalyzerSuite) (sym : string)
        (data : TradingBot.SymbolData) (balance : Q)
        (positions : list TradingBot.Position)
        (fetched mock : list AnalysisEngine.Bar) (random : Q)
        (report : AnalysisEngine.AnalysisReport) :
  AnalysisEngine.performTechnicalAnalysis
    suite sym (if (List.length fetched <? 50)%nat then mock else fetched)
  = Returned report ->
  filter (fun p => String.eqb (TradingBot.p_symbol p) sym) positions = [] ->
  TradingBot.an_confidence
    (TradingBot.checkAnalysis
       sym (if (List.length fetched <? 50)%nat then mock else fetched)
       random report) < 60 ->
  snd (TradingBot.processSymbol config env suite sym data balance
                                positions fetched mock random)
  = [TradingBot.Emitted "analysisUpdate" sym]
  /\ forall env' : TradingBot.Collaborators,
       TradingBot.processSymbol config env' suite sym data balance
                                positions fetched mock random
       = TradingBot.processSymbol config env suite sym data balance
                                  positions fetched mock random.
Proof.
  intros Hrun Hnone Hlow.
  assert (Hall : forall e : TradingBot.Collaborators,
             TradingBot.processSymbol config e suite sym data balance
                                      positions fetched mock random
             = (TradingBot.mkData
                  (TradingBot.isTrading data)
                  (Some (TradingBot.checkAnalysis
                           sym
                           (if (List.length fetched <? 50)%nat
                            then mock else fetched)
                           random report))
                  []
                  (if (100 <? List.length
                                (TradingBot.analysisHistory data
                                 ++ [TradingBot.checkAnalysis
                                       sym
                                       (if (List.length fetched <? 50)%nat
                                        then mock else fetched)
                                       random report]))%nat
                   then tl (TradingBot.analysisHistory data
                            ++ [TradingBot.checkAnalysis
                                  sym
                                  (if (List.length fetched <? 50)%nat
                                   then mock else fetched)
                                  random report])
                   else TradingBot.analysisHistory data
                        ++ [TradingBot.checkAnalysis
                              sym
                              (if (List.length fetched <? 50)%nat
                               then mock else fetched)
                              random report]),
                [TradingBot.Emitted "analysisUpdate" sym])).
  { intros e. unfold TradingBot.processSymbol. cbv zeta.
    rewrite Hrun. unfold TradingBot.processReport. cbv zeta.
    rewrite Hnone.
    replace (Js.geb (TradingBot.an_confidence
                       (TradingBot.checkAnalysis
                          sym
                          (if (List.length fetched <? 50)%nat
                           then mock else fetched)
                          random report))
                    60) with false
      by (symmetry; apply geb_false; exact Hlow).
    reflexivity. }
  split.
  - rewrite (Hall env). reflexivity.
  - intros env'. rewrite (Hall env'), (Hall env). reflexivity.
Qed.

Lemma X11_witness :
  snd (TradingBot.processSymbol
         TradingBot.DEFAULT_CONFIG Scenario.answering Scenario.macdThrows
         "AAPL" (TradingBot.mkData false None [] []) 12000 []
         (repeat (AnalysisEngine.mkBar 100 101 99 100 1000) 50) [] 0.7)
  = [TradingBot.Emitted "analysisUpdate" "AAPL"]
  /\ forall env' : TradingBot.Collaborators,
       TradingBot.processSymbol
         TradingBot.DEFAULT_CONFIG env' Scenario.macdThrows
         "AAPL" (TradingBot.mkData false None [] []) 12000 []
         (repeat (AnalysisEngine.mkBar 100 101 99 100 1000) 50) [] 0.7
       = TradingBot.processSymbol
           TradingBot.DEFAULT_CONFIG Scenario.answering Scenario.macdThrows
           "AAPL" (TradingBot.mkData false None [] []) 12000 []
           (repeat (AnalysisEngine.mkBar 100 101 99 100 1000) 50) [] 0.7.
Proof.
  apply (X11_below_threshold_only_publishes
           TradingBot.DEFAULT_CONFIG Scenario.answering Scenario.macdThrows
           "AAPL" (TradingBot.mkData false None [] []) 12000 []
           (repeat (AnalysisEngine.mkBar 100 101 99 100 1000) 50) [] 0.7
           (AnalysisEngine.mkReport "AAPL" (Some 100) []
              (Some AnalysisEngine.NEUTRAL) (Some 50) []
              (Some "Cannot read properties of undefined"))).
  - reflexivity.
  - reflexivity.
  - vm_compute. reflexivity.
Defined.

(* ------------------------------------------------------------------ *)
(** ** The report of the engine and the check of the bot *)

Section EngineReports.
Import Js AnalysisEngine TradingBot.

Lemma consensus_range (analyses : list AnalysisEntry) :
  50 <= f_confidence (calculateFinalResult analyses)
  /\ f_confidence (calculateFinalResult analyses) <= 100.
Proof.
  unfold calculateFinalResult.
  destruct (if gtb _ _ then _ else _) as [direction confidence].
  cbn [f_confidence]. apply clamp_range.
Qed.

(** A report of [performTechnicalAnalysis] has a direction and a
    confidence, on the path through the [catch] block as well. *)
Lemma engine_report_complete (suite : AnalyzerSuite) (sym : string)
      (barData : list Bar) (report : AnalysisReport) :
  performTechnicalAnalysis suite sym barData = Returned report ->
  exists d c,
    direction report = Some d /\ confidence report = Some c
    /\ symbol report = sym /\ 50 <= c /\ c <= 100.
Proof.
  unfold performTechnicalAnalysis.
  destruct (runAnalyzers suite sym barData) as [entries|message].
  - intros H. injection H as <-.
    exists (f_direction (calculateFinalResult entries)),
           (f_confidence (calculateFinalResult entries)).
    cbn [direction confidence symbol].
    pose proof (consensus_range entries) as [Hlo Hhi].
    repeat split; assumption.
  - destruct (fromEnd barData 1) as [lastBar|]; [|discriminate].
    intros H. injection H as <-. exists NEUTRAL, 50.
    cbn [direction confidence symbol]. repeat split; lra.
Qed.

End EngineReports.

(** X12.  The draw of line 348 is never used.  For given bars (the
    bars delivered, or the bars of [generateMockBarData], whose own
    draws are part of [mock]) every report [performTechnicalAnalysis]
    returns has a direction and a confidence, so the fallback of lines
    344-354 is not taken: whatever [Math.random()] yields there,
    [processSymbol] leaves the same data and the same effects. *)
Theorem X12_random_fallback_unreachable
        (config : TradingBot.TradingConfig) (env : TradingBot.Collaborators)
        (suite : AnalysisEngine.AnalyzerSuite) (sym : string)
        (data : TradingBot.SymbolData) (balance : Q)
        (positions : list TradingBot.Position)
        (fetched mock : list AnalysisEngine.Bar) (random random' : Q) :
  TradingBot.processSymbol config env suite sym data balance positions
                           fetched mock random
  = TradingBot.processSymbol config env suite sym data balance positions
                             fetched mock random'.
Proof.
  unfold TradingBot.processSymbol. cbv zeta.
  set (barData := if (List.length fetched <? 50)%nat then mock else fetched).
  destruct (AnalysisEngine.performTechnicalAnalysis suite sym barData)
    as [report|message] eqn:Hrun; [|reflexivity].
  destruct (engine_report_complete suite sym barData report Hrun)
    as (d & c & Hd & Hc & _).
  unfold TradingBot.processReport, TradingBot.checkAnalysis.
  rewrite Hd, Hc. reflexivity.
Qed.

(** X13.  The analysis [processSymbol] adopts for a report of
    [performTechnicalAnalysis] carries the symbol asked for and a
    confidence in [[50, 100]]. *)
Theorem X13_adopted_analysis_in_range
        (suite : AnalysisEngine.AnalyzerSuite) (sym : string)
        (barData : list AnalysisEngine.Bar) (random : Q)
        (report : AnalysisEngine.AnalysisReport) :
  AnalysisEngine.performTechnicalAnalysis suite sym barData
  = Returned report ->
  TradingBot.an_symbol (TradingBot.checkAnalysis sym barData random report)
  = sym
  /\ 50 <= TradingBot.an_confidence
             (TradingBot.checkAnalysis sym barData random report)
  /\ TradingBot.an_confidence
       (TradingBot.checkAnalysis sym barData random report) <= 100.
Proof.
  intros Hrun.
  destruct (engine_report_complete suite sym barData report Hrun)
    as (d & c & Hd & Hc & Hsym & Hlo & Hhi).
  unfold TradingBot.checkAnalysis. rewrite Hd, Hc.
  cbn [TradingBot.an_symbol TradingBot.an_confidence].
  repeat split; assumption.
Qed.

Lemma X13_witness :
  TradingBot.an_symbol
    (TradingBot.checkAnalysis "AAPL" Scenario.oneBar 0.7
       (AnalysisEngine.mkReport "AAPL" (Some 100) []
          (Some AnalysisEngine.NEUTRAL) (Some 50) []
          (Some "Cannot read properties of undefined")))
  = "AAPL"
  /\ 50 <= TradingBot.an_confidence
             (TradingBot.checkAnalysis "AAPL" Scenario.oneBar 0.7
                (AnalysisEngine.mkReport "AAPL" (Some 100) []
                   (Some AnalysisEngine.NEUTRAL) (Some 50) []
                   (Some "Cannot read properties of undefined")))
  /\ TradingBot.an_confidence
       (TradingBot.checkAnalysis "AAPL" Scenario.oneBar 0.7
          (AnalysisEngine.mkReport "AAPL" (Some 100) []
             (Some AnalysisEngine.NEUTRAL) (Some 50) []
             (Some "Cannot read properties of undefined"))) <= 100.
Proof.
  apply (X13_adopted_analysis_in_range Scenario.macdThrows "AAPL"
           Scenario.oneBar 0.7).
  reflexivity.
Defined.

(* ------------------------------------------------------------------ *)
(** ** The moving-average, MACD and candlestick analyzers *)

Section ShortSeries.
Import Js AnalysisEngine Indicators Analyzers.

Lemma sma_short (data : list Q) (period : nat) :
  (List.length data < period)%nat -> sma data period = [].
Proof.
  intros H. unfold sma.
  replace (List.length data <? period)%nat with true
    by (symmetry; apply Nat.ltb_lt; exact H).
  reflexivity.
Qed.

Lemma ema_short (data : list Q) (period : nat) :
  (List.length data < period)%nat -> ema data period = [].
Proof.
  intros H. unfold ema.
  replace (List.length data <? period)%nat with true
    by (symmetry; apply Nat.ltb_lt; exact H).
  reflexivity.
Qed.

Lemma fromEnd_short {A : Type} (xs : list A) (k : nat) :
  (List.length xs < k)%nat -> fromEnd xs k = None.
Proof.
  intros H. unfold fromEnd.
  replace (k <=? List.length xs)%nat with false
    by (symmetry; apply Nat.leb_gt; exact H).
  rewrite andb_false_r. reflexivity.
Qed.

Lemma lift2_none_r (op : Q -> Q -> bool) (x : option Q) :
  lift2 op x None = false.
Proof. destruct x; reflexivity. Qed.

Lemma length_differences (xs ys : list Q) :
  List.length (differences xs ys)
  = Nat.min (List.length xs) (List.length ys).
Proof.
  revert ys. induction xs as [|x xs IH]; intros [|y ys]; try reflexivity.
  cbn [differences List.length Nat.min]. rewrite IH. reflexivity.
Qed.

Lemma length_macdLine (data : list Q) (fast slow signal : nat) :
  (fast <= slow)%nat ->
  List.length (macdLine (macd data fast slow signal))
  = if (List.length data <? slow)%nat then 0%nat
    else (List.length data - slow + 1)%nat.
Proof.
  intros Hfs. unfold macd. cbv zeta.
  rewrite !length_ema.
  destruct (List.length data <? slow)%nat eqn:Hslow.
  - rewrite orb_true_r. reflexivity.
  - apply Nat.ltb_ge in Hslow.
    replace (List.length data <? fast)%nat with false
      by (symmetry; apply Nat.ltb_ge; lia).
    replace (List.length data - fast + 1 <? 1)%nat with false
      by (symmetry; apply Nat.ltb_ge; lia).
    replace (List.length data - slow + 1 <? 1)%nat with false
      by (symmetry; apply Nat.ltb_ge; lia).
    cbn [orb macdLine].
    rewrite length_differences, length_skipn, !length_ema.
    replace (List.length data <? fast)%nat with false
      by (symmetry; apply Nat.ltb_ge; lia).
    replace (List.length data <? slow)%nat with false
      by (symmetry; apply Nat.ltb_ge; lia).
    lia.
Qed.

Lemma length_signalLine (data : list Q) (fast slow signal : nat) :
  (1 <= signal)%nat ->
  List.length (signalLine (macd data fast slow signal))
  = if (List.length (macdLine (macd data fast slow signal)) <? signal)%nat
    then 0%nat
    else (List.length (macdLine (macd data fast slow signal))
          - signal + 1)%nat.
Proof.
  intros Hsig. unfold macd. cbv zeta.
  destruct (_ || _)%bool.
  - cbn [signalLine macdLine List.length].
    destruct signal; [lia | reflexivity].
  - cbn [signalLine macdLine]. apply length_ema.
Qed.

Lemma length_histogram (data : list Q) (fast slow signal : nat) :
  (1 <= signal)%nat ->
  List.length (histogram (macd data fast slow signal))
  = List.length (signalLine (macd data fast slow signal)).
Proof.
  intros Hsig. unfold macd. cbv zeta.
  destruct (_ || _)%bool; [reflexivity|].
  cbn [histogram signalLine].
  rewrite length_differences, length_skipn, length_ema.
  destruct (_ <? signal)%nat eqn:E; [lia|].
  apply Nat.ltb_ge in E. lia.
Qed.

End ShortSeries.

(** X14.  With fewer than 200 closes the series SMA(200) is empty, so
    [analyzeMovingAverages] can emit neither a Golden or Death Cross nor
    "Price Above/Below All MAs": the only signal left is the crossing of
    EMA(9) and SMA(20), and the result is NEUTRAL at 50, BUY at 80 or
    SELL at 80.  ([processSymbol] asks for 100 bars.)  With fewer than
    21 closes no signal is left. *)
Theorem X14_moving_averages_below_200_closes (closes : list Q) :
  (List.length closes < 200)%nat ->
  (Analyzers.analyzeMovingAverages closes
   = AnalysisEngine.mkResult AnalysisEngine.NEUTRAL 50 []
   \/ Analyzers.analyzeMovingAverages closes
      = AnalysisEngine.mkResult AnalysisEngine.BUY 80
          [AnalysisEngine.mkSignal "EMA9 Crosses Above SMA20"
                                   AnalysisEngine.BUY 60]
   \/ Analyzers.analyzeMovingAverages closes
      = AnalysisEngine.mkResult AnalysisEngine.SELL 80
          [AnalysisEngine.mkSignal "EMA9 Crosses Below SMA20"
                                   AnalysisEngine.SELL 60])
  /\ ((List.length closes < 21)%nat ->
      Analyzers.analyzeMovingAverages closes
      = AnalysisEngine.mkResult AnalysisEngine.NEUTRAL 50 []).
Proof.
  intros Hshort. unfold Analyzers.analyzeMovingAverages. cbv zeta.
  rewrite (sma_short closes 200 Hshort).
  rewrite !fromEnd_empty, !lift2_none_r, !andb_false_r.
  cbn [andb app].
  split.
  - destruct (Js.lift2 Js.gtb _ _ && Js.lift2 Js.leb _ _)%bool;
      [right; left; vm_compute; reflexivity|].
    destruct (Js.lift2 Js.ltb _ _ && Js.lift2 Js.geb _ _)%bool;
      [right; right; vm_compute; reflexivity|].
    left. reflexivity.
  - intros Hvery.
    assert (Hsma : Js.fromEnd (Indicators.sma closes 20) 2 = None).
    { apply fromEnd_short. rewrite length_sma.
      destruct (List.length closes <? 20)%nat eqn:E; [lia|].
      apply Nat.ltb_ge in E. lia. }
    rewrite Hsma, !lift2_none_r, !andb_false_r. reflexivity.
Qed.

Lemma X14_witness :
  (Analyzers.analyzeMovingAverages Scenario.fallingCloses
   = AnalysisEngine.mkResult AnalysisEngine.NEUTRAL 50 []
   \/ Analyzers.analyzeMovingAverages Scenario.fallingCloses
      = AnalysisEngine.mkResult AnalysisEngine.BUY 80
          [AnalysisEngine.mkSignal "EMA9 Crosses Above SMA20"
                                   AnalysisEngine.BUY 60]
   \/ Analyzers.analyzeMovingAverages Scenario.fallingCloses
      = AnalysisEngine.mkResult AnalysisEngine.SELL 80
          [AnalysisEngine.mkSignal "EMA9 Crosses Below SMA20"
                                   AnalysisEngine.SELL 60])
  /\ ((List.length Scenario.fallingCloses < 21)%nat ->
      Analyzers.analyzeMovingAverages Scenario.fallingCloses
      = AnalysisEngine.mkResult AnalysisEngine.NEUTRAL 50 []).
Proof.
  apply (X14_moving_averages_below_200_closes Scenario.fallingCloses).
  cbn. lia.
Defined.

(** X15.  The lengths of the three series of [macd]: for
    [fastPeriod <= slowPeriod] and a signal period of at least 1, the
    MACD line has [n - slowPeriod + 1] values when the data has
    [n >= slowPeriod] values and none otherwise; the signal line is that
    many minus [signalPeriod - 1], or empty when the MACD line is
    shorter than [signalPeriod]; the histogram is as long as the signal
    line. *)
Theorem X15_macd_series_lengths
        (data : list Q) (fastPeriod slowPeriod signalPeriod : nat) :
  (fastPeriod <= slowPeriod)%nat ->
  (1 <= signalPeriod)%nat ->
  List.length (Indicators.macdLine
                 (Indicators.macd data fastPeriod slowPeriod signalPeriod))
  = (if (List.length data <? slowPeriod)%nat then 0
     else List.length data - slowPeriod + 1)%nat
  /\ List.length (Indicators.signalLine
                    (Indicators.macd data fastPeriod slowPeriod
                                     signalPeriod))
     = (if (List.length data <? slowPeriod + signalPeriod - 1)%nat then 0
        else List.length data + 2 - slowPeriod - signalPeriod)%nat
  /\ List.length (Indicators.histogram
                    (Indicators.macd data fastPeriod slowPeriod
                                     signalPeriod))
     = List.length (Indicators.signalLine
                      (Indicators.macd data fastPeriod slowPeriod
                                       signalPeriod)).
Proof.
  intros Hfs Hsig.
  pose proof (length_macdLine data fastPeriod slowPeriod signalPeriod Hfs)
    as Hm.
  pose proof (length_signalLine data fastPeriod slowPeriod signalPeriod Hsig)
    as Hs.
  split; [exact Hm|]. split; [|apply length_histogram; exact Hsig].
  rewrite Hs, Hm.
  destruct (List.length data <? slowPeriod)%nat eqn:E1;
    destruct (List.length data <? slowPeriod + signalPeriod - 1)%nat eqn:E2;
    repeat match goal with
           | H : (_ <? _)%nat = true |- _ => apply Nat.ltb_lt in H
           | H : (_ <? _)%nat = false |- _ => apply Nat.ltb_ge in H
           end.
  - replace (0 <? signalPeriod)%nat with true
      by (symmetry; apply Nat.ltb_lt; lia). reflexivity.
  - lia.
  - replace (List.length data - slowPeriod + 1 <? signalPeriod)%nat
      with true by (symmetry; apply Nat.ltb_lt; lia). reflexivity.
  - replace (List.length data - slowPeriod + 1 <? signalPeriod)%nat
      with false by (symmetry; apply Nat.ltb_ge; lia). lia.
Qed.

Lemma X15_witness :
  List.length (Indicators.macdLine
                 (Indicators.macd Scenario.fallingCloses 3 5 4))
  = (if (List.length Scenario.fallingCloses <? 5)%nat then 0
     else List.length Scenario.fallingCloses - 5 + 1)%nat
  /\ List.length (Indicators.signalLine
                    (Indicators.macd Scenario.fallingCloses 3 5 4))
     = (if (List.length Scenario.fallingCloses <? 5 + 4 - 1)%nat then 0
        else List.length Scenario.fallingCloses + 2 - 5 - 4)%nat
  /\ List.length (Indicators.histogram
                    (Indicators.macd Scenario.fallingCloses 3 5 4))
     = List.length (Indicators.signalLine
                      (Indicators.macd Scenario.fallingCloses 3 5 4)).
Proof.
  apply (X15_macd_series_lengths Scenario.fallingCloses 3 5 4); lia.
Defined.

(** X16.  With fewer than 34 closes the signal line of MACD(12, 26, 9)
    is empty, so [analyzeMACD] can only report a crossing of the zero
    line: the result is NEUTRAL at 50, BUY at 83 or SELL at 83.  With
    fewer than 27 closes there is no signal at all. *)
Theorem X16_macd_analyzer_short_series (closes : list Q) :
  (List.length closes < 34)%nat ->
  (Analyzers.analyzeMACD closes
   = AnalysisEngine.mkResult AnalysisEngine.NEUTRAL 50 []
   \/ Analyzers.analyzeMACD closes
      = AnalysisEngine.mkResult AnalysisEngine.BUY 83
          [AnalysisEngine.mkSignal "MACD Crosses Above Zero"
                                   AnalysisEngine.BUY 65]
   \/ Analyzers.analyzeMACD closes
      = AnalysisEngine.mkResult AnalysisEngine.SELL 83
          [AnalysisEngine.mkSignal "MACD Crosses Below Zero"
                                   AnalysisEngine.SELL 65])
  /\ ((List.length closes < 27)%nat ->
      Analyzers.analyzeMACD closes
      = AnalysisEngine.mkResult AnalysisEngine.NEUTRAL 50 []).
Proof.
  intros Hshort.
  pose proof (length_macdLine closes 12 26 9 ltac:(lia)) as Hm.
  pose proof (length_signalLine closes 12 26 9 ltac:(lia)) as Hs.
  pose proof (length_histogram closes 12 26 9 ltac:(lia)) as Hh.
  assert (Hsig : Indicators.signalLine (Indicators.macd closes 12 26 9) = []).
  { apply length_zero_iff_nil. rewrite Hs, Hm.
    destruct (List.length closes <? 26)%nat eqn:E; [reflexivity|].
    apply Nat.ltb_ge in E.
    replace (List.length closes - 26 + 1 <? 9)%nat with true
      by (symmetry; apply Nat.ltb_lt; lia). reflexivity. }
  assert (Hhist : Indicators.histogram (Indicators.macd closes 12 26 9) = []).
  { apply length_zero_iff_nil. rewrite Hh, Hsig. reflexivity. }
  unfold Analyzers.analyzeMACD. cbv zeta.
  rewrite Hsig, Hhist.
  rewrite !fromEnd_empty, !lift2_none_r, !andb_false_r.
  cbn [andb app Js.lift2].
  split.
  - destruct (Js.lift2 Js.gtb _ _ && Js.lift2 Js.leb _ _)%bool;
      [right; left; vm_compute; reflexivity|].
    destruct (Js.lift2 Js.ltb _ _ && Js.lift2 Js.geb _ _)%bool;
      [right; right; vm_compute; reflexivity|].
    left. reflexivity.
  - intros Hvery.
    assert (Hprev : Js.fromEnd
                      (Indicators.macdLine (Indicators.macd closes 12 26 9)) 2
                    = None).
    { apply fromEnd_short. rewrite Hm.
      destruct (List.length closes <? 26)%nat eqn:E; [lia|].
      apply Nat.ltb_ge in E. lia. }
    rewrite Hprev. cbn [Js.lift2]. rewrite !andb_false_r. reflexivity.
Qed.

Lemma X16_witness :
  (Analyzers.analyzeMACD Scenario.fallingCloses
   = AnalysisEngine.mkResult AnalysisEngine.NEUTRAL 50 []
   \/ Analyzers.analyzeMACD Scenario.fallingCloses
      = AnalysisEngine.mkResult AnalysisEngine.BUY 83
          [AnalysisEngine.mkSignal "MACD Crosses Above Zero"
                                   AnalysisEngine.BUY 65]
   \/ Analyzers.analyzeMACD Scenario.fallingCloses
      = AnalysisEngine.mkResult AnalysisEngine.SELL 83
          [AnalysisEngine.mkSignal "MACD Crosses Below Zero"
                                   AnalysisEngine.SELL 65])
  /\ ((List.length Scenario.fallingCloses < 27)%nat ->
      Analyzers.analyzeMACD Scenario.fallingCloses
      = AnalysisEngine.mkResult AnalysisEngine.NEUTRAL 50 []).
Proof.
  apply (X16_macd_analyzer_short_series Scenario.fallingCloses).
  cbn. lia.
Defined.

Section Candlesticks.
Import Js AnalysisEngine Analyzers.

Lemma In_optional (c : bool) (s : Signal) (name : string) :
  In name (map s_name (if c then [s] else [])) ->
  c = true /\ name = s_name s.
Proof.
  destruct c; cbn [map In]; [|contradiction].
  intros [H|[]]. split; [reflexivity | symmetry; exact H].
Qed.

End Candlesticks.

Ltac emitted H :=
  first [ apply In_optional in H;
          let Hname := fresh "Hname" in
          destruct H as [H Hname]; cbn in Hname; try discriminate Hname
        | cbn in H; contradiction ].

Ltac conditions :=
  repeat match goal with
         | H : (_ && _)%bool = true |- _ =>
             apply andb_true_iff in H; destruct H
         | H : Js.gtb _ _ = true |- _ => apply gtb_true in H
         | H : Js.ltb _ _ = true |- _ => apply ltb_true in H
         end.

(** X17.  Whenever [analyzeCandlestickPatterns] returns, its confidence
    lies in [[50, 85]] and it never reports both patterns of an opposed
    pair: a bar is not a Hammer and a Shooting Star at once, the last
    two bars are not a Bullish and a Bearish Engulfing at once, the last
    three not a Morning and an Evening Star at once. *)
Theorem X17_candlestick_patterns_exclusive
        (barData : list AnalysisEngine.Bar)
        (result : AnalysisEngine.AnalyzerResult) :
  Analyzers.analyzeCandlestickPatterns barData = Returned result ->
  (50 <= AnalysisEngine.r_confidence result
   /\ AnalysisEngine.r_confidence result <= 85)
  /\ ~ (In "Hammer" (Vocabulary.signalNames result)
        /\ In "Shooting Star" (Vocabulary.signalNames result))
  /\ ~ (In "Bullish Engulfing" (Vocabulary.signalNames result)
        /\ In "Bearish Engulfing" (Vocabulary.signalNames result))
  /\ ~ (In "Morning Star" (Vocabulary.signalNames result)
        /\ In "Evening Star" (Vocabulary.signalNames result)).
Proof.
  intros Hrun. unfold Analyzers.analyzeCandlestickPatterns in Hrun.
  cbv zeta in Hrun.
  destruct (Js.fromEnd (Js.sliceLast 5 barData) 1) as [lastBar|];
    [|discriminate Hrun].
  injection Hrun as <-. unfold Vocabulary.signalNames.
  rewrite (proj2 (proj2 (conclude_fields _ _))).
  rewrite (proj1 (proj2 (conclude_fields _ _))).
  split.
  { apply verdict_bounds. lra. }
  destruct (Js.fromEnd (Js.sliceLast 5 barData) 3) as [firstBar|];
    destruct (Js.fromEnd (Js.sliceLast 5 barData) 2) as [previousBar|];
    rewrite ?map_app, ?in_app_iff;
    (split; [|split]); intros [H1 H2];
    repeat match goal with
           | H : _ \/ _ |- _ => destruct H as [H|H]
           end;
    emitted H1; emitted H2; conditions; lra.
Qed.

Lemma X17_witness :
  (50 <= AnalysisEngine.r_confidence
           (AnalysisEngine.mkResult AnalysisEngine.BUY 83
              [AnalysisEngine.mkSignal "Hammer" AnalysisEngine.BUY 65])
   /\ AnalysisEngine.r_confidence
        (AnalysisEngine.mkResult AnalysisEngine.BUY 83
           [AnalysisEngine.mkSignal "Hammer" AnalysisEngine.BUY 65]) <= 85)
  /\ ~ (In "Hammer"
           (Vocabulary.signalNames
              (AnalysisEngine.mkResult AnalysisEngine.BUY 83
                 [AnalysisEngine.mkSignal "Hammer" AnalysisEngine.BUY 65]))
        /\ In "Shooting Star"
             (Vocabulary.signalNames
                (AnalysisEngine.mkResult AnalysisEngine.BUY 83
                   [AnalysisEngine.mkSignal "Hammer" AnalysisEngine.BUY 65])))
  /\ ~ (In "Bullish Engulfing"
           (Vocabulary.signalNames
              (AnalysisEngine.mkResult AnalysisEngine.BUY 83
                 [AnalysisEngine.mkSignal "Hammer" AnalysisEngine.BUY 65]))
        /\ In "Bearish Engulfing"
             (Vocabulary.signalNames
                (AnalysisEngine.mkResult AnalysisEngine.BUY 83
                   [AnalysisEngine.mkSignal "Hammer" AnalysisEngine.BUY 65])))
  /\ ~ (In "Morning Star"
           (Vocabulary.signalNames
              (AnalysisEngine.mkResult AnalysisEngine.BUY 83
                 [AnalysisEngine.mkSignal "Hammer" AnalysisEngine.BUY 65]))
        /\ In "Evening Star"
             (Vocabulary.signalNames
                (AnalysisEngine.mkResult AnalysisEngine.BUY 83
                   [AnalysisEngine.mkSignal "Hammer" AnalysisEngine.BUY 65]))).
Proof.
  apply (X17_candlestick_patterns_exclusive
           [AnalysisEngine.mkBar 100 101.2 97 101 1000]).
  vm_compute. reflexivity.
Defined.

(** X18.  With the analyzers embedded here in place,
    [performTechnicalAnalysis] returns a report exactly when there is at
    least one bar: without a bar the candlestick analyzer reads
    [lastBar.open] of [undefined] at the latest, and the [catch] block
    then throws in turn on the close of the last bar. *)
Theorem X18_engine_returns_iff_bars
        (rest : AnalysisEngine.AnalyzerSuite) (sym : string)
        (barData : list AnalysisEngine.Bar) :
  (exists report,
      AnalysisEngine.performTechnicalAnalysis (Analyzers.embedded rest)
                                              sym barData
      = Returned report)
  <-> barData <> [].
Proof.
  split; [|apply performTechnicalAnalysis_returns].
  intros [report Hrun] ->.
  unfold AnalysisEngine.performTechnicalAnalysis in Hrun.
  assert (Hthrows : exists message,
             AnalysisEngine.runAnalyzers (Analyzers.embedded rest) sym []
             = Thrown message).
  { unfold AnalysisEngine.runAnalyzers, Analyzers.embedded. cbv zeta.
    cbn [map andThen
         AnalysisEngine.analyzeMovingAverages AnalysisEngine.analyzeMACD
         AnalysisEngine.analyzeBollingerBands
         AnalysisEngine.analyzeSupportResistance
         AnalysisEngine.analyzeVolume
         AnalysisEngine.analyzeCandlestickPatterns
         AnalysisEngine.analyzeFibonacciLevels AnalysisEngine.analyzeADX].
    destruct (AnalysisEngine.analyzeBollingerBands rest []);
      [|eexists; reflexivity].
    cbn [andThen].
    destruct (AnalysisEngine.analyzeSupportResistance rest [] [] []);
      [|eexists; reflexivity].
    cbn [andThen].
    destruct (AnalysisEngine.analyzeVolume rest [] []);
      [|eexists; reflexivity].
    cbn [andThen]. eexists. reflexivity. }
  destruct Hthrows as [message Hthrows]. rewrite Hthrows in Hrun.
  discriminate Hrun.
Qed.

(* ------------------------------------------------------------------ *)
(** ** The bracket of a new order *)

Section BracketPrices.
Import Js AnalysisEngine FibonacciCalculator Invariants TradingBot.

(** The support and the resistance of a non-empty price list, and how
    they lie. *)
Lemma levels_bracket (first : Q) (rest : list Q) (isUptrend : bool) :
  exists fib,
    calculateFibonacciLevels (first :: rest) isUptrend = Some fib
    /\ minOf first rest <= support fib
    /\ support fib <= resistance fib.
Proof.
  set (current := last rest first).
  set (lowest := minOf first rest).
  set (highest := maxOf first rest).
  assert (Hcur : In current (first :: rest)) by apply last_member.
  assert (Hlow : lowest <= current).
  { destruct (minOf_lower rest first) as [H1 H2].
    destruct Hcur as [<-|Hin]; [exact H1 | exact (H2 _ Hin)]. }
  assert (Hhigh : current <= highest).
  { destruct (maxOf_upper rest first) as [H1 H2].
    destruct Hcur as [<-|Hin]; [exact H1 | exact (H2 _ Hin)]. }
  pose proof (start_tracks current lowest highest Hlow Hhigh) as Hstart.
  cbv zeta in Hstart.
  pose proof (tracks_fold current _
                (Object_entries (retracements highest lowest isUptrend))
                _ _ Hstart) as Hlevels.
  pose proof (tracks_fold current _
                (Object_entries (extensionsOf highest lowest isUptrend))
                _ _ Hlevels) as Hall.
  destruct Hall as [Hsb _ Hsg _ _ Hra _ _ _ _].
  cbn [n_support] in Hsg.
  eexists. split; [reflexivity|].
  cbn [support resistance]. split; [exact Hsg|].
  fold current lowest highest. lra.
Qed.

Lemma In_skipn {A : Type} (n : nat) (xs : list A) (x : A) :
  In x (skipn n xs) -> In x xs.
Proof.
  revert xs. induction n as [|n IH]; intros xs H; [exact H|].
  destruct xs as [|a xs]; [exact H|]. right. apply IH, H.
Qed.

Lemma sliceLast_keeps {A : Type} (n : nat) (xs : list A) :
  (1 <= n)%nat -> xs <> [] -> sliceLast n xs <> [].
Proof.
  intros Hn Hne Hnil. unfold sliceLast in Hnil.
  apply (f_equal (@List.length A)) in Hnil.
  rewrite length_skipn in Hnil. cbn [List.length] in Hnil.
  destruct xs; [congruence|]. cbn [List.length] in Hnil. lia.
Qed.

Lemma orElse_positive (x : option Q) (d : Q) :
  (forall v, x = Some v -> 0 <= v) -> 0 < d -> 0 < orElse x d.
Proof.
  intros Hx Hd. unfold orElse. destruct x as [v|]; [|exact Hd].
  destruct (Qeq_bool v 0) eqn:E; [exact Hd|].
  apply Qeq_bool_neq in E. specialize (Hx v eq_refl).
  apply Qle_lteq in Hx. destruct Hx as [Hx|Hx]; [exact Hx|].
  exfalso. apply E. symmetry. exact Hx.
Qed.

Lemma orElse_keeps (v d : Q) : 0 < v -> orElse (Some v) d = v.
Proof.
  intros Hv. unfold orElse. destruct (Qeq_bool v 0) eqn:E; [|reflexivity].
  apply Qeq_bool_iff in E. lra.
Qed.

Lemma minOf_positive (first : Q) (rest : list Q) :
  (forall p, In p (first :: rest) -> 0 < p) -> 0 < minOf first rest.
Proof.
  intros H. apply H, minOf_member.
Qed.

End BracketPrices.

(** X19.  The bracket of an order is the right way round.  When the
    history of the symbol is not empty and holds no negative price, the
    quote (where there is one) has a positive mid price and the price of
    the analysis is not negative, every order [openNewPosition] places
    carries a stop price and a limit price, with stop <= limit for a BUY
    and limit <= stop otherwise. *)
Theorem X19_bracket_prices_ordered
        (config : TradingBot.TradingConfig) (env : TradingBot.Collaborators)
        (sym : string) (data : TradingBot.SymbolData)
        (analysis : TradingBot.Analysis) (balance : Q)
        (order : TradingBot.Order) (orderId : string) :
  TradingBot.analysisHistory data <> [] ->
  Vocabulary.noNegativePrice (TradingBot.analysisHistory data) ->
  (forall bid ask,
      TradingBot.getLatestQuote env sym = Returned (bid, ask) ->
      0 < bid + ask) ->
  (forall v, TradingBot.an_price analysis = Some v -> 0 <= v) ->
  In (TradingBot.OrderCreated order orderId)
     (fst (TradingBot.openNewPosition config env sym data analysis balance)) ->
  exists stop limit,
    TradingBot.o_stop_price order = Some stop
    /\ TradingBot.o_limit_price order = Some limit
    /\ if AnalysisEngine.Direction_eqb (TradingBot.an_direction analysis)
                                       AnalysisEngine.BUY
       then stop <= limit else limit <= stop.
Proof.
  intros Hne Hhist Hquote Hprice.
  unfold TradingBot.openNewPosition. cbv zeta.
  set (currentPrice :=
         match TradingBot.getLatestQuote env sym with
         | Returned (bidprice, askprice) => (bidprice + askprice) / 2
         | Thrown _ => Js.orElse (TradingBot.an_price analysis) 100
         end).
  assert (Hcur : 0 < currentPrice).
  { unfold currentPrice.
    destruct (TradingBot.getLatestQuote env sym) as [[bid ask]|message].
    - specialize (Hquote bid ask eq_refl).
      apply Qlt_shift_div_l; lra.
    - apply orElse_positive; [exact Hprice | lra]. }
  set (prices := map (fun bar => Js.orElse (TradingBot.an_price bar)
                                           currentPrice)
                     (Js.sliceLast 20 (TradingBot.analysisHistory data))).
  assert (Hpos : forall p, In p prices -> 0 < p).
  { intros p Hin. unfold prices in Hin. apply in_map_iff in Hin.
    destruct Hin as (bar & <- & Hbar).
    apply orElse_positive; [|exact Hcur].
    intros v Hv. apply (Hhist bar v); [|exact Hv].
    unfold Js.sliceLast in Hbar. apply In_skipn in Hbar. exact Hbar. }
  destruct prices as [|first rest] eqn:Hprices.
  { exfalso. unfold prices in Hprices. apply map_eq_nil in Hprices.
    revert Hprices. apply sliceLast_keeps; [lia | exact Hne]. }
  set (isBuy := AnalysisEngine.Direction_eqb
                  (TradingBot.an_direction analysis) AnalysisEngine.BUY).
  destruct (levels_bracket first rest isBuy) as (fib & Hfib & Hlow & Hsr).
  rewrite Hfib. cbn [option_map].
  pose proof (minOf_positive first rest Hpos) as Hmin.
  rewrite !orElse_keeps by lra.
  set (sent := TradingBot.mkOrder _ _ _ _ _ _ _ _).
  assert (Hsent : exists stop limit,
             TradingBot.o_stop_price sent = Some stop
             /\ TradingBot.o_limit_price sent = Some limit
             /\ if isBuy then stop <= limit else limit <= stop).
  { unfold sent. cbn [TradingBot.o_stop_price TradingBot.o_limit_price].
    eexists _, _. split; [reflexivity|]. split; [reflexivity|].
    destruct isBuy; apply toFixed_mono; lra. }
  unfold TradingBot.Effects.catch, TradingBot.Effects.bind,
    TradingBot.Effects.call, TradingBot.Effects.tell.
  destruct (TradingBot.createOrder env sent) as [id|message].
  - destruct (TradingBot.saveTrade env _) as [[]|message];
      cbn [fst app In]; intros [H|H];
      try (injection H as <- _; exact Hsent);
      repeat (destruct H as [H|H]; try discriminate H);
      try contradiction.
  - cbn [fst app In]. intros [H|[]]. discriminate H.
Qed.

Lemma X19_witness :
  exists stop limit,
    TradingBot.o_stop_price
      (TradingBot.mkOrder "AAPL" 10.000000 "sell" "market" "gtc" "bracket"
                          (Some 105.00) (Some 103.82))
    = Some stop
    /\ TradingBot.o_limit_price
         (TradingBot.mkOrder "AAPL" 10.000000 "sell" "market" "gtc" "bracket"
                             (Some 105.00) (Some 103.82))
       = Some limit
    /\ if AnalysisEngine.Direction_eqb
            (TradingBot.an_direction Scenario.sell80) AnalysisEngine.BUY
       then stop <= limit else limit <= stop.
Proof.
  apply (X19_bracket_prices_ordered
           TradingBot.DEFAULT_CONFIG Scenario.answering "AAPL"
           Scenario.swing Scenario.sell80 12000
           (TradingBot.mkOrder "AAPL" 10.000000 "sell" "market" "gtc"
                               "bracket" (Some 105.00) (Some 103.82))
           "order-1").
  - discriminate.
  - intros a v [<-|[<-|[<-|[]]]] Hv; injection Hv as <-;
      vm_compute; discriminate.
  - intros bid ask H. injection H as <- <-. vm_compute. reflexivity.
  - intros v Hv. injection Hv as <-. vm_compute. discriminate.
  - vm_compute. left. reflexivity.
Defined.

(* ------------------------------------------------------------------ *)
(** ** Stops and targets from the Fibonacci levels *)

Section StopsAndTargets.
Import Js AnalysisEngine FibonacciCalculator FibonacciStops.

Lemma extremes_ordered (first : Q) (rest : list Q) :
  minOf first rest <= maxOf first rest.
Proof.
  destruct (minOf_lower rest first) as [H1 _].
  destruct (maxOf_upper rest first) as [H2 _]. lra.
Qed.

(** The loop of the SELL branch never moves a stop that no entry lies
    below. *)
Lemma lowerStop_fixed (entryPrice stop : Q) (entries : list (string * Q)) :
  (forall e, In e entries -> stop <= snd e) ->
  fold_left (lowerStop entryPrice) entries stop = stop.
Proof.
  induction entries as [|e entries IH]; intros Hall; [reflexivity|].
  cbn [fold_left]. unfold lowerStop at 2.
  replace (ltb (snd e) stop) with false
    by (symmetry; apply ltb_false; apply Hall; left; reflexivity).
  rewrite andb_false_r. apply IH. intros e' He'. apply Hall. right. exact He'.
Qed.

(** What the loop of the BUY branch maintains. *)
Lemma raiseStop_fold (entryPrice start : Q) (entries : list (string * Q)) :
  let stop := fold_left (raiseStop entryPrice) entries start in
  start <= stop
  /\ (stop = start \/ In stop (map snd entries) /\ stop < entryPrice)
  /\ (forall e, In e entries -> snd e < entryPrice -> snd e <= stop).
Proof.
  revert start. induction entries as [|e entries IH]; intros start; cbv zeta.
  - cbn [fold_left]. split; [lra|]. split; [left; reflexivity|].
    intros e [].
  - cbn [fold_left]. specialize (IH (raiseStop entryPrice start e)).
    cbv zeta in IH. destruct IH as (Hge & Horigin & Hnear).
    set (stop := fold_left _ _ _) in *.
    unfold raiseStop in Hge, Horigin.
    destruct (ltb (snd e) entryPrice) eqn:Hlt; cbn [andb] in Hge, Horigin.
    + apply ltb_true in Hlt.
      destruct (gtb (snd e) start) eqn:Hgt.
      * apply gtb_true in Hgt. split; [lra|]. split.
        { right. destruct Horigin as [->|[Hin Hs]].
          - split; [left; reflexivity | exact Hlt].
          - split; [right; exact Hin | exact Hs]. }
        intros e' [<-|He'] Hp; [exact Hge | apply Hnear; assumption].
      * apply gtb_false in Hgt. split; [exact Hge|]. split.
        { destruct Horigin as [->|[Hin Hs]]; [left; reflexivity|].
          right. split; [right; exact Hin | exact Hs]. }
        intros e' [<-|He'] Hp; [lra | apply Hnear; assumption].
    + apply ltb_false in Hlt. split; [exact Hge|]. split.
      { destruct Horigin as [->|[Hin Hs]]; [left; reflexivity|].
        right. split; [right; exact Hin | exact Hs]. }
      intros e' [<-|He'] Hp; [lra | apply Hnear; assumption].
Qed.

(** The loop of the BUY branch never moves a stop when no entry lies
    below the entry price. *)
Lemma raiseStop_fixed (entryPrice stop : Q) (entries : list (string * Q)) :
  (forall e, In e entries -> entryPrice <= snd e) ->
  fold_left (raiseStop entryPrice) entries stop = stop.
Proof.
  induction entries as [|e entries IH]; intros Hall; [reflexivity|].
  cbn [fold_left]. unfold raiseStop at 2.
  replace (ltb (snd e) entryPrice) with false
    by (symmetry; apply ltb_false; apply Hall; left; reflexivity).
  cbn [andb]. apply IH. intros e' He'. apply Hall. right. exact He'.
Qed.

Lemma retracements_between (highest lowest : Q) (isUptrend : bool)
      (e : string * Q) :
  lowest <= highest ->
  In e (retracements highest lowest isUptrend) ->
  lowest <= snd e /\ snd e <= highest.
Proof.
  intros Hlh Hin. unfold retracements in Hin. cbv zeta in Hin.
  cbn [In] in Hin.
  repeat (destruct Hin as [<-|Hin]; [cbn [snd]; destruct isUptrend; lra|]).
  contradiction.
Qed.

End StopsAndTargets.

(** X20.  For a SELL (and for every direction other than BUY) the stop
    loss of [calculateStopLossTakeProfit] is the lowest price of the
    list, whatever the entry price: the loop starts from [levels[0]],
    which in a downtrend is the lowest price, and no level lies below
    it.  The take profit lies at or below that stop. *)
Theorem X20_sell_stop_is_lowest_price
        (prices : list Q) (direction : AnalysisEngine.Direction)
        (entryPrice : Q) :
  prices <> [] ->
  direction <> AnalysisEngine.BUY ->
  exists stops,
    FibonacciStops.calculateStopLossTakeProfit prices direction entryPrice
    = Some stops
    /\ Spec.isMinimum (FibonacciStops.stopLoss stops) prices
    /\ FibonacciStops.takeProfit stops <= FibonacciStops.stopLoss stops
    /\ FibonacciStops.risk stops
       = Js.Math_abs (entryPrice - FibonacciStops.stopLoss stops).
Proof.
  intros Hne Hdir. destruct prices as [|first rest]; [congruence|].
  unfold FibonacciStops.calculateStopLossTakeProfit. cbv zeta.
  replace (AnalysisEngine.Direction_eqb direction AnalysisEngine.BUY)
    with false by (destruct direction; [congruence | reflexivity ..]).
  unfold FibonacciCalculator.calculateFibonacciLevels. cbv zeta.
  cbn [FibonacciCalculator.levels FibonacciCalculator.extensions].
  set (lowest := Js.minOf first rest).
  set (highest := Js.maxOf first rest).
  pose proof (extremes_ordered first rest) as Hlh. fold lowest highest in Hlh.
  change (AnalysisEngine.levelPrice
            "1" (FibonacciCalculator.retracements highest lowest false))
    with (Some highest).
  change (AnalysisEngine.levelPrice
            "0" (FibonacciCalculator.retracements highest lowest false))
    with (Some lowest).
  change (AnalysisEngine.levelPrice
            "1.272" (FibonacciCalculator.extensionsOf highest lowest false))
    with (Some (lowest - (highest - lowest) * 0.272)).
  cbv beta iota.
  rewrite lowerStop_fixed.
  2:{ intros e He. apply (proj1 (Object_entries_same _ _)) in He.
      apply (retracements_between highest lowest false e Hlh He). }
  eexists. split; [reflexivity|].
  cbn [FibonacciStops.stopLoss FibonacciStops.takeProfit
       FibonacciStops.risk].
  split.
  { split; [apply minOf_member|].
    destruct (minOf_lower rest first) as [H1 H2].
    intros p [<-|Hin]; [exact H1 | exact (H2 p Hin)]. }
  split; [|reflexivity].
  nra.
Qed.

Lemma X20_witness :
  exists stops,
    FibonacciStops.calculateStopLossTakeProfit
      [100; 110; 104] AnalysisEngine.SELL 104
    = Some stops
    /\ Spec.isMinimum (FibonacciStops.stopLoss stops) [100; 110; 104]
    /\ FibonacciStops.takeProfit stops <= FibonacciStops.stopLoss stops
    /\ FibonacciStops.risk stops
       = Js.Math_abs (104 - FibonacciStops.stopLoss stops).
Proof.
  apply (X20_sell_stop_is_lowest_price [100; 110; 104]
                                       AnalysisEngine.SELL 104);
    discriminate.
Defined.

(** X21.  For a BUY the stop loss of [calculateStopLossTakeProfit] is a
    retracement level.  When the lowest price of the list is below the
    entry price it is the nearest level strictly below the entry price:
    below the entry price, with no level below the entry price above it.
    When the entry price is at or below the lowest price no level lies
    below the entry price, and the stop is the lowest price itself.  In
    both cases it lies between the lowest and the highest price, and
    the take profit is at or above the highest price. *)
Theorem X21_buy_stop_is_nearest_level_below_entry
        (prices : list Q) (entryPrice : Q) :
  prices <> [] ->
  exists stops lowest highest,
    FibonacciStops.calculateStopLossTakeProfit prices AnalysisEngine.BUY
                                               entryPrice
    = Some stops
    /\ Spec.isMinimum lowest prices
    /\ Spec.isMaximum highest prices
    /\ In (FibonacciStops.stopLoss stops)
          (map snd (FibonacciCalculator.retracements highest lowest true))
    /\ lowest <= FibonacciStops.stopLoss stops
    /\ FibonacciStops.stopLoss stops <= highest
    /\ (lowest < entryPrice -> FibonacciStops.stopLoss stops < entryPrice)
    /\ (forall e,
           In e (FibonacciCalculator.retracements highest lowest true) ->
           snd e < entryPrice -> snd e <= FibonacciStops.stopLoss stops)
    /\ (entryPrice <= lowest ->
        FibonacciStops.stopLoss stops = lowest
        /\ forall e,
             In e (FibonacciCalculator.retracements highest lowest true) ->
             ~ snd e < entryPrice)
    /\ highest <= FibonacciStops.takeProfit stops.
Proof.
  intros Hne. destruct prices as [|first rest]; [congruence|].
  unfold FibonacciStops.calculateStopLossTakeProfit. cbv zeta.
  cbn [AnalysisEngine.Direction_eqb].
  unfold FibonacciCalculator.calculateFibonacciLevels. cbv zeta.
  cbn [FibonacciCalculator.levels FibonacciCalculator.extensions].
  set (lowest := Js.minOf first rest).
  set (highest := Js.maxOf first rest).
  pose proof (extremes_ordered first rest) as Hlh. fold lowest highest in Hlh.
  change (AnalysisEngine.levelPrice
            "1" (FibonacciCalculator.retracements highest lowest true))
    with (Some lowest).
  change (AnalysisEngine.levelPrice
            "0" (FibonacciCalculator.retracements highest lowest true))
    with (Some highest).
  change (AnalysisEngine.levelPrice
            "1.272" (FibonacciCalculator.extensionsOf highest lowest true))
    with (Some (highest + (highest - lowest) * 0.272)).
  cbv beta iota.
  pose proof (raiseStop_fold
                entryPrice lowest
                (FibonacciCalculator.Object_entries
                   (FibonacciCalculator.retracements highest lowest true)))
    as Hloop.
  pose proof (raiseStop_fixed
                entryPrice lowest
                (FibonacciCalculator.Object_entries
                   (FibonacciCalculator.retracements highest lowest true)))
    as Hfixed.
  cbv zeta in Hloop. destruct Hloop as (Hge & Horigin & Hnear).
  eexists _, lowest, highest. split; [reflexivity|].
  cbn [FibonacciStops.stopLoss FibonacciStops.takeProfit].
  set (stop := fold_left _ _ _) in *.
  assert (Hlevel : In stop (map snd (FibonacciCalculator.retracements
                                       highest lowest true))).
  { destruct Horigin as [->|[Hin _]].
    - apply in_map_iff. exists ("1"%string, lowest).
      split; [reflexivity|]. cbn. tauto.
    - apply in_map_iff in Hin. destruct Hin as (e & <- & He).
      apply in_map. apply (proj1 (Object_entries_same _ _)). exact He. }
  assert (Hle : stop <= highest).
  { apply in_map_iff in Hlevel. destruct Hlevel as (e & <- & He).
    apply (retracements_between highest lowest true e Hlh He). }
  split.
  { split; [apply minOf_member|].
    destruct (minOf_lower rest first) as [H1 H2].
    intros p [<-|Hin]; [exact H1 | exact (H2 p Hin)]. }
  split.
  { split; [apply maxOf_member|].
    destruct (maxOf_upper rest first) as [H1 H2].
    intros p [<-|Hin]; [exact H1 | exact (H2 p Hin)]. }
  split; [exact Hlevel|].
  split; [exact Hge|]. split; [exact Hle|]. split.
  { intros Hlow. destruct Horigin as [->|[_ Hs]]; [exact Hlow | exact Hs]. }
  split.
  { intros e He Hp. apply Hnear; [|exact Hp].
    apply (proj2 (Object_entries_same _ _)). exact He. }
  split.
  { intros Hentry.
    assert (Hnone : forall e,
               In e (FibonacciCalculator.retracements highest lowest true) ->
               entryPrice <= snd e).
    { intros e He.
      pose proof (retracements_between highest lowest true e Hlh He). lra. }
    split.
    - apply Hfixed. intros e He. apply Hnone.
      apply (proj1 (Object_entries_same _ _)). exact He.
    - intros e He Hp. specialize (Hnone e He). lra. }
  nra.
Qed.

Lemma X21_witness :
  exists stops lowest highest,
    FibonacciStops.calculateStopLossTakeProfit
      [100; 110; 104] AnalysisEngine.BUY 104
    = Some stops
    /\ Spec.isMinimum lowest [100; 110; 104]
    /\ Spec.isMaximum highest [100; 110; 104]
    /\ In (FibonacciStops.stopLoss stops)
          (map snd (FibonacciCalculator.retracements highest lowest true))
    /\ lowest <= FibonacciStops.stopLoss stops
    /\ FibonacciStops.stopLoss stops <= highest
    /\ (lowest < 104 -> FibonacciStops.stopLoss stops < 104)
    /\ (forall e,
           In e (FibonacciCalculator.retracements highest lowest true) ->
           snd e < 104 -> snd e <= FibonacciStops.stopLoss stops)
    /\ (104 <= lowest ->
        FibonacciStops.stopLoss stops = lowest
        /\ forall e,
             In e (FibonacciCalculator.retracements highest lowest true) ->
             ~ snd e < 104)
    /\ highest <= FibonacciStops.takeProfit stops.
Proof.
  apply (X21_buy_stop_is_nearest_level_below_entry [100; 110; 104] 104).
  discriminate.
Defined.

(* ------------------------------------------------------------------ *)
(** ** The active symbols *)

Section ActiveSymbols.
Import TradingBot Symbols.

Lemma has_keys (symbols : ActiveSymbols) (sym : string) :
  has symbols sym = true <-> In sym (keys symbols).
Proof.
  induction symbols as [|[key data] rest IH]; cbn [has keys map fst In].
  - split; [discriminate | contradiction].
  - rewrite orb_true_iff, String.eqb_eq. unfold keys in IH. tauto.
Qed.

Lemma has_get (symbols : ActiveSymbols) (sym : string) :
  has symbols sym = false <-> get symbols sym = None.
Proof.
  induction symbols as [|[key data] rest IH]; cbn [has get].
  - tauto.
  - destruct (String.eqb key sym); cbn [orb]; [|exact IH].
    split; discriminate.
Qed.

Lemma get_set_same (symbols : ActiveSymbols) (sym : string)
      (data : SymbolData) :
  get (set symbols sym data) sym = Some data.
Proof.
  induction symbols as [|[key old] rest IH]; cbn [set get].
  - rewrite String.eqb_refl. reflexivity.
  - destruct (String.eqb key sym) eqn:E; cbn [get]; rewrite E;
      [reflexivity | exact IH].
Qed.

Lemma get_set_other (symbols : ActiveSymbols) (sym other : string)
      (data : SymbolData) :
  other <> sym -> get (set symbols sym data) other = get symbols other.
Proof.
  intros Hother.
  induction symbols as [|[key old] rest IH]; cbn [set get].
  - replace (String.eqb sym other) with false; [reflexivity|].
    symmetry. apply String.eqb_neq. congruence.
  - destruct (String.eqb key sym) eqn:E; cbn [get].
    + apply String.eqb_eq in E. subst key.
      replace (String.eqb sym other) with false; [reflexivity|].
      symmetry. apply String.eqb_neq. congruence.
    + rewrite IH. reflexivity.
Qed.

Lemma keys_set_fresh (symbols : ActiveSymbols) (sym : string)
      (data : SymbolData) :
  has symbols sym = false -> keys (set symbols sym data) = keys symbols ++ [sym].
Proof.
  induction symbols as [|[key old] rest IH]; cbn [has set keys map fst app];
    [reflexivity|].
  destruct (String.eqb key sym); cbn [orb]; [discriminate|].
  intros H. cbn [map fst]. unfold keys in IH. rewrite (IH H). reflexivity.
Qed.

Lemma delete_set_fresh (symbols : ActiveSymbols) (sym : string)
      (data : SymbolData) :
  has symbols sym = false -> delete (set symbols sym data) sym = symbols.
Proof.
  induction symbols as [|[key old] rest IH]; cbn [has set delete].
  - rewrite String.eqb_refl. reflexivity.
  - destruct (String.eqb key sym) eqn:E; cbn [orb]; [discriminate|].
    intros H. cbn [delete]. rewrite E, (IH H). reflexivity.
Qed.

Lemma keys_delete (symbols : ActiveSymbols) (sym other : string) :
  In other (keys (delete symbols sym)) -> In other (keys symbols).
Proof.
  induction symbols as [|[key data] rest IH]; cbn [delete keys map fst In];
    [tauto|].
  destruct (String.eqb key sym); cbn [keys map fst In].
  - intros H. right. exact H.
  - unfold keys in IH. tauto.
Qed.

Lemma NoDup_delete (symbols : ActiveSymbols) (sym : string) :
  NoDup (keys symbols) -> NoDup (keys (delete symbols sym)).
Proof.
  induction symbols as [|[key data] rest IH]; cbn [delete keys map fst];
    [tauto|].
  intros H. inversion H as [|k ks Hnotin Hrest]; subst.
  destruct (String.eqb key sym); [exact Hrest|].
  cbn [keys map fst]. constructor; [|apply IH, Hrest].
  intros Hin. apply Hnotin. apply (keys_delete rest sym key), Hin.
Qed.

Lemma has_delete (symbols : ActiveSymbols) (sym : string) :
  NoDup (keys symbols) -> has (delete symbols sym) sym = false.
Proof.
  induction symbols as [|[key data] rest IH]; cbn [delete keys map fst];
    [reflexivity|].
  intros H. inversion H as [|k ks Hnotin Hrest]; subst.
  destruct (String.eqb key sym) eqn:E.
  - apply String.eqb_eq in E. subst key.
    apply not_true_is_false. intros Hhas. apply Hnotin.
    apply has_keys, Hhas.
  - cbn [has]. rewrite E. cbn [orb]. apply IH, Hrest.
Qed.

Lemma get_delete_other (symbols : ActiveSymbols) (sym other : string) :
  other <> sym -> get (delete symbols sym) other = get symbols other.
Proof.
  intros Hother.
  induction symbols as [|[key data] rest IH]; cbn [delete get];
    [reflexivity|].
  destruct (String.eqb key sym) eqn:E; cbn [get].
  - apply String.eqb_eq in E. subst key.
    replace (String.eqb sym other) with false; [reflexivity|].
    symmetry. apply String.eqb_neq. congruence.
  - rewrite IH. reflexivity.
Qed.

End ActiveSymbols.

(** X22.  [addSymbol] makes the symbol active without touching what is
    there: a symbol that was active keeps its data (its history is not
    reset), a new one starts with the empty data, every other symbol
    keeps its data, and no key is listed twice afterwards if none was
    before. *)
Theorem X22_addSymbol_keeps_existing_data
        (isRunning : bool) (symbols : Symbols.ActiveSymbols) (sym : string) :
  Symbols.get (fst (Symbols.addSymbol isRunning symbols sym)) sym
  = (if Symbols.has symbols sym then Symbols.get symbols sym
     else Some Symbols.freshData)
  /\ Symbols.has (fst (Symbols.addSymbol isRunning symbols sym)) sym = true
  /\ (forall other,
         other <> sym ->
         Symbols.get (fst (Symbols.addSymbol isRunning symbols sym)) other
         = Symbols.get symbols other)
  /\ (NoDup (Symbols.keys symbols) ->
      NoDup (Symbols.keys (fst (Symbols.addSymbol isRunning symbols sym)))).
Proof.
  unfold Symbols.addSymbol.
  destruct (Symbols.has symbols sym) eqn:Hhas; cbn [negb fst].
  - repeat split; auto.
  - split; [apply get_set_same|]. split.
    { destruct (Symbols.has (Symbols.set symbols sym Symbols.freshData) sym)
        eqn:E; [reflexivity|].
      apply has_get in E. rewrite get_set_same in E. discriminate E. }
    split; [intros other Hother; apply get_set_other, Hother|].
    intros Hnodup. rewrite keys_set_fresh by exact Hhas.
    apply NoDup_app; [exact Hnodup | repeat constructor; intros [] |].
    intros k Hk [<-|[]].
    apply has_keys in Hk. congruence.
Qed.

(** X23.  [removeSymbol] drops the symbol whether or not the brokerage
    closed its position.  With no key listed twice, the symbol is not
    active afterwards and every other symbol keeps its data; and when
    the symbol was active and [closePosition] threw, the symbol is
    removed all the same, the error being logged unless its message
    contains "position does not exist". *)
Theorem X23_removeSymbol_drops_even_if_close_fails
        (env : TradingBot.Collaborators) (isRunning : bool)
        (symbols : Symbols.ActiveSymbols) (sym : string) :
  NoDup (Symbols.keys symbols) ->
  Symbols.has (fst (Symbols.removeSymbol env isRunning symbols sym)) sym
  = false
  /\ NoDup (Symbols.keys
              (fst (Symbols.removeSymbol env isRunning symbols sym)))
  /\ (forall other,
         other <> sym ->
         Symbols.get (fst (Symbols.removeSymbol env isRunning symbols sym))
                     other
         = Symbols.get symbols other)
  /\ (forall message,
         Symbols.has symbols sym = true ->
         TradingBot.closePosition env sym = Thrown message ->
         snd (Symbols.removeSymbol env isRunning symbols sym)
         = (if Symbols.includes message "position does not exist"
            then []
            else [Symbols.Brokerage
                    (TradingBot.ErrorLogged "closeAllPositionsForSymbol"
                                            message)])
           ++ [Symbols.ActiveSymbolRemoved sym;
               Symbols.BotStatus isRunning
                 (Symbols.keys (Symbols.delete symbols sym))]).
Proof.
  intros Hnodup. unfold Symbols.removeSymbol.
  destruct (Symbols.has symbols sym) eqn:Hhas; cbn [fst snd].
  - split; [apply has_delete, Hnodup|].
    split; [apply NoDup_delete, Hnodup|].
    split; [intros other Hother; apply get_delete_other, Hother|].
    intros message _ Hclose. unfold Symbols.closeAllPositionsForSymbol.
    rewrite Hclose.
    destruct (Symbols.includes message "position does not exist");
      reflexivity.
  - split; [exact Hhas|]. split; [exact Hnodup|].
    split; [reflexivity|]. intros message Habsurd. discriminate Habsurd.
Qed.

Lemma X23_witness :
  Symbols.has
    (fst (Symbols.removeSymbol Scenario.closeRefused true
            [("AAPL", Scenario.swing); ("MSFT", Symbols.freshData)] "AAPL"))
    "AAPL"
  = false
  /\ NoDup (Symbols.keys
              (fst (Symbols.removeSymbol Scenario.closeRefused true
                      [("AAPL", Scenario.swing); ("MSFT", Symbols.freshData)]
                      "AAPL")))
  /\ (forall other,
         other <> "AAPL" ->
         Symbols.get
           (fst (Symbols.removeSymbol Scenario.closeRefused true
                   [("AAPL", Scenario.swing); ("MSFT", Symbols.freshData)]
                   "AAPL"))
           other
         = Symbols.get
             [("AAPL", Scenario.swing); ("MSFT", Symbols.freshData)] other)
  /\ (forall message,
         Symbols.has [("AAPL", Scenario.swing); ("MSFT", Symbols.freshData)]
                     "AAPL"
         = true ->
         TradingBot.closePosition Scenario.closeRefused "AAPL"
         = Thrown message ->
         snd (Symbols.removeSymbol Scenario.closeRefused true
                [("AAPL", Scenario.swing); ("MSFT", Symbols.freshData)]
                "AAPL")
         = (if Symbols.includes message "position does not exist"
            then []
            else [Symbols.Brokerage
                    (TradingBot.ErrorLogged "closeAllPositionsForSymbol"
                                            message)])
           ++ [Symbols.ActiveSymbolRemoved "AAPL";
               Symbols.BotStatus true
                 (Symbols.keys
                    (Symbols.delete
                       [("AAPL", Scenario.swing);
                        ("MSFT", Symbols.freshData)] "AAPL"))]).
Proof.
  apply (X23_removeSymbol_drops_even_if_close_fails
           Scenario.closeRefused true
           [("AAPL", Scenario.swing); ("MSFT", Symbols.freshData)] "AAPL").
  cbn. repeat constructor; cbn; intuition discriminate.
Defined.

(** X24.  Removing a symbol that was just added restores the map of
    active symbols: for a symbol that is not active, [removeSymbol]
    after [addSymbol] gives back the map as it was, order included. *)
Theorem X24_remove_after_add_restores
        (env : TradingBot.Collaborators) (isRunning isRunning' : bool)
        (symbols : Symbols.ActiveSymbols) (sym : string) :
  Symbols.has symbols sym = false ->
  fst (Symbols.removeSymbol
         env isRunning' (fst (Symbols.addSymbol isRunning symbols sym)) sym)
  = symbols.
Proof.
  intros Hhas. unfold Symbols.addSymbol. rewrite Hhas. cbn [negb fst].
  unfold Symbols.removeSymbol.
  replace (Symbols.has (Symbols.set symbols sym Symbols.freshData) sym)
    with true.
  - cbn [fst]. apply delete_set_fresh, Hhas.
  - symmetry.
    destruct (Symbols.has (Symbols.set symbols sym Symbols.freshData) sym)
      eqn:E; [reflexivity|].
    apply has_get in E. rewrite get_set_same in E. discriminate E.
Qed.

Lemma X24_witness :
  fst (Symbols.removeSymbol
         Scenario.answering true
         (fst (Symbols.addSymbol
                 true [("MSFT", Symbols.freshData)] "AAPL")) "AAPL")
  = [("MSFT", Symbols.freshData)].
Proof.
  apply (X24_remove_after_add_restores
           Scenario.answering true true
           [("MSFT", Symbols.freshData)] "AAPL").
  reflexivity.
Defined.

(* ------------------------------------------------------------------ *)
(** ** Configuration updates, further *)

(** X25.  [updateConfig] is a merge in which the later value wins:
    applying the same update twice is the same as applying it once, and
    a field the second of two updates sets has that value whatever the
    first update did. *)
Theorem X25_updateConfig_later_value_wins
        (config : TradingBot.TradingConfig)
        (first second : TradingBot.ConfigUpdate) :
  TradingBot.updateConfig (TradingBot.updateConfig config second) second
  = TradingBot.updateConfig config second
  /\ (forall v,
         TradingBot.u_maxLot second = Some v ->
         TradingBot.maxLot
           (TradingBot.updateConfig (TradingBot.updateConfig config first)
                                    second) = v)
  /\ (forall v,
         TradingBot.u_minLot second = Some v ->
         TradingBot.minLot
           (TradingBot.updateConfig (TradingBot.updateConfig config first)
                                    second) = v)
  /\ (TradingBot.u_maxLot second = None ->
      TradingBot.maxLot
        (TradingBot.updateConfig (TradingBot.updateConfig config first)
                                 second)
      = TradingBot.maxLot (TradingBot.updateConfig config first)).
Proof.
  split.
  - destruct second as [a b c d e f g].
    unfold TradingBot.updateConfig.
    cbn [TradingBot.u_maxRiskPercent TradingBot.u_minRiskPercent
         TradingBot.u_maxLot TradingBot.u_minLot
         TradingBot.u_targetDailyGrowth TradingBot.u_stopLossMultiplier
         TradingBot.u_takeProfitMultiplier
         TradingBot.maxRiskPercent TradingBot.minRiskPercent
         TradingBot.maxLot TradingBot.minLot TradingBot.targetDailyGrowth
         TradingBot.stopLossMultiplier TradingBot.takeProfitMultiplier].
    destruct a, b, c, d, e, f, g; reflexivity.
  - unfold TradingBot.updateConfig.
    cbn [TradingBot.maxLot TradingBot.minLot].
    split; [|split]; intros; rewrite H; reflexivity.
Qed.

(* ------------------------------------------------------------------ *)
(** ** Market sentiment *)

Section Sentiment.
Import Js AnalysisEngine.

Lemma capped_round (x : Q) :
  20 <= x ->
  70 <= 50 + Math_min 30 (Math_round (x)) /\
  50 + Math_min 30 (Math_round (x)) <= 80.
Proof.
  intros Hx.
  assert (H20 : 20 <= Math_round x).
  { pose proof (Math_round_integer 20) as E.
    pose proof (Math_round_mono (inject_Z 20) x Hx) as Hm.
    change (inject_Z 20) with 20 in *. lra. }
  unfold Math_min.
  pose proof (Q.le_min_l 30 (Math_round x)).
  assert (20 <= Qmin 30 (Math_round x)) by (apply Q.min_glb; lra).
  lra.
Qed.

End Sentiment.

(** X26.  [analyzeMarketSentiment] never throws and knows two kinds of
    result: NEUTRAL at confidence 50 without a signal (also when the
    news service failed or had nothing), or BUY/SELL with a confidence
    between 70 and 80 and exactly one signal, whose strength is that
    confidence. *)
Theorem X26_sentiment_neutral_or_70_to_80
        (news : outcome (list Q)) :
  AnalysisEngine.analyzeMarketSentiment news
  = AnalysisEngine.mkResult AnalysisEngine.NEUTRAL 50 []
  \/ (AnalysisEngine.r_direction (AnalysisEngine.analyzeMarketSentiment news)
      <> AnalysisEngine.NEUTRAL
      /\ 70 <= AnalysisEngine.r_confidence
                 (AnalysisEngine.analyzeMarketSentiment news)
      /\ AnalysisEngine.r_confidence
           (AnalysisEngine.analyzeMarketSentiment news) <= 80
      /\ exists name,
          AnalysisEngine.r_signals
            (AnalysisEngine.analyzeMarketSentiment news)
          = [AnalysisEngine.mkSignal
               name
               (AnalysisEngine.r_direction
                  (AnalysisEngine.analyzeMarketSentiment news))
               (AnalysisEngine.r_confidence
                  (AnalysisEngine.analyzeMarketSentiment news))]).
Proof.
  unfold AnalysisEngine.analyzeMarketSentiment.
  destruct news as [[|item items]|message];
    [left; reflexivity | | left; reflexivity].
  cbv zeta.
  set (avgSentiment := _ / _).
  destruct (Js.gtb avgSentiment 0.2) eqn:Hup.
  - right. apply gtb_true in Hup.
    cbn [AnalysisEngine.r_direction AnalysisEngine.r_confidence
         AnalysisEngine.r_signals].
    split; [discriminate|].
    destruct (capped_round (avgSentiment * 100)) as [Hlo Hhi]; [lra|].
    split; [exact Hlo|]. split; [exact Hhi|].
    eexists. reflexivity.
  - destruct (Js.ltb avgSentiment (- 0.2)) eqn:Hdown; [|left; reflexivity].
    right. apply ltb_true in Hdown.
    cbn [AnalysisEngine.r_direction AnalysisEngine.r_confidence
         AnalysisEngine.r_signals].
    split; [discriminate|].
    assert (Habs : Js.Math_abs avgSentiment == - avgSentiment).
    { unfold Js.Math_abs. apply Qabs_neg. lra. }
    destruct (capped_round (Js.Math_abs avgSentiment * 100)) as [Hlo Hhi];
      [lra|].
    split; [exact Hlo|]. split; [exact Hhi|].
    eexists. reflexivity.
Qed.

(* ------------------------------------------------------------------ *)
(** ** A close the brokerage refuses *)

(** X27.  When the brokerage refuses to close the position,
    [manageExistingPositions] swallows the error: it returns, and its
    only possible effect is the log line of its [catch] block.  Nothing
    is written to the database, and after a refused close no new
    position is opened, reversal or not. *)
Theorem X27_refused_close_trades_nothing
        (config : TradingBot.TradingConfig) (env : TradingBot.Collaborators)
        (sym : string) (data : TradingBot.SymbolData)
        (analysis : TradingBot.Analysis) (message : string) :
  TradingBot.closePosition env sym = Thrown message ->
  snd (TradingBot.manageExistingPositions config env sym data analysis)
  = Returned tt
  /\ (fst (TradingBot.manageExistingPositions config env sym data analysis)
      = []
      \/ exists logged,
          fst (TradingBot.manageExistingPositions config env sym data
                                                  analysis)
          = [TradingBot.ErrorLogged "manageExistingPositions" logged])
  /\ Vocabulary.noTrade
       (fst (TradingBot.manageExistingPositions config env sym data
                                                analysis)).
Proof.
  intros Hclose.
  assert (H : TradingBot.manageExistingPositions config env sym data analysis
              = ([], Returned tt)
              \/ exists logged,
                  TradingBot.manageExistingPositions config env sym data
                                                     analysis
                  = ([TradingBot.ErrorLogged "manageExistingPositions" logged],
                     Returned tt)).
  { unfold TradingBot.manageExistingPositions.
    destruct (TradingBot.openPositions data) as [|position rest].
    { right. eexists. reflexivity. }
    destruct (negb _ && Js.geb _ 75)%bool.
    - right. unfold TradingBot.Effects.bind at 1, TradingBot.Effects.call at 1.
      rewrite Hclose. eexists. reflexivity.
    - destruct (TradingBot.an_dangerSignals analysis) as [|d ds];
        [left; reflexivity|].
      destruct (existsb _ _); [|left; reflexivity].
      right. unfold TradingBot.Effects.bind at 1, TradingBot.Effects.call at 1.
      rewrite Hclose. eexists. reflexivity. }
  destruct H as [H|[logged H]]; rewrite H; cbn [fst snd].
  - split; [reflexivity|]. split; [left; reflexivity|]. intros e [].
  - split; [reflexivity|]. split; [right; eexists; reflexivity|].
    intros e [<-|[]]. exact I.
Qed.

Lemma X27_witness :
  snd (TradingBot.manageExistingPositions
         TradingBot.DEFAULT_CONFIG Scenario.closeRefused "AAPL"
         (Scenario.holding Scenario.sell80) Scenario.sell80)
  = Returned tt
  /\ (fst (TradingBot.manageExistingPositions
             TradingBot.DEFAULT_CONFIG Scenario.closeRefused "AAPL"
             (Scenario.holding Scenario.sell80) Scenario.sell80)
      = []
      \/ exists logged,
          fst (TradingBot.manageExistingPositions
                 TradingBot.DEFAULT_CONFIG Scenario.closeRefused "AAPL"
                 (Scenario.holding Scenario.sell80) Scenario.sell80)
          = [TradingBot.ErrorLogged "manageExistingPositions" logged])
  /\ Vocabulary.noTrade
       (fst (TradingBot.manageExistingPositions
               TradingBot.DEFAULT_CONFIG Scenario.closeRefused "AAPL"
               (Scenario.holding Scenario.sell80) Scenario.sell80)).
Proof.
  apply (X27_refused_close_trades_nothing
           TradingBot.DEFAULT_CONFIG Scenario.closeRefused "AAPL"
           (Scenario.holding Scenario.sell80) Scenario.sell80
           "position does not exist").
  reflexivity.
Defined.
